(** * Ridge and SGD benchmark notebooks: the harness code, embedded and checked

    The repository is two Jupyter notebooks, [cuml/ridge_regression_demo.ipynb]
    and an SGD notebook.  Their own logic is a data loader ([load_data]), a
    conversion and comparison helper ([to_nparray], [array_equal]) and a
    benchmark driver that builds one sklearn and one cuML estimator, fits
    both, predicts and prints two mean squared errors.

    Conventions of the embedding:
    - array elements are rationals ([Q]), the finite numbers; the mean
      squared error is taken in exact arithmetic, so nothing is stated that
      depends on how numpy and sklearn round it, nor about NaN or infinity;
    - [int(nrows*0.8)] IS modelled on IEEE binary64, bit for bit, because the
      split point is an integer the loader computes itself;
    - row and column counts are natural numbers, memory is unbounded;
    - the global numpy generator is the stream of raw draws it will hand out;
    - a path of the file system holds nothing, a compressed [.npy] array of
      numbers, of any number of dimensions, or something that cannot be
      loaded as one;
    - library calls that can refuse their arguments ([make_regression],
      [fit]) return a result;
    - Python exceptions are the [Raise] results of an error monad. *)

From Stdlib Require Import String Ascii List ZArith QArith Qabs Lia Bool Arith.
From Stdlib Require Import DecimalString DecimalNat.
Import ListNotations.

Local Open Scope Z_scope.

(* ================================================================== *)
(** * Python exceptions and the two monads *)

Inductive exn : Set :=
| ValueError
| AttributeError
| KeyError
| IndexError
| FileNotFoundError
| OSError
| EOFError
| TypeError.

Inductive result (A : Type) : Type :=
| Ok (a : A)
| Raise (e : exn).

Arguments Ok {A} a.
Arguments Raise {A} e.

Definition rbind {A B : Type} (r : result A) (k : A -> result B) : result B :=
  match r with
  | Ok a => k a
  | Raise e => Raise e
  end.

Definition is_ok {A : Type} (r : result A) : bool :=
  match r with Ok _ => true | Raise _ => false end.

(* ================================================================== *)
(** * [int(nrows*0.8)] on IEEE binary64 *)

Module Binary64.

(** Round a non-negative integer to 53 significant bits, ties to even.
    This is the conversion [float(n)] of a Python int, and, because
    scaling by a power of two commutes with rounding in the normal range,
    also the rounding of an exact product whose scale is a power of two. *)
Definition round_nearest_even (m : Z) : Z :=
  let s := Z.log2 m + 1 - 53 in
  if s <=? 0 then m
  else
    let q := Z.shiftr m s in
    let r := m - Z.shiftl q s in
    let half := Z.shiftl 1 (s - 1) in
    let q' := if (half <? r) || ((r =? half) && Z.odd q) then q + 1 else q in
    Z.shiftl q' s.

(** The double nearest to 0.8 is 0x3FE999999999999A, that is
    [3602879701896397 / 2^52]. *)
Definition mantissa_0_8 : Z := 3602879701896397.

(** [int(n * 0.8)]: [n] is converted to a double, multiplied by the double
    0.8 with one rounding, and truncated.  (A Python int above the double
    range raises OverflowError; such a count is far beyond any array.) *)
Definition int_mul_0_8 (n : Z) : Z :=
  Z.shiftr (round_nearest_even (round_nearest_even n * mantissa_0_8)) 52.

End Binary64.

(** [train_rows = int(nrows*0.8)] *)
Definition train_rows (nrows : nat) : nat :=
  Z.to_nat (Binary64.int_mul_0_8 (Z.of_nat nrows)).

Arguments train_rows : simpl never.

(* ================================================================== *)
(** * numpy arrays and pandas frames *)

(** A two-dimensional numeric array: [X.shape = (shape0 X, shape1 X)].  The
    column count is kept because an array may have columns and no rows. *)
Record ndarray2 : Type := mk_ndarray2 { shape1 : nat; rows2 : list (list Q) }.

Definition shape0 (X : ndarray2) : nat := length (rows2 X).

(** Every row has [shape1] entries: true of every numpy array. *)
Definition rectangular (X : ndarray2) : Prop :=
  Forall (fun r => length r = shape1 X) (rows2 X).

Definition cell (X : ndarray2) (r c : nat) : Q := nth c (nth r (rows2 X) []) 0%Q.

(** [X[:, i]] *)
Definition column (X : ndarray2) (i : nat) : list Q :=
  map (fun r => nth i r 0%Q) (rows2 X).

(** [X[:, idx]] for a list of column indices [idx] *)
Definition take_columns (X : ndarray2) (idx : list nat) : ndarray2 :=
  {| shape1 := length idx;
     rows2 := map (fun r => map (fun i => nth i r 0%Q) idx) (rows2 X) |}.

(** [X[:, lo:hi]] *)
Definition slice_columns (X : ndarray2) (lo hi : nat) : ndarray2 :=
  {| shape1 := Nat.min hi (shape1 X) - Nat.min lo (shape1 X);
     rows2 := map (fun r => firstn (hi - lo) (skipn lo r)) (rows2 X) |}.

(** [X[lo:hi, i]] and [X[lo:, i]] *)
Definition slice_rows_column (X : ndarray2) (lo hi i : nat) : list Q :=
  map (fun r => nth i r 0%Q) (firstn (hi - lo) (skipn lo (rows2 X))).

Definition from_row_column (X : ndarray2) (lo i : nat) : list Q :=
  map (fun r => nth i r 0%Q) (skipn lo (rows2 X)).

(** One row picked by a (possibly negative) integer index, as numpy's
    integer-array indexing does it: out of range raises IndexError. *)
Definition row_at (X : ndarray2) (i : Z) : result (list Q) :=
  let n := Z.of_nat (shape0 X) in
  if (0 <=? i) && (i <? n) then Ok (nth (Z.to_nat i) (rows2 X) [])
  else if (- n <=? i) && (i <? 0) then Ok (nth (Z.to_nat (n + i)) (rows2 X) [])
  else Raise IndexError.

Fixpoint rows_at (X : ndarray2) (idx : list Z) : result (list (list Q)) :=
  match idx with
  | [] => Ok []
  | i :: idx' =>
      rbind (row_at X i) (fun r =>
      rbind (rows_at X idx') (fun rs => Ok (r :: rs)))
  end.

(** [X[idx, :ncols]] *)
Definition index_rows_upto (X : ndarray2) (idx : list Z) (ncols : nat)
  : result ndarray2 :=
  rbind (rows_at X idx) (fun rs =>
  Ok {| shape1 := Nat.min ncols (shape1 X); rows2 := map (firstn ncols) rs |}).

(** [y[idx]] *)
Definition index_rows (X : ndarray2) (idx : list Z) : result ndarray2 :=
  rbind (rows_at X idx) (fun rs => Ok {| shape1 := shape1 X; rows2 := rs |}).

(** A pandas (or cuDF) frame: its named columns, in order. *)
Definition DataFrame : Type := list (string * list Q).

(** ['fea%d' % i] *)
Definition fea (i : nat) : string :=
  ("fea" ++ NilEmpty.string_of_uint (Nat.to_uint i))%string.

(** [df[name]]: KeyError when there is no such column *)
Fixpoint getitem (df : DataFrame) (name : string) : result (list Q) :=
  match df with
  | [] => Raise KeyError
  | (k, v) :: df' => if String.eqb k name then Ok v else getitem df' name
  end.

(** Number of rows of a frame: a frame without columns has none. *)
Definition frame_len (df : DataFrame) : nat :=
  match df with
  | [] => 0%nat
  | (_, v) :: _ => length v
  end.

(** [df.values]: the row-major two-dimensional array of a frame *)
Definition frame_values (df : DataFrame) : ndarray2 :=
  {| shape1 := length df;
     rows2 := map (fun r => map (fun kv => nth r (snd kv) 0%Q) df)
                  (seq 0 (frame_len df)) |}.

(** An n-dimensional numpy array: shape and row-major buffer. *)
Record ndarray : Type := mk_ndarray { shape : list nat; data : list Q }.

Definition ndarray_of_2d (X : ndarray2) : ndarray :=
  {| shape := [shape0 X; shape1 X]; data := concat (rows2 X) |}.

Definition ndarray_of_1d (v : list Q) : ndarray :=
  {| shape := [length v]; data := v |}.

(** [a.ravel()] *)
Definition ravel (a : ndarray) : ndarray := ndarray_of_1d (data a).

(* ================================================================== *)
(** * The notebook's world: files, the numpy generator, the output *)

Inductive event : Type :=
| EvPrint (s : string)          (* print of a string *)
| EvPrintFloat (x : Q)          (* print of a number *)
| EvPrintShape (label : string) (shape : nat * nat)  (* print(label, df.shape) *)
| EvReadGzip (path : string).   (* gzip.open(path), then np.load on what it opens *)

(** What [np.load] returns for a numeric [.npy] file, by its number of
    dimensions.  Of an array of three or more dimensions only the first two
    extents are kept: the loaders never get to look at its numbers. *)
Inductive npy_array : Type :=
| Dim0 (x : Q)
| Dim1 (v : list Q)
| Dim2 (X : ndarray2)
| Dim3 (n m : nat).   (* shape (n, m, ...) with at least one more extent *)

(** What is at a path: a gzip-compressed [.npy] file holding an array, or
    anything else (a directory, a file that is not gzip, not [.npy], cut
    short, an archive or a pickle without a shape), which stops the loader
    with an exception at [gzip.open], at [np.load] or at the first look at
    what was loaded. *)
Inductive file : Type :=
| Npy (a : npy_array)
| Unloadable (e : exn).

(** An array of at least two dimensions, as the loaders index it: a matrix,
    or the first two extents of a deeper array, whose entries [X[r, c]] are
    arrays themselves. *)
Inductive grid : Type :=
| Flat (X : ndarray2)
| Deep (n m : nat).

Definition grid_shape0 (X : grid) : nat :=
  match X with Flat X => shape0 X | Deep n _ => n end.

Definition grid_shape1 (X : grid) : nat :=
  match X with Flat X => shape1 X | Deep _ m => m end.

(** [X.shape[1]] asks for a second dimension: IndexError when there is
    none.  What comes back is the array, seen as a grid. *)
Definition second_dimension (X : npy_array) : result grid :=
  match X with
  | Dim0 _ | Dim1 _ => Raise IndexError
  | Dim2 X => Ok (Flat X)
  | Dim3 n m => Ok (Deep n m)
  end.

(** [X[:, idx]] and [X[:, lo:hi]] on a grid *)
Definition grid_take_columns (X : grid) (idx : list nat) : grid :=
  match X with
  | Flat X => Flat (take_columns X idx)
  | Deep n _ => Deep n (length idx)
  end.

Definition grid_slice_columns (X : grid) (lo hi : nat) : grid :=
  match X with
  | Flat X => Flat (slice_columns X lo hi)
  | Deep n m => Deep n (Nat.min hi m - Nat.min lo m)
  end.

(** Whether an integer indexes one of [n] rows. *)
Definition row_index_ok (n : nat) (i : Z) : bool :=
  (- Z.of_nat n <=? i) && (i <? Z.of_nat n).

(** [X[idx, :ncols]] and [y[idx]] on a grid *)
Definition grid_index_rows_upto (X : grid) (idx : list Z) (ncols : nat)
  : result grid :=
  match X with
  | Flat X => rbind (index_rows_upto X idx ncols) (fun X' => Ok (Flat X'))
  | Deep n m =>
      if forallb (row_index_ok n) idx then Ok (Deep (length idx) (Nat.min ncols m))
      else Raise IndexError
  end.

Definition grid_index_rows (X : grid) (idx : list Z) : result grid :=
  match X with
  | Flat X => rbind (index_rows X idx) (fun X' => Ok (Flat X'))
  | Deep n m =>
      if forallb (row_index_ok n) idx then Ok (Deep (length idx) m)
      else Raise IndexError
  end.

Record world : Type := mk_world {
  fs : string -> option file;      (* what is at each path *)
  rng : nat -> N;                  (* raw draws the generator hands out next *)
  log : list event                 (* what has been printed and read so far *)
}.

Definition M (A : Type) : Type := world -> result A * world.

Definition ret {A : Type} (a : A) : M A := fun w => (Ok a, w).

Definition bind {A B : Type} (m : M A) (k : A -> M B) : M B :=
  fun w =>
    match m w with
    | (Ok a, w') => k a w'
    | (Raise e, w') => (Raise e, w')
    end.

Definition lift {A : Type} (r : result A) : M A := fun w => (r, w).

Declare Scope py_scope.
Delimit Scope py_scope with py.
Notation "x <- c ;; k" := (bind c (fun x => k))
  (at level 61, c at next level, right associativity) : py_scope.
Notation "' pat <- c ;; k" := (bind c (fun x => match x with pat => k end))
  (at level 61, pat pattern, c at next level, right associativity) : py_scope.
Notation "c ;; k" := (bind c (fun _ => k))
  (at level 61, right associativity) : py_scope.

Definition emit (e : event) : M unit :=
  fun w => (Ok tt, {| fs := fs w; rng := rng w; log := log w ++ [e] |}).

Definition print (s : string) : M unit := emit (EvPrint s).

Definition print_float (x : Q) : M unit := emit (EvPrintFloat x).

(** [os.path.exists(path)] *)
Definition os_path_exists (path : string) : M bool :=
  fun w => (Ok (match fs w path with Some _ => true | None => false end), w).

(** [with gzip.open(path) as f: X = np.load(f)]: the attempt is logged
    whenever there is something at the path. *)
Definition gzip_open_np_load (path : string) : M npy_array :=
  fun w =>
    match fs w path with
    | Some (Npy X) =>
        (Ok X, {| fs := fs w; rng := rng w; log := log w ++ [EvReadGzip path] |})
    | Some (Unloadable e) =>
        (Raise e, {| fs := fs w; rng := rng w; log := log w ++ [EvReadGzip path] |})
    | None => (Raise FileNotFoundError, w)
    end.

(** The generator gives up its next [k] draws. *)
Definition advance (k : nat) : M unit :=
  fun w => (Ok tt, {| fs := fs w; rng := (fun i => rng w (i + k)%nat); log := log w |}).

Definition peek : M (nat -> N) := fun w => (Ok (rng w), w).

(** A raw draw as a double in [0, 1): 53 random bits over 2^53. *)
Definition uniform01 (d : N) : Q :=
  Z.of_N (d mod 9007199254740992) # 9007199254740992.

(** A raw draw as an integer in [low, high). *)
Definition bounded (low high : Z) (d : N) : Z :=
  low + Z.of_N d mod (high - low).

(** The array [np.random.rand(nrows, ncols)] fills, row by row, from the
    draws [s]. *)
Definition uniform_matrix (s : nat -> N) (nrows ncols : nat) : ndarray2 :=
  {| shape1 := ncols;
     rows2 := map (fun i => map (fun j => uniform01 (s (i * ncols + j)%nat))
                                (seq 0 ncols))
                  (seq 0 nrows) |}.

(** [np.random.rand(nrows, ncols)] *)
Definition np_random_rand (nrows ncols : nat) : M ndarray2 :=
  (s <- peek ;;
   advance (nrows * ncols) ;;
   ret (uniform_matrix s nrows ncols))%py.

(** The integers [np.random.randint(low, high, size)] makes of the draws. *)
Definition bounded_values (s : nat -> N) (low high : Z) (size : nat) : list Z :=
  map (fun i => bounded low high (s i)) (seq 0 size).

(** [np.random.randint(low, high, size)]: an empty range is an error unless
    no sample is taken. *)
Definition np_random_randint (low high : Z) (size : nat) : M (list Z) :=
  (if (high <=? low) && negb (size =? 0)%nat then lift (Raise ValueError)
   else
     s <- peek ;;
     advance size ;;
     ret (bounded_values s low high size))%py.

(** [np.random.randint(low, high, size=(nrows, 1))] *)
Definition np_random_randint_column (low high : Z) (nrows : nat) : M ndarray2 :=
  (v <- np_random_randint low high nrows ;;
   ret {| shape1 := 1; rows2 := map (fun z => [inject_Z z]) v |})%py.

(** sklearn's [make_regression] draws from its own generator, seeded by
    [random_state]; it is library code, known here by whether it accepts
    its arguments (later releases refuse some) and by the cells of what it
    returns: [X] of shape (n_samples, n_features) and [y], which the last
    line of the function squeezes: of shape (n_samples,), or a scalar
    (zero-dimensional) when there is a single sample. *)
Record sklearn_datasets : Type := mk_sklearn_datasets {
  regression_refuses : nat -> nat -> nat -> Z -> option exn;
  regression_X : nat -> nat -> nat -> Z -> nat -> nat -> Q;
  regression_y : nat -> nat -> nat -> Z -> nat -> Q
}.

(** The target [y] of [make_regression]: one-dimensional, or squeezed to
    zero dimensions. *)
Inductive target : Type :=
| Target1 (y : list Q)
| Target0 (y : Q).

(** [np.squeeze] of the (n_samples, 1) column of targets *)
Definition squeeze_column (y : list Q) : target :=
  match y with
  | [y0] => Target0 y0
  | _ => Target1 y
  end.

Definition make_regression (lib : sklearn_datasets)
    (n_samples n_features n_informative : nat) (random_state : Z)
  : result (ndarray2 * target) :=
  match regression_refuses lib n_samples n_features n_informative random_state with
  | Some e => Raise e
  | None =>
      Ok ({| shape1 := n_features;
             rows2 := map (fun i => map (regression_X lib n_samples n_features
                                            n_informative random_state i)
                                        (seq 0 n_features))
                          (seq 0 n_samples) |},
          squeeze_column
            (map (regression_y lib n_samples n_features n_informative random_state)
                 (seq 0 n_samples)))
  end.

(** [y[lo:hi,]] and [y[lo:,]] of a target: a zero-dimensional array takes no
    index. *)
Definition target_slice (y : target) (lo hi : nat) : result (list Q) :=
  match y with
  | Target1 y => Ok (firstn (hi - lo) (skipn lo y))
  | Target0 _ => Raise IndexError
  end.

Definition target_from (y : target) (lo : nat) : result (list Q) :=
  match y with
  | Target1 y => Ok (skipn lo y)
  | Target0 _ => Raise IndexError
  end.

(** The frame [{'fea%d'%i: X[lo:hi, i] for i in range(X.shape[1])}] and its
    open-ended sibling with [X[lo:, i]]. *)
Definition frame_of_rows (X : ndarray2) (lo hi : nat) : DataFrame :=
  map (fun i => (fea i, slice_rows_column X lo hi i)) (seq 0 (shape1 X)).

Definition frame_from_row (X : ndarray2) (lo : nat) : DataFrame :=
  map (fun i => (fea i, from_row_column X lo i)) (seq 0 (shape1 X)).

(** The same two frames of a grid: pandas takes one-dimensional columns
    only and answers others with ValueError, so a deep grid gives a frame
    only when it has no column. *)
Definition grid_frame_of_rows (X : grid) (lo hi : nat) : result DataFrame :=
  match X with
  | Flat X => Ok (frame_of_rows X lo hi)
  | Deep _ m => if (m =? 0)%nat then Ok [] else Raise ValueError
  end.

Definition grid_frame_from_row (X : grid) (lo : nat) : result DataFrame :=
  match X with
  | Flat X => Ok (frame_from_row X lo)
  | Deep _ m => if (m =? 0)%nat then Ok [] else Raise ValueError
  end.

Definition cached_default : string := "data/mortgage.npy.gz".

(** What both loaders do with a cached array: drop column 4, take the label
    from the new column 4, sample [nrows] rows. *)
Definition mortgage_dataset (nrows ncols : nat) (cached : string)
  : M (grid * grid) :=
  (print "use mortgage data" ;;
   X <- gzip_open_np_load cached ;;
   X <- lift (second_dimension X) ;;
   let X := grid_take_columns X
              (filter (fun i => negb (i =? 4)%nat) (seq 0 (grid_shape1 X))) in
   let y := grid_slice_columns X 4 5 in
   rindices <- np_random_randint 0 (Z.of_nat (grid_shape0 X) - 1) nrows ;;
   X <- lift (grid_index_rows_upto X rindices ncols) ;;
   y <- lift (grid_index_rows y rindices) ;;
   ret (X, y))%py.

Definition tables : Type := (DataFrame * DataFrame * DataFrame * DataFrame)%type.

(* ================================================================== *)
(** * The SGD notebook: loader *)

Module Sgd.

(** The dataset [X, y] after the [if]/[else] of [load_data]. *)
Definition dataset (nrows ncols : nat) (cached : string)
  : M (grid * grid) :=
  (present <- os_path_exists cached ;;
   if present then mortgage_dataset nrows ncols cached
   else
     print "use random data" ;;
     X <- np_random_rand nrows ncols ;;
     y <- np_random_randint_column 0 10 nrows ;;
     ret (Flat X, Flat y))%py.

Definition load_data (nrows ncols : nat) (cached : string) : M tables :=
  ('(X, y) <- dataset nrows ncols cached ;;
   let train_rows := train_rows nrows in
   df_X_train <- lift (grid_frame_of_rows X 0 train_rows) ;;
   df_X_test <- lift (grid_frame_from_row X train_rows) ;;
   df_y_train <- lift (grid_frame_of_rows y 0 train_rows) ;;
   df_y_test <- lift (grid_frame_from_row y train_rows) ;;
   ret (df_X_train, df_X_test, df_y_train, df_y_test))%py.

End Sgd.

(* ================================================================== *)
(** * The ridge notebook: loader *)

Module Ridge.

Section WithLibrary.
Variable lib : sklearn_datasets.

(** The [if]/[else] of [load_data]: the features and the two label
    frames, which this notebook builds inside the branches. *)
Definition dataset (nrows ncols : nat) (cached : string)
  : M (grid * DataFrame * DataFrame) :=
  (let train_rows := train_rows nrows in
   present <- os_path_exists cached ;;
   if present then
     '(X, y) <- mortgage_dataset nrows ncols cached ;;
     df_y_train <- lift (grid_frame_of_rows y 0 train_rows) ;;
     df_y_test <- lift (grid_frame_from_row y train_rows) ;;
     ret (X, df_y_train, df_y_test)
   else
     print "use random data" ;;
     '(X, y) <- lift (make_regression lib nrows ncols ncols 0) ;;
     y_train <- lift (target_slice y 0 train_rows) ;;
     let df_y_train := [("fea0"%string, y_train)] in
     y_test <- lift (target_from y train_rows) ;;
     let df_y_test := [("fea0"%string, y_test)] in
     ret (Flat X, df_y_train, df_y_test))%py.

Definition load_data (nrows ncols : nat) (cached : string) : M tables :=
  ('(X, df_y_train, df_y_test) <- dataset nrows ncols cached ;;
   let train_rows := train_rows nrows in
   df_X_train <- lift (grid_frame_of_rows X 0 train_rows) ;;
   df_X_test <- lift (grid_frame_from_row X train_rows) ;;
   ret (df_X_train, df_X_test, df_y_train, df_y_test))%py.

End WithLibrary.

End Ridge.

(* ================================================================== *)
(** * Python values seen by the helpers *)

Inductive pytype : Set :=
| np_ndarray | pd_DataFrame | np_float64 | cudf_DataFrame | cudf_Series
| pd_Series | py_list | py_float.

Inductive pyobj : Type :=
| NpNdarray (a : ndarray)
| PdDataFrame (df : DataFrame)
| NpFloat64 (x : Q)
| CudfDataFrame (df : DataFrame)
| CudfSeries (v : list Q)
| PdSeries (v : list Q)        (* what [y_train['fea0']] is *)
| PyList (v : list Q)
| PyFloat (x : Q).

Definition type_of (x : pyobj) : pytype :=
  match x with
  | NpNdarray _ => np_ndarray
  | PdDataFrame _ => pd_DataFrame
  | NpFloat64 _ => np_float64
  | CudfDataFrame _ => cudf_DataFrame
  | CudfSeries _ => cudf_Series
  | PdSeries _ => pd_Series
  | PyList _ => py_list
  | PyFloat _ => py_float
  end.

Definition pytype_eqb (s t : pytype) : bool :=
  match s, t with
  | np_ndarray, np_ndarray | pd_DataFrame, pd_DataFrame
  | np_float64, np_float64 | cudf_DataFrame, cudf_DataFrame
  | cudf_Series, cudf_Series | pd_Series, pd_Series
  | py_list, py_list | py_float, py_float => true
  | _, _ => false
  end.

(** [isinstance(x, t)] for the five classes the helper tests; none of the
    modelled classes derives from one of them. *)
Definition isinstance (x : pyobj) (t : pytype) : bool := pytype_eqb (type_of x) t.

(** [np.array(x)], called on an ndarray or a pandas frame. *)
Definition np_array (x : pyobj) : pyobj :=
  match x with
  | PdDataFrame df => NpNdarray (ndarray_of_2d (frame_values df))
  | _ => x
  end.

(** [np.array([x])], called on a numpy scalar. *)
Definition np_array_of_list1 (x : pyobj) : pyobj :=
  match x with
  | NpFloat64 v => NpNdarray (ndarray_of_1d [v])
  | _ => x
  end.

(** [x.to_pandas()], called on a cuDF frame or series. *)
Definition to_pandas (x : pyobj) : pyobj :=
  match x with
  | CudfDataFrame df => PdDataFrame df
  | CudfSeries v => PdSeries v
  | _ => x
  end.

(** [x.values], called on a pandas frame or series. *)
Definition values (x : pyobj) : pyobj :=
  match x with
  | PdDataFrame df => NpNdarray (ndarray_of_2d (frame_values df))
  | PdSeries v => NpNdarray (ndarray_of_1d v)
  | _ => x
  end.

Definition to_nparray (x : pyobj) : pyobj :=
  if isinstance x np_ndarray || isinstance x pd_DataFrame then np_array x
  else if isinstance x np_float64 then np_array_of_list1 x
  else if isinstance x cudf_DataFrame || isinstance x cudf_Series
       then values (to_pandas x)
  else x.

(** [x.ravel()]: arrays, numpy scalars and pandas series have the method;
    frames, lists and Python floats do not. *)
Definition method_ravel (x : pyobj) : result ndarray :=
  match x with
  | NpNdarray a => Ok (ravel a)
  | PdSeries v => Ok (ndarray_of_1d v)
  | NpFloat64 v => Ok (ndarray_of_1d [v])
  | _ => Raise AttributeError
  end.

(** [np.abs(a)] *)
Definition np_abs (a : ndarray) : ndarray :=
  {| shape := shape a; data := map Qabs (data a) |}.

Fixpoint squared_errors (a b : list Q) : list Q :=
  match a, b with
  | x :: a', y :: b' => ((x - y) * (x - y))%Q :: squared_errors a' b'
  | _, _ => []
  end.

Definition Qsum (l : list Q) : Q := fold_right Qplus 0%Q l.

(** sklearn's [mean_squared_error] on two one-dimensional targets: both
    must have the same, non-zero, number of samples. *)
Definition mean_squared_error (y_true y_pred : list Q) : result Q :=
  if negb (length y_true =? length y_pred)%nat then Raise ValueError
  else if (length y_true =? 0)%nat then Raise ValueError
  else Ok (Qsum (squared_errors y_true y_pred) / inject_Z (Z.of_nat (length y_true)))%Q.

Definition Qltb (x y : Q) : bool := negb (Qle_bool y x).

Definition array_equal (a b : pyobj) (threshold : Q) (with_sign : bool)
  : result bool :=
  rbind (method_ravel (to_nparray a)) (fun a =>
  rbind (method_ravel (to_nparray b)) (fun b =>
  let '(a, b) := if Bool.eqb with_sign false then (np_abs a, np_abs b) else (a, b) in
  rbind (mean_squared_error (data a) (data b)) (fun error =>
  let res := Qltb error threshold in
  Ok res))).

(** The defaults [threshold=2e-3, with_sign=True]; the threshold is the
    binary64 number the literal [2e-3] denotes,
    1152921504606847 / 2^59. *)
Definition threshold_default : Q := 1152921504606847 # 576460752303423488.
Definition array_equal_default (a b : pyobj) : result bool :=
  array_equal a b threshold_default true.

(* ================================================================== *)
(** * Estimators and their keyword arguments *)

Inductive pyval : Type :=
| VStr (s : string)
| VBool (b : bool)
| VFloat (x : Q)
| VInt (z : Z)
| VNone.

Definition kwargs : Type := list (string * pyval).

Fixpoint lookup {V : Type} (name : string) (l : list (string * V)) : option V :=
  match l with
  | [] => None
  | (k, v) :: l' => if String.eqb k name then Some v else lookup name l'
  end.

(** A constructor signature: the accepted keywords, each with its default
    when one is documented. *)
Definition signature : Type := list (string * option pyval).

Definition accepts (sig : signature) (name : string) : bool :=
  match lookup name sig with Some _ => true | None => false end.

(** The value a parameter ends up with: the one passed, else the default. *)
Definition effective (sig : signature) (call : kwargs) (name : string)
  : option pyval :=
  match lookup name call with
  | Some v => Some v
  | None => match lookup name sig with Some d => d | None => None end
  end.

(** An estimator class of sklearn or cuML: library code.  [fit] stands for
    constructing with the keywords and fitting, which the library may refuse
    (an unknown keyword, an empty training set, ...); a fitted model
    predicts one value per row of its argument. *)
Record estimator : Type := mk_estimator {
  fitted : Type;
  fit : kwargs -> DataFrame -> list Q -> result fitted;
  predict_row : fitted -> list Q -> Q
}.

Definition predict (E : estimator) (m : fitted E) (X : DataFrame) : list Q :=
  map (predict_row E m) (rows2 (frame_values X)).

(** [cudf.DataFrame.from_pandas(df)]: the same columns, on the device. *)
Definition from_pandas (df : DataFrame) : DataFrame := df.

(** A frame handed to sklearn as a target: its values, row by row. *)
Definition frame_flat (df : DataFrame) : list Q := concat (rows2 (frame_values df)).

(** [df.shape] *)
Definition frame_shape (df : DataFrame) : nat * nat := (frame_len df, length df).

Definition print_shape (label : string) (df : DataFrame) : M unit :=
  emit (EvPrintShape label (frame_shape df)).

Record errors : Type := mk_errors { error_sk : Q; error_cu : Q }.

(** The last cell of both notebooks. *)
Definition print_errors (e_sk e_cu : Q) : M unit :=
  (print "SKL MSE(y):" ;;
   print_float e_sk ;;
   print "CUML MSE(y):" ;;
   print_float e_cu)%py.

Definition print_shapes (t : tables) : M unit :=
  let '(X_train, X_test, y_train, y_test) := t in
  (print_shape "training data" X_train ;;
   print_shape "training label" y_train ;;
   print_shape "testing data" X_test ;;
   print_shape "testing label" y_test)%py.

(* ------------------------------------------------------------------ *)
(** ** SGD notebook: parameters and driver *)

Module SgdDriver.

Definition learning_rate : pyval := VStr "adaptive".
Definition penalty : pyval := VStr "elasticnet".
Definition loss : pyval := VStr "squared_loss".
Definition iterations : pyval := VInt 10.

(** [SGDRegressor(learning_rate=learning_rate, eta0=0.07,
      max_iter=iterations, tol=0.0, fit_intercept=True,
      penalty=penalty, loss=loss)] *)
Definition sk_kwargs : kwargs :=
  [("learning_rate", learning_rate); ("eta0", VFloat (7 # 100));
   ("max_iter", iterations); ("tol", VFloat 0); ("fit_intercept", VBool true);
   ("penalty", penalty); ("loss", loss)]%string.

(** [cumlSGD(learning_rate=learning_rate, eta0=0.07, epochs=iterations,
      batch_size=512, tol=0.0, penalty=penalty, loss=loss)] *)
Definition cu_kwargs : kwargs :=
  [("learning_rate", learning_rate); ("eta0", VFloat (7 # 100));
   ("epochs", iterations); ("batch_size", VInt 512); ("tol", VFloat 0);
   ("penalty", penalty); ("loss", loss)]%string.

(** The parameters of cuML's SGD and their defaults, as the notebook's
    first cell lists them. *)
Definition cu_signature : signature :=
  [("loss", Some (VStr "squared_loss")); ("penalty", Some (VStr "none"));
   ("alpha", Some (VFloat (1 # 10000))); ("fit_intercept", Some (VBool true));
   ("epochs", Some (VInt 1000)); ("tol", Some (VFloat (1 # 1000)));
   ("shuffle", Some (VBool true)); ("eta0", Some (VFloat 0));
   ("power_t", Some (VFloat (5 # 10)));
   ("learning_rate", Some (VStr "constant"));
   ("n_iter_no_change", Some (VInt 5))]%string.

(** sklearn's name for cuML's [epochs] (the notebook's comment:
    [#epochs == n_iter]). *)
Definition cu_name (sk_name : string) : string :=
  if String.eqb sk_name "max_iter" then "epochs"%string else sk_name.

Section WithLibraries.
Variables SGDRegressor cumlSGD : estimator.

Definition run (nrows ncols : nat) : M errors :=
  ('(X_train, X_test, y_train, y_test) <- Sgd.load_data nrows ncols cached_default ;;
   y_train_ser <- lift (getitem y_train "fea0") ;;
   print_shapes (X_train, X_test, y_train, y_test) ;;
   sk_sgd <- lift (fit SGDRegressor sk_kwargs X_train y_train_ser) ;;
   let y_sk := predict SGDRegressor sk_sgd X_test in
   error_sk <- lift (mean_squared_error (frame_flat y_test) y_sk) ;;
   let X_cudf := from_pandas X_train in
   let X_cudf_test := from_pandas X_test in
   let y_cudf := y_train_ser in
   cu_sgd <- lift (fit cumlSGD cu_kwargs X_cudf y_cudf) ;;
   let y_pred := CudfSeries (predict cumlSGD cu_sgd X_cudf_test) in
   y_pred <- lift (method_ravel (to_nparray y_pred)) ;;
   error_cu <- lift (mean_squared_error (frame_flat y_test) (data y_pred)) ;;
   print_errors error_sk error_cu ;;
   ret {| error_sk := error_sk; error_cu := error_cu |})%py.

(** [nrows = 2**20], [ncols = 399] *)
Definition notebook : M errors := run (2 ^ 20) 399.

End WithLibraries.

End SgdDriver.

(* ------------------------------------------------------------------ *)
(** ** Ridge notebook: parameters and driver *)

Module RidgeDriver.

(** [skRidge(fit_intercept=False, normalize=True, alpha=0.1)] *)
Definition sk_kwargs : kwargs :=
  [("fit_intercept", VBool false); ("normalize", VBool true);
   ("alpha", VFloat (1 # 10))]%string.

(** [cuRidge(fit_intercept=False, normalize=True, solver='svd', alpha=0.1)] *)
Definition cu_kwargs : kwargs :=
  [("fit_intercept", VBool false); ("normalize", VBool true);
   ("solver", VStr "svd"); ("alpha", VFloat (1 # 10))]%string.

(** The parameters of cuML's Ridge as the notebook's first cell lists
    them; no default is given there for [alpha]. *)
Definition cu_signature : signature :=
  [("alpha", None); ("solver", Some (VStr "eig"));
   ("fit_intercept", Some (VBool true)); ("normalize", Some (VBool false))]%string.

(** The constructor of [sklearn.linear_model.Ridge], which the notebook
    imports: library code, in the release that still takes [normalize].
    [Ridge(alpha=1.0, fit_intercept=True, normalize=False, copy_X=True,
           max_iter=None, tol=0.001, solver='auto', random_state=None)] *)
Definition sk_signature : signature :=
  [("alpha", Some (VFloat 1)); ("fit_intercept", Some (VBool true));
   ("normalize", Some (VBool false)); ("copy_X", Some (VBool true));
   ("max_iter", Some VNone); ("tol", Some (VFloat (1 # 1000)));
   ("solver", Some (VStr "auto")); ("random_state", Some VNone)]%string.

(** [y_train.values[:, 0]] *)
Definition first_column (X : ndarray2) : result (list Q) :=
  if (0 <? shape1 X)%nat then Ok (column X 0) else Raise IndexError.

Section WithLibraries.
Variable lib : sklearn_datasets.
Variables skRidge cuRidge : estimator.

Definition run (nrows ncols : nat) : M errors :=
  ('(X_train, X_test, y_train, y_test) <- Ridge.load_data lib nrows ncols cached_default ;;
   print_shapes (X_train, X_test, y_train, y_test) ;;
   skridge <- lift (fit skRidge sk_kwargs X_train (frame_flat y_train)) ;;
   let sk_predict := predict skRidge skridge X_test in
   error_sk <- lift (mean_squared_error (frame_flat y_test) sk_predict) ;;
   let X_cudf := from_pandas X_train in
   let X_cudf_test := from_pandas X_test in
   let y_cudf := frame_values y_train in
   y_cudf <- lift (first_column y_cudf) ;;
   curidge <- lift (fit cuRidge cu_kwargs X_cudf y_cudf) ;;
   let cu_predict := predict cuRidge curidge X_cudf_test in
   error_cu <- lift (mean_squared_error (frame_flat y_test) cu_predict) ;;
   print_errors error_sk error_cu ;;
   ret {| error_sk := error_sk; error_cu := error_cu |})%py.

Definition notebook : M errors := run (2 ^ 20) 399.

End WithLibraries.

End RidgeDriver.

(* ================================================================== *)
(** * Vocabulary of the statements *)

(** Every parameter both constructors accept ends up with the same value on
    both sides. *)
Definition identical_hyperparameters
    (sk_sig cu_sig : signature) (sk_call cu_call : kwargs) : Prop :=
  forall name,
    accepts sk_sig name = true -> accepts cu_sig name = true ->
    effective sk_sig sk_call name = effective cu_sig cu_call name.

Definition not_named (names : list string) (kv : string * pyval) : bool :=
  negb (existsb (String.eqb (fst kv)) names).

(** Inverse of [SgdDriver.cu_name]. *)
Definition sk_name (cu_name : string) : string :=
  if String.eqb cu_name "epochs" then "max_iter"%string else cu_name.

(** The five classes [to_nparray] converts. *)
Definition supported (x : pyobj) : bool :=
  isinstance x np_ndarray || isinstance x pd_DataFrame || isinstance x np_float64
  || isinstance x cudf_DataFrame || isinstance x cudf_Series.

Definition has_ravel (x : pyobj) : bool := is_ok (method_ravel x).

(** All columns of a frame have the frame's number of rows, all cells of an
    array are in its buffer: true of every pandas frame and numpy array. *)
Definition frame_ok (df : DataFrame) : Prop :=
  Forall (fun kv => length (snd kv) = frame_len df) df.

(** Row-major offset of an index into an array of a given shape. *)
Fixpoint offset (shp idx : list nat) (acc : nat) : option nat :=
  match shp, idx with
  | [], [] => Some acc
  | n :: shp', i :: idx' =>
      if (i <? n)%nat then offset shp' idx' (acc * n + i)%nat else None
  | _, _ => None
  end.

(** [a[i, j, ...]] *)
Definition array_item (a : ndarray) (idx : list nat) : option Q :=
  match offset (shape a) idx 0 with
  | Some o => nth_error (data a) o
  | None => None
  end.

(** The number at a position of an array-like: [a[i, j, ...]] of an array,
    [df.iloc[i, j]] of a frame, [s[i]] of a series or list, the value of a
    scalar at the empty position. *)
Definition item (x : pyobj) (idx : list nat) : option Q :=
  match x with
  | NpNdarray a => array_item a idx
  | PdDataFrame df | CudfDataFrame df =>
      match idx with
      | [i; j] =>
          match nth_error df j with
          | Some (_, col) => nth_error col i
          | None => None
          end
      | _ => None
      end
  | CudfSeries v | PdSeries v | PyList v =>
      match idx with
      | [i] => nth_error v i
      | _ => None
      end
  | NpFloat64 v | PyFloat v =>
      match idx with
      | [] => Some v
      | _ => None
      end
  end.

Definition well_formed (x : pyobj) : Prop :=
  match x with
  | PdDataFrame df | CudfDataFrame df => frame_ok df
  | _ => True
  end.

(** The numbers of a supported input, row by row. *)
Definition flat (x : pyobj) : list Q :=
  match x with
  | NpNdarray a => data a
  | PdDataFrame df | CudfDataFrame df => concat (rows2 (frame_values df))
  | NpFloat64 v | PyFloat v => [v]
  | CudfSeries v | PdSeries v | PyList v => v
  end.

(** The mean squared error of two sequences of the same length. *)
Definition mse (a b : list Q) : Q :=
  (Qsum (squared_errors a b) / inject_Z (Z.of_nat (length a)))%Q.

(** What is compared: the values, or their absolute values. *)
Definition signed (with_sign : bool) (l : list Q) : list Q :=
  if with_sign then l else map Qabs l.

(** The cached array without its column 4. *)
Definition without_column_4 (A : ndarray2) : ndarray2 :=
  take_columns A (filter (fun i => negb (i =? 4)%nat) (seq 0 (shape1 A))).

(** The row numbers [rindices] drawn for a cached array [A]. *)
Definition sampled (w : world) (A : ndarray2) (nrows : nat) : list Z :=
  bounded_values (rng w) 0 (Z.of_nat (shape0 A) - 1) nrows.

(** The sampling has nothing to draw from: fewer than two rows, and at least
    one sample asked for. *)
Definition nothing_to_sample (A : ndarray2) (nrows : nat) : bool :=
  (shape0 A <=? 1)%nat && negb (nrows =? 0)%nat.

(** The features and labels both loaders take from a cached array. *)
Definition mortgage_X (w : world) (A : ndarray2) (nrows ncols : nat) : ndarray2 :=
  {| shape1 := Nat.min ncols (shape1 (without_column_4 A));
     rows2 := map (fun i => firstn ncols (nth (Z.to_nat i) (rows2 (without_column_4 A)) []))
                  (sampled w A nrows) |}.

Definition mortgage_y (w : world) (A : ndarray2) (nrows : nat) : ndarray2 :=
  {| shape1 := shape1 (slice_columns (without_column_4 A) 4 5);
     rows2 := map (fun i => nth (Z.to_nat i)
                              (rows2 (slice_columns (without_column_4 A) 4 5)) [])
                  (sampled w A nrows) |}.

(** What the cached branch of the loaders hands to the split: the sampled
    rows of a matrix, or of a deeper array its first two extents. *)
Definition cached_dataset (w : world) (f : file) (nrows ncols : nat)
  : result (grid * grid) :=
  match f with
  | Unloadable e => Raise e
  | Npy (Dim0 _) | Npy (Dim1 _) => Raise IndexError
  | Npy (Dim2 A) =>
      if nothing_to_sample A nrows then Raise ValueError
      else Ok (Flat (mortgage_X w A nrows ncols), Flat (mortgage_y w A nrows))
  | Npy (Dim3 n m) =>
      let kept := length (filter (fun i => negb (i =? 4)%nat) (seq 0 m)) in
      if (n <=? 1)%nat && negb (nrows =? 0)%nat then Raise ValueError
      else Ok (Deep nrows (Nat.min ncols kept),
               Deep nrows (Nat.min 5 kept - Nat.min 4 kept))
  end.

(** The numeric matrix stored at a path, the case the notebooks are
    written for. *)
Definition matrix_file (A : ndarray2) : option file := Some (Npy (Dim2 A)).

(** What stops the loading of what is at the path of the cache, if
    anything does: the error of a file that cannot be loaded; the IndexError
    of [X.shape[1]] on an array of fewer than two dimensions; the ValueError
    of a sampling with nothing to draw from; the ValueError of pandas, asked
    for a column of an array of more than two dimensions (no column is asked
    for when none is left). *)
Definition cached_stop (f : file) (nrows ncols : nat) : option exn :=
  match f with
  | Unloadable e => Some e
  | Npy (Dim0 _) | Npy (Dim1 _) => Some IndexError
  | Npy (Dim2 A) => if nothing_to_sample A nrows then Some ValueError else None
  | Npy (Dim3 n m) =>
      if (n <=? 1)%nat && negb (nrows =? 0)%nat then Some ValueError
      else if (m =? 0)%nat || ((ncols =? 0)%nat && (m <=? 5)%nat) then None
      else Some ValueError
  end.

(** What stops a call of the SGD loader, if anything does. *)
Definition sgd_stop (w : world) (cached : string) (nrows ncols : nat) : option exn :=
  match fs w cached with
  | Some f => cached_stop f nrows ncols
  | None => None
  end.

(** What stops a call of the ridge loader: without a cache, a refusal of
    [make_regression], or the IndexError of slicing the scalar target of a
    single sample. *)
Definition ridge_stop (lib : sklearn_datasets) (w : world) (cached : string)
    (nrows ncols : nat) : option exn :=
  match fs w cached with
  | Some f => cached_stop f nrows ncols
  | None =>
      match regression_refuses lib nrows ncols ncols 0 with
      | Some e => Some e
      | None => if (nrows =? 1)%nat then Some IndexError else None
      end
  end.

(** What the loader prints and reads. *)
Definition load_events (w : world) (cached : string) : list event :=
  match fs w cached with
  | Some _ => [EvPrint "use mortgage data"; EvReadGzip cached]
  | None => [EvPrint "use random data"]
  end.

(** The label column [np.random.randint(0, 10, size=(nrows, 1))] makes of
    the draws that follow the features' draws. *)
Definition digit_column (w : world) (nrows ncols : nat) : ndarray2 :=
  {| shape1 := 1;
     rows2 := map (fun z => [inject_Z z])
                  (bounded_values (fun i => rng w (i + nrows * ncols)%nat) 0 10 nrows) |}.

(** The columns of an array, left to right. *)
Definition columns (X : ndarray2) : list (list Q) :=
  map (column X) (seq 0 (shape1 X)).

(** The feature columns and the label columns of the dataset a loader
    takes from the cache: those of a matrix; any deeper array that gets
    through has no column left. *)
Definition cached_X (w : world) (f : file) (nrows ncols : nat) : list (list Q) :=
  match f with
  | Npy (Dim2 A) => columns (mortgage_X w A nrows ncols)
  | _ => []
  end.

Definition cached_y (w : world) (f : file) (nrows : nat) : list (list Q) :=
  match f with
  | Npy (Dim2 A) => columns (mortgage_y w A nrows)
  | _ => []
  end.

(** The dataset of the SGD loader: feature columns, label columns. *)
Definition sgd_X (w : world) (nrows ncols : nat) (cached : string) : list (list Q) :=
  match fs w cached with
  | Some f => cached_X w f nrows ncols
  | None => columns (uniform_matrix (rng w) nrows ncols)
  end.

Definition sgd_y (w : world) (nrows ncols : nat) (cached : string) : list (list Q) :=
  match fs w cached with
  | Some f => cached_y w f nrows
  | None => columns (digit_column w nrows ncols)
  end.

(** The features and the one-dimensional target of [make_regression], when
    it returns them. *)
Definition regression_columns (lib : sklearn_datasets) (nrows ncols : nat)
  : list (list Q) * list (list Q) :=
  match make_regression lib nrows ncols ncols 0 with
  | Ok (X, Target1 y) => (columns X, [y])
  | _ => ([], [])
  end.

(** The dataset of the ridge loader. *)
Definition ridge_X (lib : sklearn_datasets) (w : world) (nrows ncols : nat)
    (cached : string) : list (list Q) :=
  match fs w cached with
  | Some f => cached_X w f nrows ncols
  | None => fst (regression_columns lib nrows ncols)
  end.

Definition ridge_y (lib : sklearn_datasets) (w : world) (nrows ncols : nat)
    (cached : string) : list (list Q) :=
  match fs w cached with
  | Some f => cached_y w f nrows
  | None => snd (regression_columns lib nrows ncols)
  end.

(** The frame whose columns are [cols], named fea0, fea1, ... *)
Definition named (cols : list (list Q)) : DataFrame :=
  combine (map fea (seq 0 (length cols))) cols.

(** The four tables that split a dataset, given by its feature and label
    columns, by row order at [int(nrows*0.8)]. *)
Definition split_80_20 (nrows : nat) (Xcols ycols : list (list Q)) : tables :=
  let k := train_rows nrows in
  (named (map (firstn k) Xcols), named (map (skipn k) Xcols),
   named (map (firstn k) ycols), named (map (skipn k) ycols)).

(** The number of rows of a table cut from [cols]: [k], for a table that
    has a column; a table without a column has no row. *)
Definition rows_of_cut (cols : list (list Q)) (k : nat) : nat :=
  match cols with
  | [] => 0%nat
  | _ => k
  end.

(** The shapes of four tables: [k] and [nrows - k] rows of the features'
    and of the labels' columns. *)
Definition cut_at (nrows k : nat) (Xcols ycols : list (list Q)) (t : tables) : Prop :=
  let '(X_train, X_test, y_train, y_test) := t in
  frame_shape X_train = (rows_of_cut Xcols k, length Xcols)
  /\ frame_shape X_test = (rows_of_cut Xcols (nrows - k), length Xcols)
  /\ frame_shape y_train = (rows_of_cut ycols k, length ycols)
  /\ frame_shape y_test = (rows_of_cut ycols (nrows - k), length ycols).

(** A cache of a single row, and a request for one sample. *)
Definition single_row_world : world :=
  {| fs := fun path =>
             if String.eqb path cached_default
             then matrix_file {| shape1 := 6; rows2 := [[1; 2; 3; 4; 5; 6]%Q] |}
             else None;
     rng := fun _ => 0%N;
     log := [] |}.

(** The inner product of a coefficient vector and a row of features. *)
Definition dot (coef row : list Q) : Q :=
  Qsum (map (fun p => (fst p * snd p)%Q) (combine coef row)).

(** What a regression generator without noise gives: one coefficient
    vector and one intercept fit every sample. *)
Definition linear_relationship (X y : ndarray2) : Prop :=
  exists (coef : list Q) (bias : Q),
    forall i, (i < shape0 X)%nat ->
      (cell y i 0 == bias + dot coef (nth i (rows2 X) []))%Q.

(** No cache, and draws that repeat a feature row under two labels. *)
Definition tied_rows_world : world :=
  {| fs := fun _ => None;
     rng := fun k => if (k =? 3)%nat then 1%N else 0%N;
     log := [] |}.

(** The labels taken from a cached array [A]: its column 5, at the sampled
    rows. *)
Definition column_5_sampled (w : world) (A : ndarray2) (nrows : nat) : list Q :=
  map (fun i => cell A (Z.to_nat i) 5) (sampled w A nrows).

(** Small worlds and libraries on which the statements are run. *)
Definition counting_draws (k : nat) : N := N.of_nat (k * 7 + 1).

Definition no_cache_world : world :=
  {| fs := fun _ => None; rng := counting_draws; log := [] |}.

Definition small_cache : ndarray2 :=
  {| shape1 := 7;
     rows2 := [[10; 11; 12; 13; 14; 15; 16]; [20; 21; 22; 23; 24; 25; 26];
               [30; 31; 32; 33; 34; 35; 36]]%Q |}.

Definition small_cache_world : world :=
  {| fs := fun path =>
             if String.eqb path cached_default then matrix_file small_cache else None;
     rng := counting_draws;
     log := [] |}.

Definition toy_datasets : sklearn_datasets :=
  {| regression_refuses := fun n_samples n_features _ _ =>
       if (n_samples =? 0)%nat || (n_features =? 0)%nat then Some ValueError else None;
     regression_X := fun _ _ _ _ i j => inject_Z (Z.of_nat (i + j));
     regression_y := fun _ _ _ _ i => inject_Z (Z.of_nat (2 * i)) |}.

(** The lines the drivers print: the four shapes, then the two errors. *)
Definition shape_lines (t : tables) : list event :=
  let '(X_train, X_test, y_train, y_test) := t in
  [EvPrintShape "training data" (frame_shape X_train);
   EvPrintShape "training label" (frame_shape y_train);
   EvPrintShape "testing data" (frame_shape X_test);
   EvPrintShape "testing label" (frame_shape y_test)].

(** The four shapes of a split of [nrows] rows with [ncols] feature
    columns and one label column. *)
Definition split_shape_lines (nrows ncols : nat) : list event :=
  [EvPrintShape "training data" (train_rows nrows, ncols);
   EvPrintShape "training label" (train_rows nrows, 1%nat);
   EvPrintShape "testing data" ((nrows - train_rows nrows)%nat, ncols);
   EvPrintShape "testing label" ((nrows - train_rows nrows)%nat, 1%nat)].

Definition error_lines (e_sk e_cu : Q) : list event :=
  [EvPrint "SKL MSE(y):"; EvPrintFloat e_sk; EvPrint "CUML MSE(y):"; EvPrintFloat e_cu].

(** A toy estimator: it refuses an empty training set, remembers the mean
    of its training labels and adds the first feature of a row to it. *)
Definition toy_estimator : estimator :=
  {| fitted := Q;
     fit := fun _ _ labels =>
       match labels with
       | [] => Raise ValueError
       | _ => Ok (Qsum labels / inject_Z (Z.of_nat (length labels)))%Q
       end;
     predict_row := fun m row => (m + nth 0 row 0)%Q |}.

(** How many draws of the numpy generator a call of each loader uses up. *)
Definition draws_of_file (f : file) (nrows : nat) : nat :=
  match f with
  | Npy (Dim2 A) => if nothing_to_sample A nrows then 0 else nrows
  | Npy (Dim3 n _) => if (n <=? 1)%nat && negb (nrows =? 0)%nat then 0 else nrows
  | _ => 0
  end.

Definition draws_of_sampling (w : world) (cached : string) (nrows : nat) : option nat :=
  match fs w cached with
  | Some f => Some (draws_of_file f nrows)
  | None => None
  end.

Definition sgd_draws (w : world) (cached : string) (nrows ncols : nat) : nat :=
  match draws_of_sampling w cached nrows with
  | Some k => k
  | None => (nrows * ncols + nrows)%nat
  end.

Definition ridge_draws (w : world) (cached : string) (nrows : nat) : nat :=
  match draws_of_sampling w cached nrows with
  | Some k => k
  | None => 0%nat
  end.

(** A cached array too narrow to hold a label column. *)
Definition narrow_cache_world : world :=
  {| fs := fun path =>
             if String.eqb path cached_default
             then matrix_file {| shape1 := 5;
                          rows2 := [[1; 2; 3; 4; 5]; [6; 7; 8; 9; 10];
                                    [11; 12; 13; 14; 15]]%Q |}
             else None;
     rng := counting_draws;
     log := [] |}.

(** The buffer of an array holds one number per position of its shape. *)
Definition array_ok (a : ndarray) : Prop :=
  length (data a) = fold_right Nat.mul 1%nat (shape a).

Definition input_ok (x : pyobj) : Prop :=
  match x with
  | NpNdarray a => array_ok a
  | PdDataFrame df | CudfDataFrame df => frame_ok df
  | _ => True
  end.

(** Caches that are no matrix: a vector, an array of three dimensions, a
    file that is not gzip. *)
Definition file_world (f : file) : world :=
  {| fs := fun path => if String.eqb path cached_default then Some f else None;
     rng := counting_draws;
     log := [] |}.

Definition vector_cache_world : world := file_world (Npy (Dim1 [1; 2; 3]%Q)).

Definition deep_cache_world : world := file_world (Npy (Dim3 4 7)).

Definition broken_cache_world : world := file_world (Unloadable OSError).
(* ================================================================== *)
(** * Properties *)

(** Two endings shared by the proofs about the loaders: a call that stops
    with an exception, and a branch that takes nothing from the generator. *)
Ltac loader_stops H2 H3 :=
  cbv beta iota; cbn [fst snd]; split; [ reflexivity | split; [ exact H2 | exact H3 ] ].

Ltac no_draw :=
  repeat split; try reflexivity; intros; rewrite Nat.add_0_r; reflexivity.

(** ** The split point *)

Lemma round_nearest_even_bounds (m : Z) :
  0 <= m ->
  0 <= Binary64.round_nearest_even m /\
  Binary64.round_nearest_even m * 2 ^ 53 <= m * (2 ^ 53 + 1).
Proof.
  intros Hm. unfold Binary64.round_nearest_even.
  destruct (Z.leb_spec (Z.log2 m + 1 - 53) 0) as [Hs | Hs].
  - split; [assumption | nia].
  - set (s := Z.log2 m + 1 - 53) in *.
    assert (Hmpos : 0 < m).
    { destruct (Z.eq_dec m 0) as [-> | ]; [ subst s; simpl in Hs; lia | lia ]. }
    pose proof (Z.log2_spec m Hmpos) as [Hlo _].
    assert (Hlog : Z.log2 m = (s - 1) + 53) by (subst s; lia).
    rewrite Hlog in Hlo.
    rewrite Z.pow_add_r in Hlo by lia.
    rewrite Z.shiftr_div_pow2 by lia.
    rewrite !Z.shiftl_mul_pow2 by lia.
    assert (H2s : 2 ^ s = 2 * 2 ^ (s - 1)).
    { replace s with (Z.succ (s - 1)) at 1 by lia.
      rewrite Z.pow_succ_r by lia. reflexivity. }
    assert (Hh : 0 < 2 ^ (s - 1)) by (apply Z.pow_pos_nonneg; lia).
    set (h := 2 ^ (s - 1)) in *.
    rewrite H2s.
    pose proof (Z.div_mod m (2 * h) ltac:(lia)) as Hdm.
    pose proof (Z.mod_pos_bound m (2 * h) ltac:(lia)) as Hmod.
    set (q := m / (2 * h)) in *.
    assert (Hq : 0 <= q) by (subst q; apply Z.div_pos; lia).
    destruct ((1 * h <? m - q * (2 * h))
              || ((m - q * (2 * h) =? 1 * h) && Z.odd q)) eqn:E.
    + assert (Hr : h <= m - q * (2 * h)).
      { apply orb_true_iff in E. destruct E as [E | E].
        - apply Z.ltb_lt in E. lia.
        - apply andb_true_iff in E. destruct E as [E _].
          apply Z.eqb_eq in E. lia. }
      split; [nia | ].
      assert ((q + 1) * (2 * h) <= m + h) by nia.
      nia.
    + split; [nia | ].
      assert (q * (2 * h) <= m) by nia.
      nia.
Qed.

(** Two roundings, each off by at most one part in 2^53, cannot lift
    0.8 n above n. *)
Lemma int_mul_0_8_bounds (n : Z) :
  0 <= n -> 0 <= Binary64.int_mul_0_8 n <= n.
Proof.
  intros Hn. unfold Binary64.int_mul_0_8.
  destruct (round_nearest_even_bounds n Hn) as [H1 H1'].
  assert (Hc : 0 <= Binary64.round_nearest_even n * Binary64.mantissa_0_8)
    by (unfold Binary64.mantissa_0_8; nia).
  destruct (round_nearest_even_bounds _ Hc) as [H2 H2'].
  rewrite Z.shiftr_div_pow2 by lia.
  split; [apply Z.div_pos; lia | ].
  apply Z.div_le_upper_bound; [lia | ].
  set (R1 := Binary64.round_nearest_even n) in *.
  set (R2 := Binary64.round_nearest_even (R1 * Binary64.mantissa_0_8)) in *.
  unfold Binary64.mantissa_0_8 in *.
  change (2 ^ 53) with 9007199254740992 in *.
  change (2 ^ 52) with 4503599627370496.
  lia.
Qed.

Lemma train_rows_le (nrows : nat) : (train_rows nrows <= nrows)%nat.
Proof.
  unfold train_rows.
  pose proof (int_mul_0_8_bounds (Z.of_nat nrows) ltac:(lia)). lia.
Qed.

Example int_mul_0_8_notebook : Binary64.int_mul_0_8 (2 ^ 20) = 838860.
Proof. vm_compute. reflexivity. Qed.

Example train_rows_small :
  map train_rows [0; 1; 2; 3; 4; 5; 6; 10; 15]%nat = [0; 0; 1; 2; 3; 4; 4; 8; 12]%nat.
Proof. vm_compute. reflexivity. Qed.

(* ------------------------------------------------------------------ *)
Lemma round_nearest_even_exact (m : Z) :
  0 <= m < 2 ^ 53 -> Binary64.round_nearest_even m = m.
Proof.
  intros [H0 H1]. unfold Binary64.round_nearest_even.
  destruct (Z.leb_spec (Z.log2 m + 1 - 53) 0) as [ _ | Hs ]; [ reflexivity | ].
  exfalso. destruct (Z.eq_dec m 0) as [-> | Hm]; [ simpl in Hs; lia | ].
  assert (Z.log2 m < 53) by (apply Z.log2_lt_pow2; lia). lia.
Qed.

Lemma round_nearest_even_window (m : Z) :
  0 <= m -> 0 < Z.log2 m + 1 - 53 ->
  (m / 2 ^ (Z.log2 m + 1 - 53)) * 2 ^ (Z.log2 m + 1 - 53)
  <= Binary64.round_nearest_even m
  /\ 2 * Binary64.round_nearest_even m <= 2 * m + 2 ^ (Z.log2 m + 1 - 53).
Proof.
  intros Hm Hs. unfold Binary64.round_nearest_even.
  set (s := Z.log2 m + 1 - 53) in *.
  destruct (Z.leb_spec s 0) as [ H | _ ]; [ lia | ].
  rewrite Z.shiftr_div_pow2 by lia.
  rewrite !Z.shiftl_mul_pow2 by lia.
  assert (H2s : 2 ^ s = 2 * 2 ^ (s - 1)).
  { replace s with (Z.succ (s - 1)) at 1 by lia.
    rewrite Z.pow_succ_r by lia. reflexivity. }
  assert (Hh : 0 < 2 ^ (s - 1)) by (apply Z.pow_pos_nonneg; lia).
  set (h := 2 ^ (s - 1)) in *.
  rewrite H2s.
  pose proof (Z.div_mod m (2 * h) ltac:(lia)) as Hdm.
  pose proof (Z.mod_pos_bound m (2 * h) ltac:(lia)) as Hmod.
  set (q := m / (2 * h)) in *.
  destruct ((1 * h <? m - q * (2 * h))
            || ((m - q * (2 * h) =? 1 * h) && Z.odd q)) eqn:E.
  - assert (Hr : h <= m - q * (2 * h)).
    { apply orb_true_iff in E. destruct E as [E | E].
      - apply Z.ltb_lt in E. lia.
      - apply andb_true_iff in E. destruct E as [E _].
        apply Z.eqb_eq in E. lia. }
    split; nia.
  - split; nia.
Qed.

Lemma int_mul_0_8_is_four_fifths (n : Z) :
  0 <= n < 2 ^ 50 -> Binary64.int_mul_0_8 n = 4 * n / 5.
Proof.
  intros [H0 H1]. unfold Binary64.int_mul_0_8.
  rewrite (round_nearest_even_exact n) by (split; [ lia | ];
    apply Z.lt_trans with (2 ^ 50); [ exact H1 | reflexivity ]).
  rewrite Z.shiftr_div_pow2 by lia.
  set (P := n * Binary64.mantissa_0_8).
  set (k := 4 * n / 5).
  pose proof (Z.div_mod (4 * n) 5 ltac:(lia)) as Hdm.
  pose proof (Z.mod_pos_bound (4 * n) 5 ltac:(lia)) as Hmod.
  fold k in Hdm. set (r5 := (4 * n) mod 5) in *.
  assert (HP : 5 * P = 2 ^ 52 * (5 * k + r5) + n).
  { subst P. unfold Binary64.mantissa_0_8. rewrite <- Hdm.
    change (2 ^ 52) with 4503599627370496. lia. }
  assert (Hk : 0 <= k) by (subst k; apply Z.div_pos; lia).
  assert (HP0 : 0 <= P) by (subst P; unfold Binary64.mantissa_0_8; lia).
  change (2 ^ 50) with 1125899906842624 in H1.
  change (2 ^ 52) with 4503599627370496 in *.
  symmetry. apply Z.div_unique_pos with
    (r := Binary64.round_nearest_even P - k * 4503599627370496); [ | lia ].
  destruct (Z.leb_spec (Z.log2 P + 1 - 53) 0) as [Hs | Hs].
  - assert (HR : Binary64.round_nearest_even P = P).
    { unfold Binary64.round_nearest_even.
      destruct (Z.leb_spec (Z.log2 P + 1 - 53) 0); [ reflexivity | lia ]. }
    rewrite HR. lia.
  - destruct (round_nearest_even_window P HP0 Hs) as [Hlo Hhi].
    set (s := Z.log2 P + 1 - 53) in *.
    assert (Hs49 : s <= 49).
    { assert (HPpos : 0 < P).
      { destruct (Z.eq_dec P 0) as [E | E]; [ | lia ].
        subst s. rewrite E in Hs. simpl in Hs. lia. }
      assert (Z.log2 P < 102).
      { apply Z.log2_lt_pow2; [ exact HPpos | ].
        change (2 ^ 102) with 5070602400912917605986812821504. lia. }
      subst s. lia. }
    assert (Hpow : 2 ^ s * 2 ^ (52 - s) = 4503599627370496).
    { rewrite <- Z.pow_add_r by lia. replace (s + (52 - s)) with 52 by lia. reflexivity. }
    assert (Hps : 0 < 2 ^ s) by (apply Z.pow_pos_nonneg; lia).
    assert (Hp48 : 2 ^ s <= 562949953421312).
    { change 562949953421312 with (2 ^ 49). apply Z.pow_le_mono_r; lia. }
    assert (Hq : 2 ^ (52 - s) * k <= P / 2 ^ s).
    { apply Z.div_le_lower_bound; [ exact Hps | ].
      rewrite Z.mul_assoc, Hpow. lia. }
    split.
    + assert (k * 4503599627370496 <= P / 2 ^ s * 2 ^ s); [ | lia ].
      rewrite <- Hpow.
      replace (k * (2 ^ s * 2 ^ (52 - s))) with ((2 ^ (52 - s) * k) * 2 ^ s) by ring.
      apply Z.mul_le_mono_nonneg_r; lia.
    + lia.
Qed.

Lemma train_rows_four_fifths (nrows : nat) :
  Z.of_nat nrows < 2 ^ 50 -> train_rows nrows = (4 * nrows / 5)%nat.
Proof.
  intros H. unfold train_rows. rewrite int_mul_0_8_is_four_fifths by lia.
  rewrite <- (Nat2Z.id (4 * nrows / 5)). f_equal.
  rewrite Nat2Z.inj_div, Nat2Z.inj_mul. reflexivity.
Qed.

(** ** Hyperparameters *)

(** C1, as worded, fails in the ridge notebook: both constructors accept
    [solver]; cuML is given ['svd'], sklearn is left at its default
    ['auto']. *)
Lemma solver_differs :
  ~ identical_hyperparameters RidgeDriver.sk_signature RidgeDriver.cu_signature
      RidgeDriver.sk_kwargs RidgeDriver.cu_kwargs.
Proof.
  intros H. specialize (H "solver"%string eq_refl eq_refl).
  vm_compute in H. discriminate H.
Qed.

(** C1, amended: in both notebooks every keyword passed to the sklearn
    constructor has the same value on the cuML side, passed or by cuML's
    documented default, with [max_iter] read as [epochs]; the cuML call adds
    only [solver] (ridge) and [batch_size] (SGD), and the sklearn call of the
    SGD notebook adds only [fit_intercept]. *)
Theorem passed_hyperparameters_agree :
  Forall (fun kv => effective RidgeDriver.cu_signature RidgeDriver.cu_kwargs (fst kv)
                    = Some (snd kv)) RidgeDriver.sk_kwargs
  /\ Forall (fun kv => effective SgdDriver.cu_signature SgdDriver.cu_kwargs
                         (SgdDriver.cu_name (fst kv)) = Some (snd kv))
            SgdDriver.sk_kwargs
  /\ filter (not_named ["solver"%string]) RidgeDriver.cu_kwargs = RidgeDriver.sk_kwargs
  /\ map (fun kv => (sk_name (fst kv), snd kv))
         (filter (not_named ["batch_size"%string]) SgdDriver.cu_kwargs)
     = filter (not_named ["fit_intercept"%string]) SgdDriver.sk_kwargs.
Proof.
  split; [ repeat constructor | ].
  split; [ repeat constructor | ].
  split; reflexivity.
Qed.

(* ------------------------------------------------------------------ *)
(** ** The conversion helper *)

Section ArrayItems.
Local Open Scope nat_scope.

Lemma nth_error_concat_rect (m : nat) (rows : list (list Q)) (i j : nat) :
  Forall (fun r => length r = m) rows -> j < m ->
  nth_error (concat rows) (i * m + j)
  = match nth_error rows i with
    | Some r => nth_error r j
    | None => None
    end.
Proof.
  intros Hrect Hj. revert i.
  induction Hrect as [ | r rows Hr _ IH ]; intros i.
  - simpl. rewrite !nth_error_nil. reflexivity.
  - destruct i as [ | i ]; simpl.
    + rewrite nth_error_app1 by lia. reflexivity.
    + rewrite nth_error_app2 by lia.
      replace (m + i * m + j - length r) with (i * m + j) by lia.
      apply IH.
Qed.

Lemma frame_values_rect (df : DataFrame) :
  Forall (fun r => length r = length df) (rows2 (frame_values df)).
Proof.
  unfold frame_values; simpl. apply Forall_forall. intros r Hr.
  apply in_map_iff in Hr. destruct Hr as [k [<- _]]. apply length_map.
Qed.

Lemma frame_values_shape0 (df : DataFrame) : shape0 (frame_values df) = frame_len df.
Proof. unfold shape0, frame_values; simpl. rewrite length_map, length_seq. reflexivity. Qed.

Lemma frame_values_item (df : DataFrame) (idx : list nat) :
  frame_ok df ->
  array_item (ndarray_of_2d (frame_values df)) idx = item (PdDataFrame df) idx.
Proof.
  intros Hok. unfold array_item, ndarray_of_2d. simpl shape. simpl data.
  rewrite frame_values_shape0.
  destruct idx as [ | i [ | j [ | k idx ] ] ]; simpl; try reflexivity.
  - destruct (i <? frame_len df); reflexivity.
  - destruct (Nat.ltb_spec i (frame_len df)) as [Hi | Hi].
    + destruct (Nat.ltb_spec j (length df)) as [Hj | Hj].
      * rewrite nth_error_concat_rect by (auto using frame_values_rect).
        unfold frame_values; simpl.
        rewrite nth_error_map, nth_error_seq.
        destruct (Nat.ltb_spec i (frame_len df)); [ | lia ]. simpl.
        rewrite nth_error_map.
        destruct (nth_error df j) as [ [name col] | ] eqn:E; simpl; [ | reflexivity ].
        apply nth_error_In in E.
        pose proof (proj1 (Forall_forall _ _) Hok _ E) as Hlen. simpl in Hlen.
        symmetry. apply nth_error_nth'. lia.
      * destruct (nth_error df j) as [ [name col] | ] eqn:E; [ | reflexivity ].
        assert (j < length df) by (apply nth_error_Some; congruence). lia.
    + destruct (nth_error df j) as [ [name col] | ] eqn:E; [ | reflexivity ].
      apply nth_error_In in E.
      pose proof (proj1 (Forall_forall _ _) Hok _ E) as Hlen. simpl in Hlen.
      symmetry. apply nth_error_None. lia.
  - destruct (i <? frame_len df); [ destruct (j <? length df) | ]; reflexivity.
Qed.

Lemma series_item (v : list Q) (idx : list nat) :
  array_item (ndarray_of_1d v) idx = item (PdSeries v) idx.
Proof.
  unfold array_item, ndarray_of_1d; simpl.
  destruct idx as [ | i [ | j idx ] ]; simpl; try reflexivity.
  - destruct (Nat.ltb_spec i (length v)) as [Hi | Hi]; [ reflexivity | ].
    symmetry. apply nth_error_None. lia.
  - destruct (i <? length v); reflexivity.
Qed.
End ArrayItems.

(** C7: on an ndarray, a pandas frame, an np.float64, a cuDF frame or a cuDF
    series, [to_nparray] returns a numpy array that holds, at every position,
    the number the input holds there; a scalar becomes the one-element
    array. *)
Theorem to_nparray_same_values (x : pyobj) :
  supported x = true -> well_formed x ->
  exists a, to_nparray x = NpNdarray a /\
    match x with
    | NpFloat64 v => shape a = [1%nat] /\ data a = [v]
    | _ => forall idx, array_item a idx = item x idx
    end.
Proof.
  intros Hs Hwf. destruct x; try discriminate Hs; simpl in Hwf.
  - exists a. split; [ reflexivity | intros idx; reflexivity ].
  - eexists. split; [ reflexivity | ]. intros idx. apply frame_values_item, Hwf.
  - eexists. split; [ reflexivity | ]. split; reflexivity.
  - eexists. split; [ reflexivity | ]. intros idx. apply (frame_values_item df idx Hwf).
  - eexists. split; [ reflexivity | ]. intros idx. apply series_item.
Qed.

Lemma to_nparray_same_values_witness :
  exists a,
    to_nparray (PdDataFrame [("fea0"%string, [1; 2]); ("fea1"%string, [3; 4])]%Q)
    = NpNdarray a /\
    forall idx,
      array_item a idx
      = item (PdDataFrame [("fea0"%string, [1; 2]); ("fea1"%string, [3; 4])]%Q) idx.
Proof.
  apply (to_nparray_same_values
           (PdDataFrame [("fea0"%string, [1; 2]); ("fea1"%string, [3; 4])]%Q)).
  - reflexivity.
  - repeat constructor.
Defined.

Example to_nparray_frame :
  to_nparray (PdDataFrame [("fea0"%string, [1; 2]); ("fea1"%string, [3; 4])]%Q)
  = NpNdarray {| shape := [2; 2]%nat; data := [1; 3; 2; 4]%Q |}.
Proof. reflexivity. Qed.

(* ------------------------------------------------------------------ *)
(** ** The comparison helper *)

Lemma ravel_to_nparray (x : pyobj) :
  supported x = true ->
  method_ravel (to_nparray x) = Ok (ndarray_of_1d (flat x)).
Proof. destruct x; intros H; try discriminate H; reflexivity. Qed.

Lemma Qltb_lt (x y : Q) : Qltb x y = true <-> (x < y)%Q.
Proof.
  unfold Qltb. rewrite negb_true_iff. split.
  - intros H. apply Qnot_le_lt. intros Hle.
    apply Qle_bool_iff in Hle. congruence.
  - intros H. destruct (Qle_bool y x) eqn:E; [ | reflexivity ].
    apply Qle_bool_iff in E. exfalso. exact (Qlt_not_le _ _ H E).
Qed.

Lemma length_signed (with_sign : bool) (l : list Q) :
  length (signed with_sign l) = length l.
Proof. destruct with_sign; simpl; [ reflexivity | apply length_map ]. Qed.

Lemma mean_squared_error_defined (a b : list Q) :
  length a = length b -> a <> [] -> mean_squared_error a b = Ok (mse a b).
Proof.
  intros Hlen Ha. unfold mean_squared_error, mse.
  rewrite Hlen, Nat.eqb_refl. simpl.
  destruct b as [ | y b ]; [ destruct a; [ congruence | discriminate Hlen ] | ].
  reflexivity.
Qed.

Lemma array_equal_unfold (a b : pyobj) (threshold : Q) (with_sign : bool) :
  supported a = true -> supported b = true ->
  array_equal a b threshold with_sign
  = rbind (mean_squared_error (signed with_sign (flat a)) (signed with_sign (flat b)))
          (fun error => Ok (Qltb error threshold)).
Proof.
  intros Ha Hb. unfold array_equal.
  rewrite (ravel_to_nparray a Ha), (ravel_to_nparray b Hb). simpl.
  destruct with_sign; reflexivity.
Qed.

Example array_equal_signed_differs :
  array_equal (PdDataFrame [("fea0"%string, [1; -2]%Q)])
              (NpNdarray (ndarray_of_1d [-1; 2]%Q)) threshold_default true
  = Ok false.
Proof. vm_compute. reflexivity. Qed.

Lemma to_nparray_unsupported (x : pyobj) : supported x = false -> to_nparray x = x.
Proof. destruct x; simpl; intros H; try discriminate H; reflexivity. Qed.

(** C9, as worded, fails: a pandas series (what [y_train['fea0']] is) is none
    of the five classes, comes back unchanged, and has a [ravel] of its own,
    so [array_equal] compares it and raises nothing. *)
Lemma series_is_compared :
  ~ (forall x, supported x = false ->
       to_nparray x = x /\
       forall b threshold with_sign,
         array_equal x b threshold with_sign = Raise AttributeError).
Proof.
  intros H. destruct (H (PdSeries [1%Q]) eq_refl) as [_ H'].
  specialize (H' (PdSeries [1%Q]) threshold_default true).
  vm_compute in H'. discriminate H'.
Qed.

Lemma method_ravel_outcome (x : pyobj) :
  is_ok (method_ravel (to_nparray x)) = true
  \/ method_ravel (to_nparray x) = Raise AttributeError.
Proof. destruct x; simpl; auto. Qed.

(** C9, amended: an input of none of the five classes comes back from
    [to_nparray] unchanged; when it has no [ravel] method, as a Python list
    has none, [array_equal] raises AttributeError, whichever argument it is;
    when it has one, as a pandas series has, its own [ravel] flattens it to
    the one-dimensional array of its values, and [array_equal] compares it
    as it compares that array. *)
Theorem unsupported_input_passes_through (x : pyobj) :
  supported x = false ->
  to_nparray x = x /\
  (has_ravel x = false ->
   forall b threshold with_sign,
     array_equal x b threshold with_sign = Raise AttributeError
     /\ array_equal b x threshold with_sign = Raise AttributeError) /\
  (has_ravel x = true ->
   method_ravel x = Ok (ndarray_of_1d (flat x)) /\
   forall b threshold with_sign,
     array_equal x b threshold with_sign
     = array_equal (NpNdarray (ndarray_of_1d (flat x))) b threshold with_sign
     /\ array_equal b x threshold with_sign
        = array_equal b (NpNdarray (ndarray_of_1d (flat x))) threshold with_sign).
Proof.
  intros H. pose proof (to_nparray_unsupported x H) as Hx.
  split; [ exact Hx | split ].
  - intros Hr b threshold with_sign. unfold array_equal. rewrite Hx.
    unfold has_ravel in Hr.
    assert (Hm : method_ravel x = Raise AttributeError)
      by (destruct x; try discriminate Hr; reflexivity).
    rewrite Hm. split; [ reflexivity | ].
    destruct (method_ravel_outcome b) as [Hb | Hb].
    + destruct (method_ravel (to_nparray b)); [ reflexivity | discriminate Hb ].
    + rewrite Hb. reflexivity.
  - intros Hr. unfold has_ravel in Hr.
    destruct x; try discriminate H; try discriminate Hr.
    split; [ reflexivity | ].
    intros b threshold with_sign. split; reflexivity.
Qed.

Lemma unsupported_input_passes_through_witness :
  (to_nparray (PyList [1; 2]%Q) = PyList [1; 2]%Q /\
   array_equal (PyList [1; 2]%Q) (NpNdarray (ndarray_of_1d [1; 2]%Q))
               threshold_default true = Raise AttributeError) /\
  method_ravel (PdSeries [1; 2]%Q) = Ok (ndarray_of_1d [1; 2]%Q).
Proof.
  split.
  - destruct (unsupported_input_passes_through (PyList [1; 2]%Q) eq_refl)
      as [H1 [H2 _]].
    split; [ exact H1 | apply H2; reflexivity ].
  - destruct (unsupported_input_passes_through (PdSeries [1; 2]%Q) eq_refl)
      as [_ [_ H3]].
    apply H3. reflexivity.
Defined.

(* ------------------------------------------------------------------ *)
(** ** The loaders, run *)

Section KeptColumns.
Local Open Scope nat_scope.

Lemma filter_all {A : Type} (f : A -> bool) (l : list A) :
  Forall (fun a => f a = true) l -> filter f l = l.
Proof.
  induction 1 as [ | a l Ha _ IH ]; simpl; [ reflexivity | ].
  rewrite Ha, IH. reflexivity.
Qed.

Lemma nth_map_in_range {A B : Type} (f : A -> B) (l : list A) (n : nat) (dA : A) (dB : B) :
  n < length l -> nth n (map f l) dB = f (nth n l dA).
Proof.
  intros H. rewrite (nth_indep _ dB (f dA)) by (rewrite length_map; exact H).
  apply map_nth.
Qed.

Lemma nth_head_of_skipn {A : Type} (n : nat) (l : list A) (d : A) :
  nth n l d = nth 0 (skipn n l) d.
Proof.
  revert l. induction n as [ | n IH ]; intros l; [ reflexivity | ].
  destruct l as [ | a l ]; [ reflexivity | apply IH ].
Qed.

Lemma kept_columns (s : nat) :
  5 <= s ->
  filter (fun i => negb (i =? 4)) (seq 0 s) = seq 0 4 ++ seq 5 (s - 5).
Proof.
  intros H. replace s with (4 + (1 + (s - 5))) at 1 by lia.
  rewrite seq_app, seq_app, !filter_app. simpl seq at 2.
  rewrite (filter_all _ (seq 0 4)) by (repeat constructor).
  simpl filter at 1. f_equal.
  apply filter_all. apply Forall_forall. intros i Hi.
  apply in_seq in Hi. apply negb_true_iff, Nat.eqb_neq. lia.
Qed.

(** The column of the cached array that ends up at position [j] once
    column 4 is gone. *)
Lemma kept_column_at (s j : nat) :
  5 <= s -> j < s - 1 ->
  nth j (filter (fun i => negb (i =? 4)) (seq 0 s)) 0 = if j <? 4 then j else S j.
Proof.
  intros Hs Hj. rewrite kept_columns by exact Hs.
  destruct (Nat.ltb_spec j 4) as [H | H].
  - rewrite app_nth1 by (rewrite length_seq; exact H).
    rewrite seq_nth by exact H. reflexivity.
  - rewrite app_nth2 by (rewrite length_seq; exact H).
    rewrite length_seq, seq_nth by lia. lia.
Qed.

Lemma length_kept_columns (s : nat) :
  5 <= s -> length (filter (fun i => negb (i =? 4)) (seq 0 s)) = s - 1.
Proof. intros H. rewrite kept_columns, length_app, !length_seq by exact H. lia. Qed.

Lemma kept_columns_count (s : nat) :
  length (filter (fun i => negb (i =? 4)) (seq 0 s)) = if 5 <=? s then s - 1 else s.
Proof.
  destruct (Nat.leb_spec 5 s) as [H | H].
  - apply length_kept_columns, H.
  - rewrite filter_all; [ apply length_seq | ].
    apply Forall_forall. intros i Hi. apply in_seq in Hi.
    apply negb_true_iff, Nat.eqb_neq. lia.
Qed.

End KeptColumns.

Lemma bounded_in_range (low high : Z) (d : N) :
  low < high -> low <= bounded low high d < high.
Proof.
  intros H. unfold bounded.
  pose proof (Z.mod_pos_bound (Z.of_N d) (high - low) ltac:(lia)). lia.
Qed.

Lemma bounded_values_in_range (s : nat -> N) (low high : Z) (size : nat) :
  low < high -> Forall (fun i => low <= i < high) (bounded_values s low high size).
Proof.
  intros H. unfold bounded_values. apply Forall_forall. intros i Hi.
  apply in_map_iff in Hi. destruct Hi as [k [<- _]]. apply bounded_in_range, H.
Qed.

Lemma length_bounded_values (s : nat -> N) (low high : Z) (size : nat) :
  length (bounded_values s low high size) = size.
Proof. unfold bounded_values. rewrite length_map, length_seq. reflexivity. Qed.

Lemma rows_at_in_range (X : ndarray2) (idx : list Z) :
  Forall (fun i => 0 <= i < Z.of_nat (shape0 X)) idx ->
  rows_at X idx = Ok (map (fun i => nth (Z.to_nat i) (rows2 X) []) idx).
Proof.
  induction 1 as [ | i idx Hi _ IH ]; [ reflexivity | ].
  simpl. rewrite IH. unfold row_at.
  destruct (Z.leb_spec 0 i); [ | lia ].
  destruct (Z.ltb_spec i (Z.of_nat (shape0 X))); [ | lia ].
  reflexivity.
Qed.

Lemma sampled_in_range (w : world) (A : ndarray2) (nrows : nat) :
  nothing_to_sample A nrows = false ->
  Forall (fun i => 0 <= i < Z.of_nat (shape0 A)) (sampled w A nrows).
Proof.
  unfold nothing_to_sample, sampled. intros H.
  apply andb_false_iff in H. destruct H as [H | H].
  - apply Nat.leb_gt in H.
    eapply Forall_impl; [ | apply bounded_values_in_range; lia ].
    simpl. intros; lia.
  - apply negb_false_iff, Nat.eqb_eq in H. subst nrows. constructor.
Qed.

Lemma shape0_without_column_4 (A : ndarray2) :
  shape0 (without_column_4 A) = shape0 A.
Proof. unfold shape0, without_column_4, take_columns. simpl. apply length_map. Qed.

Lemma shape0_slice_columns (X : ndarray2) (lo hi : nat) :
  shape0 (slice_columns X lo hi) = shape0 X.
Proof. unfold shape0, slice_columns. simpl. apply length_map. Qed.

Lemma empty_range_test (A : ndarray2) (nrows : nat) :
  (Z.of_nat (shape0 (without_column_4 A)) - 1 <=? 0) && negb (nrows =? 0)%nat
  = nothing_to_sample A nrows.
Proof.
  unfold nothing_to_sample. rewrite shape0_without_column_4. f_equal.
  destruct (Z.leb_spec (Z.of_nat (shape0 A) - 1) 0);
    destruct (Nat.leb_spec (shape0 A) 1); try reflexivity; lia.
Qed.

Lemma empty_range_test_deep (n nrows : nat) :
  (Z.of_nat n - 1 <=? 0) && negb (nrows =? 0)%nat
  = (n <=? 1)%nat && negb (nrows =? 0)%nat.
Proof.
  f_equal.
  destruct (Z.leb_spec (Z.of_nat n - 1) 0);
    destruct (Nat.leb_spec n 1); try reflexivity; lia.
Qed.

Lemma row_indices_ok (n : nat) (idx : list Z) :
  Forall (fun i => 0 <= i < Z.of_nat n) idx -> forallb (row_index_ok n) idx = true.
Proof.
  intros H. apply forallb_forall. intros i Hi.
  pose proof (proj1 (Forall_forall _ _) H i Hi) as Hr. cbv beta in Hr.
  unfold row_index_ok. apply andb_true_iff. split.
  - apply Z.leb_le. lia.
  - apply Z.ltb_lt. lia.
Qed.

Lemma deep_sample_in_range (s : nat -> N) (n nrows : nat) :
  (n <=? 1)%nat && negb (nrows =? 0)%nat = false ->
  Forall (fun i => 0 <= i < Z.of_nat n) (bounded_values s 0 (Z.of_nat n - 1) nrows).
Proof.
  intros H. apply andb_false_iff in H. destruct H as [H | H].
  - apply Nat.leb_gt in H.
    eapply Forall_impl; [ | apply bounded_values_in_range; lia ].
    simpl. intros; lia.
  - apply negb_false_iff, Nat.eqb_eq in H. subst nrows. constructor.
Qed.

(** The cached branch, for whatever is at the path. *)
Lemma cached_dataset_run (nrows ncols : nat) (cached : string) (w : world) (f : file) :
  fs w cached = Some f ->
  fst (mortgage_dataset nrows ncols cached w) = cached_dataset w f nrows ncols
  /\ log (snd (mortgage_dataset nrows ncols cached w))
     = log w ++ [EvPrint "use mortgage data"; EvReadGzip cached]
  /\ fs (snd (mortgage_dataset nrows ncols cached w)) = fs w
  /\ forall i, rng (snd (mortgage_dataset nrows ncols cached w)) i
               = rng w (i + draws_of_file f nrows)%nat.
Proof.
  intros H. unfold mortgage_dataset, bind, print, emit, gzip_open_np_load.
  cbn [fst snd fs rng log]. rewrite H.
  destruct f as [ [ x | v | A | n m ] | e ]; cbn [fst snd fs rng log lift second_dimension].
  - rewrite <- app_assoc. rewrite_strat (topdown Nat.add_0_r). repeat split; reflexivity.
  - rewrite <- app_assoc. rewrite_strat (topdown Nat.add_0_r). repeat split; reflexivity.
  - unfold np_random_randint, bind, lift, peek, advance, ret.
    cbn [fst snd fs rng log grid_take_columns grid_slice_columns grid_shape0 grid_shape1
         cached_dataset draws_of_file].
    fold (without_column_4 A). rewrite empty_range_test.
    destruct (nothing_to_sample A nrows) eqn:E.
    + cbn [fst snd fs rng log]. rewrite <- app_assoc.
      rewrite_strat (topdown Nat.add_0_r). repeat split; reflexivity.
    + cbn [fst snd fs rng log grid_index_rows_upto grid_index_rows].
      unfold index_rows_upto, index_rows.
      pose proof (sampled_in_range w A nrows E) as Hin.
      rewrite shape0_without_column_4.
      fold (sampled w A nrows).
      rewrite !rows_at_in_range
        by (rewrite ?shape0_slice_columns, ?shape0_without_column_4; exact Hin).
      cbn [rbind fst snd fs rng log]. rewrite <- app_assoc, map_map.
      repeat split; reflexivity.
  - unfold np_random_randint, bind, lift, peek, advance, ret.
    cbn [fst snd fs rng log grid_take_columns grid_slice_columns grid_shape0 grid_shape1
         cached_dataset draws_of_file].
    rewrite empty_range_test_deep.
    destruct ((n <=? 1)%nat && negb (nrows =? 0)%nat) eqn:E.
    + cbn [fst snd fs rng log]. rewrite <- app_assoc.
      rewrite_strat (topdown Nat.add_0_r). repeat split; reflexivity.
    + cbn [fst snd fs rng log grid_index_rows_upto grid_index_rows].
      rewrite (row_indices_ok n _ (deep_sample_in_range (rng w) n nrows E)).
      cbn [fst snd fs rng log]. rewrite !length_bounded_values, <- app_assoc.
      repeat split; reflexivity.
  - rewrite <- app_assoc. rewrite_strat (topdown Nat.add_0_r). repeat split; reflexivity.
Qed.

Lemma mortgage_dataset_run (nrows ncols : nat) (cached : string) (w : world) (A : ndarray2) :
  fs w cached = matrix_file A ->
  fst (mortgage_dataset nrows ncols cached w)
  = (if nothing_to_sample A nrows then Raise ValueError
     else Ok (Flat (mortgage_X w A nrows ncols), Flat (mortgage_y w A nrows)))
  /\ log (snd (mortgage_dataset nrows ncols cached w))
     = log w ++ [EvPrint "use mortgage data"; EvReadGzip cached]
  /\ fs (snd (mortgage_dataset nrows ncols cached w)) = fs w.
Proof.
  intros H.
  destruct (cached_dataset_run nrows ncols cached w _ H) as [H1 [H2 [H3 _]]].
  repeat split; assumption.
Qed.

Lemma combine_map_same {A B C : Type} (f : A -> B) (g : A -> C) (l : list A) :
  combine (map f l) (map g l) = map (fun a => (f a, g a)) l.
Proof. induction l as [ | a l IH ]; simpl; [ | rewrite IH ]; reflexivity. Qed.

Lemma named_columns (X : ndarray2) (h : list Q -> list Q) :
  named (map h (columns X)) = map (fun i => (fea i, h (column X i))) (seq 0 (shape1 X)).
Proof.
  unfold named, columns. rewrite !length_map, length_seq, map_map.
  apply combine_map_same.
Qed.

Lemma named_single (c : list Q) : named [c] = [("fea0"%string, c)].
Proof. reflexivity. Qed.

Lemma frame_of_rows_named (X : ndarray2) (k : nat) :
  frame_of_rows X 0 k = named (map (firstn k) (columns X)).
Proof.
  rewrite named_columns. unfold frame_of_rows, slice_rows_column, column.
  apply map_ext. intros i. simpl. rewrite Nat.sub_0_r, firstn_map. reflexivity.
Qed.

Lemma frame_from_row_named (X : ndarray2) (k : nat) :
  frame_from_row X k = named (map (skipn k) (columns X)).
Proof.
  rewrite named_columns. unfold frame_from_row, from_row_column, column.
  apply map_ext. intros i. rewrite skipn_map. reflexivity.
Qed.

Lemma os_path_exists_bind {A : Type} (cached : string) (k : bool -> M A) (w : world) :
  bind (os_path_exists cached) k w
  = k (match fs w cached with Some _ => true | None => false end) w.
Proof. reflexivity. Qed.

Lemma bind_run {A B : Type} (m : M A) (k : A -> M B) (w : world) :
  bind m k w
  = match fst (m w) with
    | Ok a => k a (snd (m w))
    | Raise e => (Raise e, snd (m w))
    end.
Proof. unfold bind. destruct (m w) as [ [ a | e ] w' ]; reflexivity. Qed.

Lemma lift_run {A B : Type} (r : result A) (k : A -> M B) (w : world) :
  bind (lift r) k w = match r with Ok a => k a w | Raise e => (Raise e, w) end.
Proof. destruct r; reflexivity. Qed.

(** Whether a deeper array keeps a column for pandas to refuse. *)
Lemma deep_columns_left (m ncols : nat) :
  (Nat.min ncols (length (filter (fun i => negb (i =? 4)%nat) (seq 0 m))) =? 0)%nat
  && (Nat.min 5 (length (filter (fun i => negb (i =? 4)%nat) (seq 0 m)))
      - Nat.min 4 (length (filter (fun i => negb (i =? 4)%nat) (seq 0 m))) =? 0)%nat
  = (m =? 0)%nat || ((ncols =? 0)%nat && (m <=? 5)%nat).
Proof.
  rewrite kept_columns_count.
  destruct (Nat.leb_spec 5 m) as [H5 | H5];
    destruct (Nat.eqb_spec m 0) as [H0 | H0];
    destruct (Nat.eqb_spec ncols 0) as [Hc | Hc];
    destruct (Nat.leb_spec m 5) as [Hm | Hm];
    cbn [orb andb];
    repeat match goal with
           | |- context [ (?a =? ?b)%nat ] => destruct (Nat.eqb_spec a b)
           end;
    cbn [orb andb]; try reflexivity; exfalso; lia.
Qed.

Lemma squeeze_column_map (g : nat -> Q) (n : nat) :
  squeeze_column (map g (seq 0 n))
  = if (n =? 1)%nat then Target0 (g 0%nat) else Target1 (map g (seq 0 n)).
Proof. destruct n as [ | [ | n ] ]; reflexivity. Qed.

Lemma sgd_dataset_run (nrows ncols : nat) (cached : string) (w : world) :
  fst (Sgd.dataset nrows ncols cached w)
  = match fs w cached with
    | Some f => cached_dataset w f nrows ncols
    | None => Ok (Flat (uniform_matrix (rng w) nrows ncols),
                  Flat (digit_column w nrows ncols))
    end
  /\ log (snd (Sgd.dataset nrows ncols cached w)) = log w ++ load_events w cached
  /\ fs (snd (Sgd.dataset nrows ncols cached w)) = fs w.
Proof.
  unfold Sgd.dataset, load_events.
  rewrite os_path_exists_bind.
  destruct (fs w cached) as [ f | ] eqn:E.
  - destruct (cached_dataset_run nrows ncols cached w f E) as [H1 [H2 [H3 _]]].
    repeat split; assumption.
  - cbn. auto.
Qed.

Lemma sgd_load_data_run (nrows ncols : nat) (cached : string) (w : world) :
  fst (Sgd.load_data nrows ncols cached w)
  = match sgd_stop w cached nrows ncols with
    | Some e => Raise e
    | None => Ok (split_80_20 nrows (sgd_X w nrows ncols cached)
                                    (sgd_y w nrows ncols cached))
    end
  /\ log (snd (Sgd.load_data nrows ncols cached w)) = log w ++ load_events w cached
  /\ fs (snd (Sgd.load_data nrows ncols cached w)) = fs w.
Proof.
  destruct (sgd_dataset_run nrows ncols cached w) as [H1 [H2 H3]].
  unfold Sgd.load_data. rewrite bind_run, H1.
  unfold sgd_stop, sgd_X, sgd_y, split_80_20.
  destruct (fs w cached) as [ [ [ x | v | A | n m ] | e ] | ];
    cbn [cached_dataset cached_stop cached_X cached_y].
  - loader_stops H2 H3.
  - loader_stops H2 H3.
  - destruct (nothing_to_sample A nrows); [ loader_stops H2 H3 | ].
    cbv beta iota. rewrite !lift_run. cbn [grid_frame_of_rows grid_frame_from_row].
    cbv beta iota. rewrite !lift_run. cbv beta iota. unfold ret. cbn [fst snd].
    rewrite !frame_of_rows_named, !frame_from_row_named.
    split; [ reflexivity | split; [ exact H2 | exact H3 ] ].
  - cbv zeta. rewrite <- (deep_columns_left m ncols).
    destruct ((n <=? 1)%nat && negb (nrows =? 0)%nat); [ loader_stops H2 H3 | ].
    cbv beta iota. rewrite !lift_run. cbn [grid_frame_of_rows grid_frame_from_row].
    destruct (Nat.min ncols _ =? 0)%nat; [ | loader_stops H2 H3 ].
    cbv beta iota. rewrite !lift_run.
    destruct (Nat.min 5 _ - Nat.min 4 _ =? 0)%nat; [ | loader_stops H2 H3 ].
    cbv beta iota. unfold ret. cbn [fst snd andb map].
    split; [ reflexivity | split; [ exact H2 | exact H3 ] ].
  - loader_stops H2 H3.
  - cbv beta iota. rewrite !lift_run. cbn [grid_frame_of_rows grid_frame_from_row].
    cbv beta iota. rewrite !lift_run. cbv beta iota. unfold ret. cbn [fst snd].
    rewrite !frame_of_rows_named, !frame_from_row_named.
    split; [ reflexivity | split; [ exact H2 | exact H3 ] ].
Qed.

(** What the ridge loader's branches hand to the split of the features:
    the features, and the label frames already cut. *)
Lemma ridge_dataset_run (lib : sklearn_datasets) (nrows ncols : nat) (cached : string)
    (w : world) :
  fst (Ridge.dataset lib nrows ncols cached w)
  = match fs w cached with
    | Some f =>
        rbind (cached_dataset w f nrows ncols) (fun Xy =>
        rbind (grid_frame_of_rows (snd Xy) 0 (train_rows nrows)) (fun df_y_train =>
        rbind (grid_frame_from_row (snd Xy) (train_rows nrows)) (fun df_y_test =>
        Ok (fst Xy, df_y_train, df_y_test))))
    | None =>
        rbind (make_regression lib nrows ncols ncols 0) (fun Xy =>
        rbind (target_slice (snd Xy) 0 (train_rows nrows)) (fun y_train =>
        rbind (target_from (snd Xy) (train_rows nrows)) (fun y_test =>
        Ok (Flat (fst Xy), [("fea0"%string, y_train)], [("fea0"%string, y_test)]))))
    end
  /\ log (snd (Ridge.dataset lib nrows ncols cached w)) = log w ++ load_events w cached
  /\ fs (snd (Ridge.dataset lib nrows ncols cached w)) = fs w
  /\ forall i, rng (snd (Ridge.dataset lib nrows ncols cached w)) i
               = rng w (i + match fs w cached with
                            | Some f => draws_of_file f nrows
                            | None => 0
                            end)%nat.
Proof.
  unfold Ridge.dataset, load_events. cbv zeta.
  rewrite os_path_exists_bind.
  destruct (fs w cached) as [ f | ] eqn:E.
  - destruct (cached_dataset_run nrows ncols cached w f E) as [H1 [H2 [H3 H4]]].
    rewrite bind_run, H1.
    destruct (cached_dataset w f nrows ncols) as [ [X y] | e ];
      [ | cbn [rbind fst snd]; repeat split; assumption ].
    cbv beta iota. cbn [rbind fst snd]. rewrite lift_run.
    destruct (grid_frame_of_rows y 0 (train_rows nrows)) as [ a | e ];
      [ | cbn [fst snd]; repeat split; assumption ].
    rewrite lift_run.
    destruct (grid_frame_from_row y (train_rows nrows)) as [ b | e ];
      cbn [fst snd ret]; unfold ret; cbn [fst snd]; repeat split; assumption.
  - unfold print. rewrite bind_run. cbn [emit fst snd]. rewrite lift_run.
    destruct (make_regression lib nrows ncols ncols 0) as [ [X y] | e ];
      [ | cbn [rbind fst snd fs rng log]; no_draw ].
    cbv beta iota. cbn [rbind fst snd]. rewrite lift_run.
    destruct (target_slice y 0 (train_rows nrows)) as [ a | e ];
      [ | cbn [fst snd fs rng log]; no_draw ].
    rewrite lift_run.
    destruct (target_from y (train_rows nrows)) as [ b | e ];
      unfold ret; cbn [fst snd fs rng log]; no_draw.
Qed.

Lemma ridge_load_data_run (lib : sklearn_datasets) (nrows ncols : nat) (cached : string)
    (w : world) :
  fst (Ridge.load_data lib nrows ncols cached w)
  = match ridge_stop lib w cached nrows ncols with
    | Some e => Raise e
    | None => Ok (split_80_20 nrows (ridge_X lib w nrows ncols cached)
                                    (ridge_y lib w nrows ncols cached))
    end
  /\ log (snd (Ridge.load_data lib nrows ncols cached w)) = log w ++ load_events w cached
  /\ fs (snd (Ridge.load_data lib nrows ncols cached w)) = fs w.
Proof.
  destruct (ridge_dataset_run lib nrows ncols cached w) as [H1 [H2 [H3 _]]].
  unfold Ridge.load_data. rewrite bind_run, H1.
  unfold ridge_stop, ridge_X, ridge_y, split_80_20.
  destruct (fs w cached) as [ [ [ x | v | A | n m ] | e ] | ];
    cbn [cached_dataset cached_stop cached_X cached_y rbind].
  - loader_stops H2 H3.
  - loader_stops H2 H3.
  - destruct (nothing_to_sample A nrows); cbn [rbind]; [ loader_stops H2 H3 | ].
    cbn [fst snd grid_frame_of_rows grid_frame_from_row rbind].
    cbv beta iota. rewrite ?lift_run. cbn [grid_frame_of_rows grid_frame_from_row].
    cbv beta iota. rewrite ?lift_run. cbv beta iota. unfold ret. cbn [fst snd].
    rewrite !frame_of_rows_named, !frame_from_row_named.
    split; [ reflexivity | split; [ exact H2 | exact H3 ] ].
  - cbv zeta. rewrite <- (deep_columns_left m ncols).
    destruct ((n <=? 1)%nat && negb (nrows =? 0)%nat); cbn [rbind];
      [ loader_stops H2 H3 | ].
    cbn [fst snd grid_frame_of_rows grid_frame_from_row].
    destruct (Nat.min 5 _ - Nat.min 4 _ =? 0)%nat; cbn [rbind];
      [ | rewrite andb_false_r; loader_stops H2 H3 ].
    cbv beta iota. rewrite ?lift_run. cbn [grid_frame_of_rows grid_frame_from_row].
    destruct (Nat.min ncols _ =? 0)%nat; [ | loader_stops H2 H3 ].
    cbv beta iota. rewrite ?lift_run. cbv beta iota. unfold ret. cbn [fst snd andb map].
    split; [ reflexivity | split; [ exact H2 | exact H3 ] ].
  - loader_stops H2 H3.
  - unfold regression_columns, make_regression.
    destruct (regression_refuses lib nrows ncols ncols 0); cbn [rbind];
      [ loader_stops H2 H3 | ].
    cbn [fst snd]. rewrite squeeze_column_map.
    destruct (nrows =? 1)%nat; cbn [target_slice target_from rbind];
      [ loader_stops H2 H3 | ].
    cbv beta iota. rewrite ?lift_run. cbn [grid_frame_of_rows grid_frame_from_row].
    cbv beta iota. rewrite ?lift_run. cbv beta iota. unfold ret. cbn [fst snd map].
    rewrite !frame_of_rows_named, !frame_from_row_named, !named_single, Nat.sub_0_r.
    split; [ reflexivity | split; [ exact H2 | exact H3 ] ].
Qed.

(** ** Which branch runs, and whether tables come back *)




Lemma sgd_stop_without_cache (w : world) (cached : string) (nrows ncols : nat) :
  fs w cached = None -> sgd_stop w cached nrows ncols = None.
Proof. unfold sgd_stop. intros ->. reflexivity. Qed.

Lemma ridge_stop_without_cache (lib : sklearn_datasets) (w : world) (cached : string)
    (nrows ncols : nat) :
  fs w cached = None ->
  ridge_stop lib w cached nrows ncols
  = match regression_refuses lib nrows ncols ncols 0 with
    | Some e => Some e
    | None => if (nrows =? 1)%nat then Some IndexError else None
    end.
Proof. unfold ridge_stop. intros ->. reflexivity. Qed.

(** The ridge loader without a cache: its outcome mentions nothing of the
    world. *)
Lemma ridge_synthetic_load (lib : sklearn_datasets) (w : world) (nrows ncols : nat) :
  fs w cached_default = None ->
  fst (Ridge.load_data lib nrows ncols cached_default w)
  = match regression_refuses lib nrows ncols ncols 0 with
    | Some e => Raise e
    | None =>
        if (nrows =? 1)%nat then Raise IndexError
        else Ok (split_80_20 nrows (fst (regression_columns lib nrows ncols))
                                   (snd (regression_columns lib nrows ncols)))
    end.
Proof.
  intros H.
  destruct (ridge_load_data_run lib nrows ncols cached_default w) as [R1 _].
  rewrite R1, (ridge_stop_without_cache lib w _ nrows ncols H).
  unfold ridge_X, ridge_y. rewrite H.
  destruct (regression_refuses lib nrows ncols ncols 0); [ reflexivity | ].
  destruct (nrows =? 1)%nat; reflexivity.
Qed.

(** The loaders on a cached matrix that can be sampled. *)
Lemma sgd_matrix_tables (w : world) (A : ndarray2) (nrows ncols : nat) :
  fs w cached_default = matrix_file A ->
  nothing_to_sample A nrows = false ->
  fst (Sgd.load_data nrows ncols cached_default w)
  = Ok (split_80_20 nrows (columns (mortgage_X w A nrows ncols))
                          (columns (mortgage_y w A nrows)))
  /\ load_events w cached_default
     = [EvPrint "use mortgage data"; EvReadGzip cached_default].
Proof.
  intros Hf Hn. unfold matrix_file in Hf.
  destruct (sgd_load_data_run nrows ncols cached_default w) as [S1 _].
  unfold sgd_stop, sgd_X, sgd_y in S1.
  unfold load_events. rewrite Hf in *.
  cbn [cached_stop cached_X cached_y] in S1. rewrite Hn in S1.
  split; [ exact S1 | reflexivity ].
Qed.

Lemma matrix_tables (lib : sklearn_datasets) (w : world) (A : ndarray2) (nrows ncols : nat) :
  fs w cached_default = matrix_file A ->
  nothing_to_sample A nrows = false ->
  fst (Sgd.load_data nrows ncols cached_default w)
  = Ok (split_80_20 nrows (columns (mortgage_X w A nrows ncols))
                          (columns (mortgage_y w A nrows)))
  /\ fst (Ridge.load_data lib nrows ncols cached_default w)
     = Ok (split_80_20 nrows (columns (mortgage_X w A nrows ncols))
                             (columns (mortgage_y w A nrows))).
Proof.
  intros Hf Hn.
  split; [ apply (sgd_matrix_tables w A nrows ncols Hf Hn) | ].
  unfold matrix_file in Hf.
  destruct (ridge_load_data_run lib nrows ncols cached_default w) as [R1 _].
  unfold ridge_stop, ridge_X, ridge_y in R1. rewrite Hf in R1.
  cbn [cached_stop cached_X cached_y] in R1. rewrite Hn in R1. exact R1.
Qed.

(** ** Determinism of the ridge loader *)

(** C10, as worded, fails: asked for a single row, the ridge loader returns
    no tables, whatever the library: [make_regression] squeezes the target
    of one sample to a scalar, and [y[0:train_rows,]] raises IndexError. *)
Lemma single_sample_stops_the_ridge_loader :
  fs no_cache_world cached_default = None
  /\ (forall lib ncols,
        is_ok (fst (Ridge.load_data lib 1 ncols cached_default no_cache_world)) = false)
  /\ fst (Ridge.load_data toy_datasets 1 2 cached_default no_cache_world)
     = Raise IndexError.
Proof.
  split; [ reflexivity | split; [ | vm_compute; reflexivity ] ].
  intros lib ncols.
  rewrite (ridge_synthetic_load lib no_cache_world 1 ncols eq_refl).
  destruct (regression_refuses lib 1 ncols ncols 0); reflexivity.
Qed.

(** C10, amended: without a cached file the outcome of the ridge loader is
    the same whatever the state of the world, in particular of the numpy
    generator; when [make_regression] takes the arguments and [nrows] is not
    1, a call returns four tables and a second call right after it returns
    the same four; for [nrows = 1] no call returns any. *)
Theorem ridge_synthetic_load_is_deterministic
    (lib : sklearn_datasets) (w1 w2 : world) (nrows ncols : nat) :
  fs w1 cached_default = None -> fs w2 cached_default = None ->
  fst (Ridge.load_data lib nrows ncols cached_default w1)
  = fst (Ridge.load_data lib nrows ncols cached_default w2)
  /\ (regression_refuses lib nrows ncols ncols 0 = None -> nrows <> 1%nat ->
      exists t,
        fst (bind (Ridge.load_data lib nrows ncols cached_default) (fun a =>
             bind (Ridge.load_data lib nrows ncols cached_default) (fun b =>
             ret (a, b))) w1) = Ok (t, t))
  /\ (nrows = 1%nat ->
      is_ok (fst (Ridge.load_data lib nrows ncols cached_default w1)) = false).
Proof.
  intros H1 H2.
  pose proof (ridge_synthetic_load lib w1 nrows ncols H1) as A1.
  pose proof (ridge_synthetic_load lib w2 nrows ncols H2) as B1.
  split; [ congruence | split ].
  - intros Hr Hn. apply Nat.eqb_neq in Hn. rewrite Hr, Hn in A1.
    destruct (ridge_load_data_run lib nrows ncols cached_default w1) as [_ [_ A3]].
    eexists. rewrite bind_run, A1, bind_run.
    set (w' := snd (Ridge.load_data lib nrows ncols cached_default w1)) in *.
    assert (H' : fs w' cached_default = None) by congruence.
    rewrite (ridge_synthetic_load lib w' nrows ncols H'), Hr, Hn. reflexivity.
  - intros ->. rewrite A1.
    destruct (regression_refuses lib 1 ncols ncols 0); reflexivity.
Qed.

Lemma ridge_synthetic_load_is_deterministic_witness :
  fst (Ridge.load_data toy_datasets 5 2 cached_default no_cache_world)
  = fst (Ridge.load_data toy_datasets 5 2 cached_default tied_rows_world)
  /\ exists t,
       fst (bind (Ridge.load_data toy_datasets 5 2 cached_default) (fun a =>
            bind (Ridge.load_data toy_datasets 5 2 cached_default) (fun b =>
            ret (a, b))) no_cache_world) = Ok (t, t).
Proof.
  destruct (ridge_synthetic_load_is_deterministic toy_datasets
              no_cache_world tied_rows_world 5 2 eq_refl eq_refl) as [H1 [H2 _]].
  split; [ exact H1 | apply H2; [ reflexivity | discriminate ] ].
Defined.

(** ** The 80:20 split *)

Section RowCounts.
Local Open Scope nat_scope.

Lemma columns_length (X : ndarray2) :
  Forall (fun col => length col = shape0 X) (columns X).
Proof.
  unfold columns. apply Forall_forall. intros col H.
  apply in_map_iff in H. destruct H as [i [<- _]].
  unfold column, shape0. apply length_map.
Qed.

Lemma columns_have (X : ndarray2) (n : nat) :
  shape0 X = n -> Forall (fun col => length col = n) (columns X).
Proof. intros <-. apply columns_length. Qed.

Lemma length_sampled (w : world) (A : ndarray2) (nrows : nat) :
  length (sampled w A nrows) = nrows.
Proof. apply length_bounded_values. Qed.

Lemma shape0_mortgage_X (w : world) (A : ndarray2) (nrows ncols : nat) :
  shape0 (mortgage_X w A nrows ncols) = nrows.
Proof. unfold shape0, mortgage_X. simpl. rewrite length_map. apply length_sampled. Qed.

Lemma shape0_mortgage_y (w : world) (A : ndarray2) (nrows : nat) :
  shape0 (mortgage_y w A nrows) = nrows.
Proof. unfold shape0, mortgage_y. simpl. rewrite length_map. apply length_sampled. Qed.

Lemma shape0_uniform_matrix (s : nat -> N) (nrows ncols : nat) :
  shape0 (uniform_matrix s nrows ncols) = nrows.
Proof. unfold shape0, uniform_matrix. simpl. rewrite length_map. apply length_seq. Qed.

Lemma shape0_digit_column (w : world) (nrows ncols : nat) :
  shape0 (digit_column w nrows ncols) = nrows.
Proof.
  unfold shape0, digit_column. simpl. rewrite length_map. apply length_bounded_values.
Qed.

Lemma cached_X_length (w : world) (f : file) (nrows ncols : nat) :
  Forall (fun col => length col = nrows) (cached_X w f nrows ncols).
Proof.
  destruct f as [ [ x | v | A | n m ] | e ]; try constructor.
  apply columns_have, shape0_mortgage_X.
Qed.

Lemma cached_y_length (w : world) (f : file) (nrows : nat) :
  Forall (fun col => length col = nrows) (cached_y w f nrows).
Proof.
  destruct f as [ [ x | v | A | n m ] | e ]; try constructor.
  apply columns_have, shape0_mortgage_y.
Qed.

Lemma sgd_X_length (w : world) (nrows ncols : nat) (cached : string) :
  Forall (fun col => length col = nrows) (sgd_X w nrows ncols cached).
Proof.
  unfold sgd_X. destruct (fs w cached);
    [ apply cached_X_length | apply columns_have, shape0_uniform_matrix ].
Qed.

Lemma sgd_y_length (w : world) (nrows ncols : nat) (cached : string) :
  Forall (fun col => length col = nrows) (sgd_y w nrows ncols cached).
Proof.
  unfold sgd_y. destruct (fs w cached);
    [ apply cached_y_length | apply columns_have, shape0_digit_column ].
Qed.

(** What [make_regression] returns, once it takes its arguments and is
    asked for other than a single sample. *)
Lemma regression_columns_accepted (lib : sklearn_datasets) (nrows ncols : nat) :
  regression_refuses lib nrows ncols ncols 0 = None -> nrows <> 1 ->
  exists X y,
    make_regression lib nrows ncols ncols 0 = Ok (X, Target1 y)
    /\ regression_columns lib nrows ncols = (columns X, [y])
    /\ shape0 X = nrows /\ shape1 X = ncols /\ length y = nrows.
Proof.
  intros Hr Hn. apply Nat.eqb_neq in Hn.
  unfold regression_columns, make_regression. rewrite Hr, squeeze_column_map, Hn.
  eexists _, _. split; [ reflexivity | split; [ reflexivity | ] ].
  unfold shape0. cbn [rows2 shape1]. rewrite !length_map, length_seq. auto.
Qed.

Lemma regression_columns_length (lib : sklearn_datasets) (nrows ncols : nat) :
  Forall (fun col => length col = nrows) (fst (regression_columns lib nrows ncols))
  /\ Forall (fun col => length col = nrows) (snd (regression_columns lib nrows ncols)).
Proof.
  destruct (regression_refuses lib nrows ncols ncols 0) as [ e | ] eqn:Hr.
  - unfold regression_columns, make_regression. rewrite Hr. split; constructor.
  - destruct (Nat.eq_dec nrows 1) as [ -> | Hn ].
    + unfold regression_columns, make_regression. rewrite Hr. split; constructor.
    + destruct (regression_columns_accepted lib nrows ncols Hr Hn)
        as [X [y [_ [E [H0 [_ Hy]]]]]].
      rewrite E. split; [ apply columns_have, H0 | repeat constructor; exact Hy ].
Qed.

Lemma ridge_X_length (lib : sklearn_datasets) (w : world) (nrows ncols : nat)
    (cached : string) :
  Forall (fun col => length col = nrows) (ridge_X lib w nrows ncols cached).
Proof.
  unfold ridge_X. destruct (fs w cached);
    [ apply cached_X_length | apply regression_columns_length ].
Qed.

Lemma ridge_y_length (lib : sklearn_datasets) (w : world) (nrows ncols : nat)
    (cached : string) :
  Forall (fun col => length col = nrows) (ridge_y lib w nrows ncols cached).
Proof.
  unfold ridge_y. destruct (fs w cached);
    [ apply cached_y_length | apply regression_columns_length ].
Qed.

Lemma split_column (nrows : nat) (col : list Q) :
  length col = nrows ->
  length (firstn (train_rows nrows) col) = train_rows nrows
  /\ length (skipn (train_rows nrows) col) = nrows - train_rows nrows
  /\ firstn (train_rows nrows) col ++ skipn (train_rows nrows) col = col.
Proof.
  intros H. pose proof (train_rows_le nrows).
  rewrite length_firstn, length_skipn, firstn_skipn. repeat split; lia.
Qed.

Lemma length_named (cols : list (list Q)) : length (named cols) = length cols.
Proof.
  unfold named. rewrite length_combine, length_map, length_seq. apply Nat.min_id.
Qed.

Lemma frame_shape_of_cut (cols : list (list Q)) (h : list Q -> list Q) (k : nat) :
  Forall (fun col => length (h col) = k) cols ->
  frame_shape (named (map h cols)) = (rows_of_cut cols k, length cols).
Proof.
  intros H. unfold frame_shape. rewrite length_named, length_map. f_equal.
  destruct H as [ | c0 cols H0 _ ]; [ reflexivity | exact H0 ].
Qed.

Lemma split_is_cut (nrows : nat) (Xcols ycols : list (list Q)) :
  Forall (fun col => length col = nrows) Xcols ->
  Forall (fun col => length col = nrows) ycols ->
  cut_at nrows (train_rows nrows) Xcols ycols (split_80_20 nrows Xcols ycols).
Proof.
  intros HX Hy. unfold cut_at, split_80_20.
  repeat split; apply frame_shape_of_cut;
    (eapply Forall_impl; [ | eassumption ]); intros col Hc;
    apply (split_column nrows col Hc).
Qed.

End RowCounts.

(** C5, as worded, fails: asked for no feature column, the SGD loader
    returns feature tables made of an empty dictionary, which have no row,
    while [int(5*0.8)] is 4 and the label tables do hold 4 rows and 1. *)
Lemma featureless_tables_have_no_rows :
  exists X_train X_test y_train y_test,
    fst (Sgd.load_data 5 0 cached_default no_cache_world)
    = Ok (X_train, X_test, y_train, y_test)
    /\ train_rows 5 = 4%nat
    /\ frame_len X_train = 0%nat /\ frame_len X_test = 0%nat
    /\ frame_len y_train = 4%nat /\ frame_len y_test = 1%nat.
Proof.
  eexists _, _, _, _. split; [ vm_compute; reflexivity | ].
  vm_compute. repeat split; reflexivity.
Qed.

(** C5, amended: whenever [load_data] returns, its four tables are the dataset's feature and label columns cut by row order
    at [int(nrows*0.8)], which is [4*nrows/5] rounded down (below 2^50 rows)
    and never exceeds [nrows]: every column of the dataset has [nrows]
    entries, the train tables hold the first [int(nrows*0.8)] of them, the
    test tables the remaining [nrows - int(nrows*0.8)]; a table has that
    many rows when it has a column, and no row when it has none (no feature
    column asked for, no label column in a narrow cache). *)
Theorem load_data_splits_80_20
    (lib : sklearn_datasets) (w : world) (nrows ncols : nat) :
  (forall t, fst (Sgd.load_data nrows ncols cached_default w) = Ok t ->
     t = split_80_20 nrows (sgd_X w nrows ncols cached_default)
                           (sgd_y w nrows ncols cached_default)
     /\ cut_at nrows (train_rows nrows) (sgd_X w nrows ncols cached_default)
               (sgd_y w nrows ncols cached_default) t)
  /\ (forall t, fst (Ridge.load_data lib nrows ncols cached_default w) = Ok t ->
        t = split_80_20 nrows (ridge_X lib w nrows ncols cached_default)
                              (ridge_y lib w nrows ncols cached_default)
        /\ cut_at nrows (train_rows nrows) (ridge_X lib w nrows ncols cached_default)
                  (ridge_y lib w nrows ncols cached_default) t)
  /\ Forall (fun col =>
               length col = nrows
               /\ length (firstn (train_rows nrows) col) = train_rows nrows
               /\ length (skipn (train_rows nrows) col)
                  = (nrows - train_rows nrows)%nat
               /\ firstn (train_rows nrows) col ++ skipn (train_rows nrows) col = col)
            (sgd_X w nrows ncols cached_default
             ++ sgd_y w nrows ncols cached_default
             ++ ridge_X lib w nrows ncols cached_default
             ++ ridge_y lib w nrows ncols cached_default)
  /\ (train_rows nrows <= nrows)%nat
  /\ (Z.of_nat nrows < 2 ^ 50 -> train_rows nrows = (4 * nrows / 5)%nat).
Proof.
  destruct (sgd_load_data_run nrows ncols cached_default w) as [S1 _].
  destruct (ridge_load_data_run lib nrows ncols cached_default w) as [R1 _].
  pose proof (sgd_X_length w nrows ncols cached_default) as HsX.
  pose proof (sgd_y_length w nrows ncols cached_default) as Hsy.
  pose proof (ridge_X_length lib w nrows ncols cached_default) as HrX.
  pose proof (ridge_y_length lib w nrows ncols cached_default) as Hry.
  split; [ | split; [ | split; [ | split ] ] ].
  - intros t Ht. rewrite Ht in S1.
    destruct (sgd_stop w cached_default nrows ncols); [ discriminate S1 | ].
    injection S1 as ->. split; [ reflexivity | apply split_is_cut; assumption ].
  - intros t Ht. rewrite Ht in R1.
    destruct (ridge_stop lib w cached_default nrows ncols); [ discriminate R1 | ].
    injection R1 as ->. split; [ reflexivity | apply split_is_cut; assumption ].
  - assert (Hall : Forall (fun col => length col = nrows)
              (sgd_X w nrows ncols cached_default
               ++ sgd_y w nrows ncols cached_default
               ++ ridge_X lib w nrows ncols cached_default
               ++ ridge_y lib w nrows ncols cached_default)).
    { repeat (apply Forall_app; split); assumption. }
    eapply Forall_impl; [ | exact Hall ].
    intros col Hc. split; [ exact Hc | apply split_column, Hc ].
  - apply train_rows_le.
  - apply train_rows_four_fifths.
Qed.

Lemma load_data_splits_80_20_witness :
  cut_at 5 (train_rows 5) (sgd_X small_cache_world 5 2 cached_default)
         (sgd_y small_cache_world 5 2 cached_default)
         ([("fea0", [20; 10; 20; 10]); ("fea1", [21; 11; 21; 11])],
          [("fea0", [20]); ("fea1", [21])],
          [("fea0", [25; 15; 25; 15])],
          [("fea0", [25])])%string%Q
  /\ train_rows 5 = (4 * 5 / 5)%nat.
Proof.
  destruct (load_data_splits_80_20 toy_datasets small_cache_world 5 2)
    as [H1 [_ [_ [_ H5]]]].
  split; [ apply H1; vm_compute; reflexivity | apply H5; reflexivity ].
Defined.

Example load_data_small_cache :
  fst (Sgd.load_data 5 2 cached_default small_cache_world)
  = Ok ([("fea0", [20; 10; 20; 10]); ("fea1", [21; 11; 21; 11])],
        [("fea0", [20]); ("fea1", [21])],
        [("fea0", [25; 15; 25; 15])],
        [("fea0", [25])])%string%Q.
Proof. vm_compute. reflexivity. Qed.

(** ** The cached branch: which column is the label *)

Section CachedBranch.
Local Open Scope nat_scope.

Lemma without_column_4_cell (A : ndarray2) (r j : nat) :
  5 <= shape1 A -> r < shape0 A -> j < shape1 A - 1 ->
  cell (without_column_4 A) r j = cell A r (if j <? 4 then j else S j).
Proof.
  intros Hs Hr Hj. unfold cell, without_column_4, take_columns. cbn [rows2].
  rewrite (nth_map_in_range _ _ _ []) by exact Hr.
  set (row := nth r (rows2 A) []).
  rewrite (nth_map_in_range _ _ _ 0) by (rewrite length_kept_columns; assumption).
  rewrite kept_column_at by assumption. reflexivity.
Qed.

Lemma label_slice_cell (A : ndarray2) (r : nat) :
  6 <= shape1 A -> r < shape0 A ->
  nth r (rows2 (slice_columns (without_column_4 A) 4 5)) [] = [cell A r 5].
Proof.
  intros Hs Hr.
  pose proof (without_column_4_cell A r 4 ltac:(lia) Hr ltac:(lia)) as Hc.
  simpl in Hc. rewrite <- Hc.
  unfold cell, slice_columns. cbn [rows2].
  assert (Hr' : r < length (rows2 (without_column_4 A)))
    by (fold (shape0 (without_column_4 A)); rewrite shape0_without_column_4; exact Hr).
  rewrite (nth_map_in_range _ _ _ []) by exact Hr'.
  set (row := nth r (rows2 (without_column_4 A)) []).
  assert (Hlen : length row = shape1 A - 1).
  { subst row. unfold without_column_4, take_columns in *. cbn [rows2] in *.
    rewrite length_map in Hr'.
    rewrite (nth_map_in_range _ _ _ []) by exact Hr'.
    rewrite length_map. apply length_kept_columns. lia. }
  rewrite (nth_head_of_skipn 4 row).
  destruct (skipn 4 row) as [ | x tl ] eqn:E.
  - exfalso. pose proof (length_skipn 4 row) as Hsk. rewrite E in Hsk. simpl in Hsk. lia.
  - reflexivity.
Qed.

Lemma shape1_label_slice (A : ndarray2) :
  6 <= shape1 A -> shape1 (slice_columns (without_column_4 A) 4 5) = 1.
Proof.
  intros H. unfold slice_columns, without_column_4, take_columns. cbn [shape1].
  rewrite length_kept_columns by lia. lia.
Qed.

Lemma mortgage_y_columns (w : world) (A : ndarray2) (nrows : nat) :
  6 <= shape1 A -> nothing_to_sample A nrows = false ->
  columns (mortgage_y w A nrows) = [column_5_sampled w A nrows].
Proof.
  intros Hs Hn. unfold columns. unfold mortgage_y at 2. cbn [shape1].
  rewrite shape1_label_slice by exact Hs. simpl. f_equal.
  unfold column, mortgage_y, column_5_sampled. cbn [rows2]. rewrite map_map.
  apply map_ext_in. intros i Hi.
  pose proof (proj1 (Forall_forall _ _) (sampled_in_range w A nrows Hn) i Hi) as Hr.
  simpl in Hr. rewrite label_slice_cell by (try exact Hs; lia). reflexivity.
Qed.

End CachedBranch.

(** C8: in the cached branch of both loaders column 4 of the loaded array is
    dropped first and the label is column 4 of what is left, so that with at
    least six columns the label tables hold column 5 of the loaded array (at
    the sampled rows), split like the features; the features' column [j] is
    the loaded array's column [j] below 4 and [j+1] from 4 on. *)
Theorem cached_label_is_column_5
    (lib : sklearn_datasets) (w : world) (A : ndarray2) (nrows ncols : nat) :
  fs w cached_default = matrix_file A ->
  (6 <= shape1 A)%nat ->
  nothing_to_sample A nrows = false ->
  fst (Sgd.load_data nrows ncols cached_default w)
  = Ok (split_80_20 nrows (columns (mortgage_X w A nrows ncols))
                          [column_5_sampled w A nrows])
  /\ fst (Ridge.load_data lib nrows ncols cached_default w)
     = Ok (split_80_20 nrows (columns (mortgage_X w A nrows ncols))
                             [column_5_sampled w A nrows])
  /\ forall r j, (r < shape0 A)%nat -> (j < shape1 A - 1)%nat ->
       cell (without_column_4 A) r j = cell A r (if (j <? 4)%nat then j else S j).
Proof.
  intros Hf Hs Hn.
  destruct (matrix_tables lib w A nrows ncols Hf Hn) as [S1 R1].
  rewrite (mortgage_y_columns w A nrows Hs Hn) in S1, R1.
  split; [ exact S1 | split; [ exact R1 | ] ].
  intros r j Hr Hj. apply without_column_4_cell; [ lia | exact Hr | exact Hj ].
Qed.

Lemma cached_label_is_column_5_witness :
  fst (Sgd.load_data 5 2 cached_default small_cache_world)
  = Ok (split_80_20 5 (columns (mortgage_X small_cache_world small_cache 5 2))
                      [column_5_sampled small_cache_world small_cache 5]).
Proof.
  apply (cached_label_is_column_5 toy_datasets small_cache_world small_cache 5 2);
    [ reflexivity | vm_compute; lia | reflexivity ].
Defined.

Example column_5_of_small_cache :
  column_5_sampled small_cache_world small_cache 5 = [25; 15; 25; 15; 25]%Q.
Proof. vm_compute. reflexivity. Qed.

(** ** The synthetic branch *)

(** C4, as worded, fails in the SGD notebook: without a cache its loader
    draws the features and, independently, the labels; the draws can repeat
    a feature row under two different labels, which no regression
    relationship produces. *)
Lemma sgd_labels_are_unrelated :
  ~ (forall (w : world) (nrows ncols : nat) (X y : ndarray2),
       fs w cached_default = None ->
       fst (Sgd.dataset nrows ncols cached_default w) = Ok (Flat X, Flat y) ->
       linear_relationship X y).
Proof.
  intros H.
  destruct (H tied_rows_world 2%nat 1%nat _ _ eq_refl eq_refl) as [coef [bias Hrel]].
  pose proof (Hrel 0%nat ltac:(vm_compute; lia)) as H0.
  pose proof (Hrel 1%nat ltac:(vm_compute; lia)) as H1.
  change (nth 1 (rows2 (uniform_matrix (rng tied_rows_world) 2 1)) [])
    with (nth 0 (rows2 (uniform_matrix (rng tied_rows_world) 2 1)) []) in H1.
  rewrite <- H0 in H1. vm_compute in H1. discriminate H1.
Qed.

Lemma uniform01_range (d : N) : (0 <= uniform01 d /\ uniform01 d < 1)%Q.
Proof.
  unfold uniform01, Qle, Qlt. cbn [Qnum Qden].
  pose proof (N.mod_upper_bound d 9007199254740992 ltac:(discriminate)) as H.
  set (m := (d mod 9007199254740992)%N) in *.
  split; lia.
Qed.

Lemma uniform_matrix_cell (s : nat -> N) (nrows ncols i j : nat) :
  (i < nrows)%nat -> (j < ncols)%nat ->
  cell (uniform_matrix s nrows ncols) i j = uniform01 (s (i * ncols + j)%nat).
Proof.
  intros Hi Hj. unfold cell, uniform_matrix. cbn [rows2].
  rewrite (nth_map_in_range _ _ _ 0%nat) by (rewrite length_seq; exact Hi).
  rewrite (nth_map_in_range _ _ _ 0%nat) by (rewrite length_seq; exact Hj).
  rewrite !seq_nth by assumption. reflexivity.
Qed.

Lemma digit_column_cell (w : world) (nrows ncols i : nat) :
  (i < nrows)%nat ->
  cell (digit_column w nrows ncols) i 0
  = inject_Z (bounded 0 10 (rng w (i + nrows * ncols)%nat)).
Proof.
  intros Hi. unfold cell, digit_column, bounded_values. cbn [rows2].
  rewrite map_map.
  rewrite (nth_map_in_range _ _ _ 0%nat) by (rewrite length_seq; exact Hi).
  rewrite seq_nth by exact Hi. reflexivity.
Qed.

Lemma sgd_synthetic_load (w : world) (nrows ncols : nat) :
  fs w cached_default = None ->
  fst (Sgd.load_data nrows ncols cached_default w)
  = Ok (split_80_20 nrows (columns (uniform_matrix (rng w) nrows ncols))
                          (columns (digit_column w nrows ncols))).
Proof.
  intros Hf.
  destruct (sgd_load_data_run nrows ncols cached_default w) as [S1 _].
  rewrite (sgd_stop_without_cache w _ nrows ncols Hf) in S1.
  unfold sgd_X, sgd_y in S1. rewrite Hf in S1. exact S1.
Qed.

Lemma ridge_synthetic_split (lib : sklearn_datasets) (w : world) (nrows ncols : nat) :
  fs w cached_default = None ->
  fst (Ridge.load_data lib nrows ncols cached_default w)
  = match make_regression lib nrows ncols ncols 0 with
    | Ok (X, Target1 y) => Ok (split_80_20 nrows (columns X) [y])
    | Ok (X, Target0 _) => Raise IndexError
    | Raise e => Raise e
    end.
Proof.
  intros Hf. rewrite (ridge_synthetic_load lib w nrows ncols Hf).
  unfold regression_columns, make_regression.
  destruct (regression_refuses lib nrows ncols ncols 0); [ reflexivity | ].
  rewrite squeeze_column_map. destruct (nrows =? 1)%nat; reflexivity.
Qed.

Lemma make_regression_shapes (lib : sklearn_datasets) (nrows ncols : nat)
    (X : ndarray2) (y : target) :
  make_regression lib nrows ncols ncols 0 = Ok (X, y) ->
  shape0 X = nrows /\ shape1 X = ncols
  /\ match y with
     | Target1 v => length v = nrows /\ nrows <> 1%nat
     | Target0 _ => nrows = 1%nat
     end.
Proof.
  unfold make_regression.
  destruct (regression_refuses lib nrows ncols ncols 0); [ discriminate | ].
  rewrite squeeze_column_map. intros H.
  destruct (Nat.eqb_spec nrows 1) as [ E | E ]; injection H as <- <-;
    unfold shape0; cbn [rows2 shape1]; rewrite ?length_map, ?length_seq; auto.
Qed.

(** C4, amended: without a cached file the ridge loader splits what
    [make_regression(n_samples=nrows, n_features=ncols, n_informative=ncols,
    random_state=0)] returns, [nrows] samples of [ncols] features and a
    target, unless the target is the scalar of a single sample, which stops
    it with IndexError; the SGD loader splits [nrows*ncols] uniform draws
    from [0, 1) as features and, as labels, the [nrows] draws that follow,
    each made an integer of [0, 10). *)
Theorem synthetic_datasets
    (lib : sklearn_datasets) (w : world) (nrows ncols : nat) :
  fs w cached_default = None ->
  fst (Ridge.load_data lib nrows ncols cached_default w)
  = match make_regression lib nrows ncols ncols 0 with
    | Ok (X, Target1 y) => Ok (split_80_20 nrows (columns X) [y])
    | Ok (X, Target0 _) => Raise IndexError
    | Raise e => Raise e
    end
  /\ (forall X y, make_regression lib nrows ncols ncols 0 = Ok (X, y) ->
        shape0 X = nrows /\ shape1 X = ncols
        /\ match y with
           | Target1 v => length v = nrows /\ nrows <> 1%nat
           | Target0 _ => nrows = 1%nat
           end)
  /\ fst (Sgd.load_data nrows ncols cached_default w)
     = Ok (split_80_20 nrows (columns (uniform_matrix (rng w) nrows ncols))
                             (columns (digit_column w nrows ncols)))
  /\ (forall i j, (i < nrows)%nat -> (j < ncols)%nat ->
        cell (uniform_matrix (rng w) nrows ncols) i j
        = uniform01 (rng w (i * ncols + j)%nat)
        /\ (0 <= cell (uniform_matrix (rng w) nrows ncols) i j < 1)%Q)
  /\ (forall i, (i < nrows)%nat ->
        cell (digit_column w nrows ncols) i 0
        = inject_Z (bounded 0 10 (rng w (i + nrows * ncols)%nat))
        /\ 0 <= bounded 0 10 (rng w (i + nrows * ncols)%nat) < 10).
Proof.
  intros Hf.
  split; [ apply ridge_synthetic_split, Hf | ].
  split; [ apply make_regression_shapes | ].
  split; [ apply sgd_synthetic_load, Hf | split ].
  - intros i j Hi Hj. rewrite uniform_matrix_cell by assumption.
    split; [ reflexivity | apply uniform01_range ].
  - intros i Hi. split; [ apply digit_column_cell, Hi | apply bounded_in_range; lia ].
Qed.

Lemma synthetic_datasets_witness :
  fst (Sgd.load_data 5 2 cached_default no_cache_world)
  = Ok (split_80_20 5 (columns (uniform_matrix (rng no_cache_world) 5 2))
                      (columns (digit_column no_cache_world 5 2)))
  /\ fst (Ridge.load_data toy_datasets 5 2 cached_default no_cache_world)
     = match make_regression toy_datasets 5 2 2 0 with
       | Ok (X, Target1 y) => Ok (split_80_20 5 (columns X) [y])
       | Ok (X, Target0 _) => Raise IndexError
       | Raise e => Raise e
       end.
Proof.
  destruct (synthetic_datasets toy_datasets no_cache_world 5 2 eq_refl)
    as [H1 [_ [H3 _]]].
  split; [ exact H3 | exact H1 ].
Defined.

Example ridge_load_of_five_samples :
  fst (Ridge.load_data toy_datasets 5 2 cached_default no_cache_world)
  = Ok ([("fea0", [0; 1; 2; 3]); ("fea1", [1; 2; 3; 4])],
        [("fea0", [4]); ("fea1", [5])],
        [("fea0", [0; 2; 4; 6])],
        [("fea0", [8])])%string%Q.
Proof. vm_compute. reflexivity. Qed.

(** The tables of the synthetic branch, for the lemmas below. *)
Lemma synthetic_tables (lib : sklearn_datasets) (w : world) (nrows ncols : nat) :
  fs w cached_default = None ->
  (regression_refuses lib nrows ncols ncols 0 = None -> nrows <> 1%nat ->
   exists X y,
     make_regression lib nrows ncols ncols 0 = Ok (X, Target1 y)
     /\ shape0 X = nrows /\ shape1 X = ncols /\ length y = nrows
     /\ fst (Ridge.load_data lib nrows ncols cached_default w)
        = Ok (split_80_20 nrows (columns X) [y]))
  /\ fst (Sgd.load_data nrows ncols cached_default w)
     = Ok (split_80_20 nrows (columns (uniform_matrix (rng w) nrows ncols))
                             (columns (digit_column w nrows ncols))).
Proof.
  intros Hf. split; [ | apply sgd_synthetic_load, Hf ].
  intros Hr Hn.
  destruct (regression_columns_accepted lib nrows ncols Hr Hn)
    as [X [y [E [_ [H0 [H1 Hy]]]]]].
  exists X, y. rewrite (ridge_synthetic_split lib w nrows ncols Hf), E.
  repeat split; assumption.
Qed.

(** ** The drivers *)

Lemma int_mul_0_8_lt (n : Z) : 1 <= n -> Binary64.int_mul_0_8 n < n.
Proof.
  intros Hn. unfold Binary64.int_mul_0_8.
  destruct (round_nearest_even_bounds n ltac:(lia)) as [H1 H1'].
  assert (Hc : 0 <= Binary64.round_nearest_even n * Binary64.mantissa_0_8)
    by (unfold Binary64.mantissa_0_8; nia).
  destruct (round_nearest_even_bounds _ Hc) as [H2 H2'].
  rewrite Z.shiftr_div_pow2 by lia.
  apply Z.div_lt_upper_bound; [ lia | ].
  set (R1 := Binary64.round_nearest_even n) in *.
  set (R2 := Binary64.round_nearest_even (R1 * Binary64.mantissa_0_8)) in *.
  unfold Binary64.mantissa_0_8 in *.
  change (2 ^ 53) with 9007199254740992 in *.
  change (2 ^ 52) with 4503599627370496.
  lia.
Qed.

Lemma train_rows_lt (nrows : nat) : (1 <= nrows -> train_rows nrows < nrows)%nat.
Proof.
  intros H. unfold train_rows.
  pose proof (int_mul_0_8_lt (Z.of_nat nrows) ltac:(lia)).
  pose proof (int_mul_0_8_bounds (Z.of_nat nrows) ltac:(lia)). lia.
Qed.

Lemma emit_run {B : Type} (e : event) (k : unit -> M B) (w : world) :
  bind (emit e) k w = k tt {| fs := fs w; rng := rng w; log := log w ++ [e] |}.
Proof. reflexivity. Qed.

Lemma print_shapes_run {B : Type} (t : tables) (k : unit -> M B) (w : world) :
  bind (print_shapes t) k w
  = k tt {| fs := fs w; rng := rng w; log := log w ++ shape_lines t |}.
Proof.
  destruct t as [ [ [X_train X_test] y_train ] y_test ].
  unfold print_shapes, print_shape, shape_lines, bind, emit. cbn [fst snd fs rng log].
  rewrite <- !app_assoc. reflexivity.
Qed.

Lemma print_errors_run (e_sk e_cu : Q) (v : errors) (w : world) :
  bind (print_errors e_sk e_cu) (fun _ => ret v) w
  = (Ok v, {| fs := fs w; rng := rng w; log := log w ++ error_lines e_sk e_cu |}).
Proof.
  unfold print_errors, print, print_float, error_lines, bind, emit, ret.
  cbn [fst snd fs rng log]. rewrite <- !app_assoc. reflexivity.
Qed.

Section Drivers.
Variable lib : sklearn_datasets.
Variables SGDRegressor cumlSGD skRidge cuRidge : estimator.

Lemma sgd_run_after_load (w : world) (nrows ncols : nat)
    (X_train X_test y_train y_test : DataFrame) (labels : list Q)
    (sk_sgd : fitted SGDRegressor) (cu_sgd : fitted cumlSGD) (e_sk e_cu : Q) :
  fst (Sgd.load_data nrows ncols cached_default w)
  = Ok (X_train, X_test, y_train, y_test) ->
  getitem y_train "fea0" = Ok labels ->
  fit SGDRegressor SgdDriver.sk_kwargs X_train labels = Ok sk_sgd ->
  mean_squared_error (frame_flat y_test) (predict SGDRegressor sk_sgd X_test)
  = Ok e_sk ->
  fit cumlSGD SgdDriver.cu_kwargs (from_pandas X_train) labels = Ok cu_sgd ->
  mean_squared_error (frame_flat y_test) (predict cumlSGD cu_sgd (from_pandas X_test))
  = Ok e_cu ->
  fst (SgdDriver.run SGDRegressor cumlSGD nrows ncols w)
  = Ok {| error_sk := e_sk; error_cu := e_cu |}
  /\ log (snd (SgdDriver.run SGDRegressor cumlSGD nrows ncols w))
     = log w ++ load_events w cached_default
             ++ shape_lines (X_train, X_test, y_train, y_test)
             ++ error_lines e_sk e_cu.
Proof.
  intros Hload Hget Hfsk Hsk Hfcu Hcu.
  destruct (sgd_load_data_run nrows ncols cached_default w) as [_ [Hlog _]].
  unfold SgdDriver.run. rewrite bind_run, Hload. cbv beta iota.
  rewrite lift_run, Hget, print_shapes_run, lift_run, Hfsk.
  cbv beta iota zeta. rewrite lift_run, Hsk.
  cbv beta iota zeta. rewrite lift_run, Hfcu.
  cbv beta iota zeta. rewrite lift_run.
  cbn [to_nparray isinstance type_of pytype_eqb orb values to_pandas method_ravel ravel
       ndarray_of_1d data].
  rewrite lift_run. rewrite Hcu.
  rewrite print_errors_run. cbn [fst snd log]. rewrite Hlog, <- !app_assoc.
  split; reflexivity.
Qed.

Lemma ridge_run_after_load (w : world) (nrows ncols : nat)
    (X_train X_test y_train y_test : DataFrame) (labels : list Q)
    (skridge : fitted skRidge) (curidge : fitted cuRidge) (e_sk e_cu : Q) :
  fst (Ridge.load_data lib nrows ncols cached_default w)
  = Ok (X_train, X_test, y_train, y_test) ->
  fit skRidge RidgeDriver.sk_kwargs X_train (frame_flat y_train) = Ok skridge ->
  mean_squared_error (frame_flat y_test) (predict skRidge skridge X_test) = Ok e_sk ->
  RidgeDriver.first_column (frame_values y_train) = Ok labels ->
  fit cuRidge RidgeDriver.cu_kwargs (from_pandas X_train) labels = Ok curidge ->
  mean_squared_error (frame_flat y_test) (predict cuRidge curidge (from_pandas X_test))
  = Ok e_cu ->
  fst (RidgeDriver.run lib skRidge cuRidge nrows ncols w)
  = Ok {| error_sk := e_sk; error_cu := e_cu |}
  /\ log (snd (RidgeDriver.run lib skRidge cuRidge nrows ncols w))
     = log w ++ load_events w cached_default
             ++ shape_lines (X_train, X_test, y_train, y_test)
             ++ error_lines e_sk e_cu.
Proof.
  intros Hload Hfsk Hsk Hcol Hfcu Hcu.
  destruct (ridge_load_data_run lib nrows ncols cached_default w) as [_ [Hlog _]].
  unfold RidgeDriver.run. rewrite bind_run, Hload. cbv beta iota.
  rewrite print_shapes_run, lift_run, Hfsk.
  cbv beta iota zeta. rewrite lift_run, Hsk.
  cbv beta iota zeta. rewrite lift_run, Hcol, lift_run, Hfcu.
  cbv beta iota zeta. rewrite lift_run, Hcu.
  rewrite print_errors_run. cbn [fst snd log]. rewrite Hlog, <- !app_assoc.
  split; reflexivity.
Qed.

End Drivers.

Section FramesOfOneColumn.
Local Open Scope nat_scope.

Lemma concat_singletons {A B : Type} (f : A -> B) (l : list A) :
  concat (map (fun a => [f a]) l) = map f l.
Proof. induction l as [ | a l IH ]; simpl; [ | rewrite IH ]; reflexivity. Qed.

Lemma map_nth_seq {A : Type} (v : list A) (d : A) :
  map (fun r => nth r v d) (seq 0 (length v)) = v.
Proof.
  induction v as [ | a v IH ]; [ reflexivity | ].
  simpl. f_equal. rewrite <- seq_shift, map_map. exact IH.
Qed.

Lemma frame_flat_single (name : string) (v : list Q) : frame_flat [(name, v)] = v.
Proof.
  unfold frame_flat, frame_values. cbn [rows2 frame_len map snd].
  rewrite (concat_singletons (fun r => nth r v 0%Q)). apply map_nth_seq.
Qed.

Lemma length_predict (E : estimator) (m : fitted E) (X : DataFrame) :
  length (predict E m X) = frame_len X.
Proof. unfold predict. rewrite length_map. apply frame_values_shape0. Qed.

Lemma frame_len_named (c0 : list Q) (cols : list (list Q)) :
  frame_len (named (c0 :: cols)) = length c0.
Proof. reflexivity. Qed.

Lemma mean_squared_error_ok (a b : list Q) :
  length a = length b -> 1 <= length a -> is_ok (mean_squared_error a b) = true.
Proof.
  intros H1 H2. rewrite mean_squared_error_defined; [ reflexivity | exact H1 | ].
  destruct a; [ simpl in H2; lia | discriminate ].
Qed.

Lemma columns_nonempty (X : ndarray2) :
  1 <= shape1 X -> exists c0 cols, columns X = c0 :: cols /\ length c0 = shape0 X.
Proof.
  intros H. unfold columns. destruct (shape1 X) as [ | s ]; [ lia | ].
  simpl. eexists _, _. split; [ reflexivity | ].
  unfold column, shape0. apply length_map.
Qed.

End FramesOfOneColumn.


Lemma ok_value {A : Type} (r : result A) : is_ok r = true -> exists a, r = Ok a.
Proof. destruct r; [ eexists; reflexivity | discriminate ]. Qed.

Section SyntheticRuns.
Variable lib : sklearn_datasets.
Variables SGDRegressor cumlSGD skRidge cuRidge : estimator.
Variable w : world.
Variables nrows ncols : nat.
Hypothesis no_cache : fs w cached_default = None.
Hypothesis some_rows : (1 <= nrows)%nat.
Hypothesis some_columns : (1 <= ncols)%nat.

Lemma test_error_defined (c0 d0 : list Q) (cols : list (list Q))
    (E : estimator) (m : fitted E) :
  length c0 = nrows -> length d0 = nrows ->
  is_ok (mean_squared_error
           (frame_flat [("fea0"%string, skipn (train_rows nrows) d0)])
           (predict E m (named (skipn (train_rows nrows) c0
                                :: map (skipn (train_rows nrows)) cols))))
  = true.
Proof.
  intros Hc Hd. pose proof (train_rows_lt nrows some_rows) as Hk.
  rewrite frame_flat_single. apply mean_squared_error_ok.
  - rewrite length_predict, frame_len_named, !length_skipn. lia.
  - rewrite length_skipn. lia.
Qed.

Lemma tables_components (a b c d a' b' c' d' : DataFrame) :
  @Ok tables (a, b, c, d) = Ok (a', b', c', d') -> a = a' /\ b = b' /\ c = c' /\ d = d'.
Proof. intros H. inversion H. auto. Qed.

Lemma sgd_run_completes (X_train X_test y_train y_test : DataFrame) :
  fst (Sgd.load_data nrows ncols cached_default w)
  = Ok (X_train, X_test, y_train, y_test) ->
  (forall labels, getitem y_train "fea0" = Ok labels ->
     is_ok (fit SGDRegressor SgdDriver.sk_kwargs X_train labels) = true
     /\ is_ok (fit cumlSGD SgdDriver.cu_kwargs (from_pandas X_train) labels) = true) ->
  is_ok (fst (SgdDriver.run SGDRegressor cumlSGD nrows ncols w)) = true.
Proof.
  intros Hload Hfit.
  pose proof (sgd_synthetic_load w nrows ncols no_cache) as Hsplit.
  destruct (columns_nonempty (uniform_matrix (rng w) nrows ncols) some_columns)
    as [c0 [cols [Hc Hlen]]].
  rewrite shape0_uniform_matrix in Hlen.
  unfold split_80_20 in Hsplit. rewrite Hc in Hsplit.
  change (columns (digit_column w nrows ncols))
    with [column (digit_column w nrows ncols) 0] in Hsplit.
  cbn [map] in Hsplit. rewrite !named_single in Hsplit.
  set (d0 := column (digit_column w nrows ncols) 0) in *.
  assert (Hd : length d0 = nrows).
  { subst d0. unfold column. rewrite length_map. apply shape0_digit_column. }
  rewrite Hload in Hsplit.
  apply tables_components in Hsplit. destruct Hsplit as [EX [EXt [Ey Eyt]]].
  destruct (Hfit (firstn (train_rows nrows) d0)) as [Hfsk Hfcu];
    [ rewrite Ey; reflexivity | ].
  destruct (ok_value _ Hfsk) as [sk_sgd Esk].
  destruct (ok_value _ Hfcu) as [cu_sgd Ecu].
  destruct (ok_value _ (test_error_defined c0 d0 cols SGDRegressor sk_sgd Hlen Hd))
    as [e_sk Hsk].
  destruct (ok_value _ (test_error_defined c0 d0 cols cumlSGD cu_sgd Hlen Hd))
    as [e_cu Hcu].
  rewrite <- EXt, <- Eyt in Hsk, Hcu.
  destruct (sgd_run_after_load SGDRegressor cumlSGD w nrows ncols
              X_train X_test y_train y_test (firstn (train_rows nrows) d0)
              sk_sgd cu_sgd e_sk e_cu Hload
              ltac:(rewrite Ey; reflexivity) Esk Hsk Ecu Hcu) as [Hrun _].
  rewrite Hrun. reflexivity.
Qed.

Lemma ridge_run_completes (X_train X_test y_train y_test : DataFrame) :
  fst (Ridge.load_data lib nrows ncols cached_default w)
  = Ok (X_train, X_test, y_train, y_test) ->
  (forall labels, RidgeDriver.first_column (frame_values y_train) = Ok labels ->
     is_ok (fit skRidge RidgeDriver.sk_kwargs X_train (frame_flat y_train)) = true
     /\ is_ok (fit cuRidge RidgeDriver.cu_kwargs (from_pandas X_train) labels) = true) ->
  is_ok (fst (RidgeDriver.run lib skRidge cuRidge nrows ncols w)) = true.
Proof.
  intros Hload Hfit.
  pose proof (ridge_synthetic_load lib w nrows ncols no_cache) as Hsyn.
  rewrite Hload in Hsyn.
  destruct (regression_refuses lib nrows ncols ncols 0) eqn:Hr; [ discriminate Hsyn | ].
  destruct (Nat.eqb_spec nrows 1) as [ Hn | Hn ]; [ discriminate Hsyn | ].
  clear Hsyn.
  destruct (synthetic_tables lib w nrows ncols no_cache) as [Hsplit _].
  destruct (Hsplit Hr Hn) as [X [d0 [_ [H0 [H1 [Hd Hs]]]]]]. clear Hsplit.
  destruct (columns_nonempty X ltac:(rewrite H1; exact some_columns))
    as [c0 [cols [Hc Hlen]]].
  rewrite H0 in Hlen.
  unfold split_80_20 in Hs. rewrite Hc in Hs.
  cbn [map] in Hs. rewrite !named_single in Hs.
  rewrite Hload in Hs.
  apply tables_components in Hs. destruct Hs as [EX [EXt [Ey Eyt]]].
  assert (Hcol : RidgeDriver.first_column (frame_values y_train)
                 = Ok (column (frame_values y_train) 0))
    by (rewrite Ey; reflexivity).
  destruct (Hfit _ Hcol) as [Hfsk Hfcu].
  destruct (ok_value _ Hfsk) as [skridge Esk].
  destruct (ok_value _ Hfcu) as [curidge Ecu].
  destruct (ok_value _ (test_error_defined c0 d0 cols skRidge skridge Hlen Hd))
    as [e_sk Hsk].
  destruct (ok_value _ (test_error_defined c0 d0 cols cuRidge curidge Hlen Hd))
    as [e_cu Hcu].
  rewrite <- EXt, <- Eyt in Hsk, Hcu.
  destruct (ridge_run_after_load lib skRidge cuRidge w nrows ncols
              X_train X_test y_train y_test _ skridge curidge e_sk e_cu
              Hload Esk Hsk Hcol Ecu Hcu) as [Hrun _].
  rewrite Hrun. reflexivity.
Qed.

End SyntheticRuns.

(** C6: in both drivers, once the tables are loaded and the two models
    fitted on the train tables, [error_sk] is the mean squared error of
    [y_test] against the sklearn model's predictions on [X_test], [error_cu]
    that of the same [y_test] against the cuML model's predictions on the
    same test features, and the run ends by printing both under their two
    headings; without a cache and with at least one row and one column, a
    run whose loader returns and whose two fits succeed gets that far. *)
Theorem errors_are_test_set_mse
    (lib : sklearn_datasets) (SGDRegressor cumlSGD skRidge cuRidge : estimator)
    (w : world) (nrows ncols : nat) :
  (forall X_train X_test y_train y_test labels sk_sgd cu_sgd e_sk e_cu,
     fst (Sgd.load_data nrows ncols cached_default w)
     = Ok (X_train, X_test, y_train, y_test) ->
     getitem y_train "fea0" = Ok labels ->
     fit SGDRegressor SgdDriver.sk_kwargs X_train labels = Ok sk_sgd ->
     mean_squared_error (frame_flat y_test) (predict SGDRegressor sk_sgd X_test)
     = Ok e_sk ->
     fit cumlSGD SgdDriver.cu_kwargs (from_pandas X_train) labels = Ok cu_sgd ->
     mean_squared_error (frame_flat y_test)
       (predict cumlSGD cu_sgd (from_pandas X_test))
     = Ok e_cu ->
     fst (SgdDriver.run SGDRegressor cumlSGD nrows ncols w)
     = Ok {| error_sk := e_sk; error_cu := e_cu |}
     /\ log (snd (SgdDriver.run SGDRegressor cumlSGD nrows ncols w))
        = log w ++ load_events w cached_default
                ++ shape_lines (X_train, X_test, y_train, y_test)
                ++ error_lines e_sk e_cu)
  /\ (forall X_train X_test y_train y_test labels skridge curidge e_sk e_cu,
        fst (Ridge.load_data lib nrows ncols cached_default w)
        = Ok (X_train, X_test, y_train, y_test) ->
        fit skRidge RidgeDriver.sk_kwargs X_train (frame_flat y_train) = Ok skridge ->
        mean_squared_error (frame_flat y_test) (predict skRidge skridge X_test)
        = Ok e_sk ->
        RidgeDriver.first_column (frame_values y_train) = Ok labels ->
        fit cuRidge RidgeDriver.cu_kwargs (from_pandas X_train) labels = Ok curidge ->
        mean_squared_error (frame_flat y_test)
          (predict cuRidge curidge (from_pandas X_test))
        = Ok e_cu ->
        fst (RidgeDriver.run lib skRidge cuRidge nrows ncols w)
        = Ok {| error_sk := e_sk; error_cu := e_cu |}
        /\ log (snd (RidgeDriver.run lib skRidge cuRidge nrows ncols w))
           = log w ++ load_events w cached_default
                   ++ shape_lines (X_train, X_test, y_train, y_test)
                   ++ error_lines e_sk e_cu)
  /\ (fs w cached_default = None -> (1 <= nrows)%nat -> (1 <= ncols)%nat ->
      (forall X_train X_test y_train y_test,
         fst (Sgd.load_data nrows ncols cached_default w)
         = Ok (X_train, X_test, y_train, y_test) ->
         (forall labels, getitem y_train "fea0" = Ok labels ->
            is_ok (fit SGDRegressor SgdDriver.sk_kwargs X_train labels) = true
            /\ is_ok (fit cumlSGD SgdDriver.cu_kwargs (from_pandas X_train) labels)
               = true) ->
         is_ok (fst (SgdDriver.run SGDRegressor cumlSGD nrows ncols w)) = true)
      /\ (forall X_train X_test y_train y_test,
            fst (Ridge.load_data lib nrows ncols cached_default w)
            = Ok (X_train, X_test, y_train, y_test) ->
            (forall labels,
               RidgeDriver.first_column (frame_values y_train) = Ok labels ->
               is_ok (fit skRidge RidgeDriver.sk_kwargs X_train (frame_flat y_train))
               = true
               /\ is_ok (fit cuRidge RidgeDriver.cu_kwargs (from_pandas X_train) labels)
                  = true) ->
            is_ok (fst (RidgeDriver.run lib skRidge cuRidge nrows ncols w)) = true)).
Proof.
  split; [ | split ].
  - intros. eapply sgd_run_after_load; eassumption.
  - intros. eapply ridge_run_after_load; eassumption.
  - intros Hf Hn Hc. split.
    + intros X_train X_test y_train y_test.
      apply (sgd_run_completes SGDRegressor cumlSGD w nrows ncols Hf Hn Hc).
    + intros X_train X_test y_train y_test.
      apply (ridge_run_completes lib skRidge cuRidge w nrows ncols Hf Hn Hc).
Qed.

Lemma errors_are_test_set_mse_witness :
  is_ok (fst (SgdDriver.run toy_estimator toy_estimator 5 2 no_cache_world)) = true
  /\ is_ok (fst (RidgeDriver.run toy_datasets toy_estimator toy_estimator 5 2
                   no_cache_world)) = true.
Proof.
  destruct (errors_are_test_set_mse toy_datasets toy_estimator toy_estimator
              toy_estimator toy_estimator no_cache_world 5 2) as [_ [_ H]].
  destruct (H eq_refl ltac:(repeat constructor) ltac:(repeat constructor))
    as [Hs Hr].
  split.
  - eapply Hs; [ vm_compute; reflexivity | ].
    intros labels Hl. vm_compute in Hl. injection Hl as <-.
    split; reflexivity.
  - eapply Hr; [ vm_compute; reflexivity | ].
    intros labels Hl. vm_compute in Hl. injection Hl as <-.
    split; reflexivity.
Defined.

Example ridge_run_prints :
  firstn 6 (log (snd (RidgeDriver.run toy_datasets toy_estimator toy_estimator 5 2
                        no_cache_world)))
  = [EvPrint "use random data";
     EvPrintShape "training data" (4, 2)%nat;
     EvPrintShape "training label" (4, 1)%nat;
     EvPrintShape "testing data" (1, 2)%nat;
     EvPrintShape "testing label" (1, 1)%nat;
     EvPrint "SKL MSE(y):"].
Proof. vm_compute. reflexivity. Qed.

(** Asked for a single row, the SGD driver hands an empty train table to
    the estimator, and a refusal of it ends the run after the four shapes. *)
Example single_row_sgd_run :
  fst (SgdDriver.run toy_estimator toy_estimator 1 2 no_cache_world) = Raise ValueError
  /\ log (snd (SgdDriver.run toy_estimator toy_estimator 1 2 no_cache_world))
     = [EvPrint "use random data";
        EvPrintShape "training data" (0, 2)%nat;
        EvPrintShape "training label" (0, 1)%nat;
        EvPrintShape "testing data" (1, 2)%nat;
        EvPrintShape "testing label" (1, 1)%nat].
Proof. vm_compute. split; reflexivity. Qed.

(* ================================================================== *)
(** * Further properties of the harness *)

(** ** Column names *)

Section ColumnNames.
Local Open Scope nat_scope.

Lemma fea_injective (i j : nat) : fea i = fea j -> i = j.
Proof.
  unfold fea. intros H. simpl in H. injection H as H.
  assert (Hu : Nat.to_uint i = Nat.to_uint j).
  { pose proof (NilEmpty.usu (Nat.to_uint i)) as Hi.
    pose proof (NilEmpty.usu (Nat.to_uint j)) as Hj.
    rewrite H in Hi. congruence. }
  rewrite <- (Unsigned.of_to i), <- (Unsigned.of_to j), Hu. reflexivity.
Qed.

Lemma getitem_combine_fea (cols : list (list Q)) (start i : nat) :
  i < length cols ->
  getitem (combine (map fea (seq start (length cols))) cols) (fea (start + i))
  = Ok (nth i cols []).
Proof.
  revert start i. induction cols as [ | c0 cols IH ]; intros start i Hi.
  - simpl in Hi. lia.
  - cbn [length seq map combine getitem].
    destruct i as [ | i ].
    + rewrite Nat.add_0_r, String.eqb_refl. reflexivity.
    + destruct (String.eqb_spec (fea start) (fea (start + S i))) as [E | _].
      * apply fea_injective in E. lia.
      * rewrite Nat.add_succ_r. simpl in Hi.
        apply (IH (S start) i). lia.
Qed.

Lemma getitem_combine_fea_missing (cols : list (list Q)) (start i : nat) :
  (i < start \/ start + length cols <= i) ->
  getitem (combine (map fea (seq start (length cols))) cols) (fea i) = Raise KeyError.
Proof.
  revert start. induction cols as [ | c0 cols IH ]; intros start Hi; [ reflexivity | ].
  cbn [length seq map combine getitem].
  destruct (String.eqb_spec (fea start) (fea i)) as [E | _].
  - apply fea_injective in E. simpl in Hi. lia.
  - apply IH. simpl in Hi. lia.
Qed.

End ColumnNames.

Lemma column_by_name_aux (cols : list (list Q)) (i : nat) :
  getitem (named cols) (fea i)
  = if (i <? length cols)%nat then Ok (nth i cols []) else Raise KeyError.
Proof.
  unfold named. destruct (Nat.ltb_spec i (length cols)) as [H | H].
  - apply (getitem_combine_fea cols 0 i H).
  - apply getitem_combine_fea_missing. right. simpl. exact H.
Qed.

(** ** Looking a column up by its name *)

Lemma frame_as_combine (g : nat -> list Q) (s : nat) :
  map (fun i => (fea i, g i)) (seq 0 s)
  = combine (map fea (seq 0 (length (map g (seq 0 s))))) (map g (seq 0 s)).
Proof. rewrite length_map, length_seq. symmetry. apply combine_map_same. Qed.

Lemma getitem_frame (g : nat -> list Q) (s i : nat) :
  getitem (map (fun i => (fea i, g i)) (seq 0 s)) (fea i)
  = if (i <? s)%nat then Ok (g i) else Raise KeyError.
Proof.
  rewrite frame_as_combine. fold (named (map g (seq 0 s))).
  rewrite column_by_name_aux, length_map, length_seq.
  destruct (Nat.ltb_spec i s) as [H | H]; [ | reflexivity ].
  rewrite (nth_map_in_range _ _ _ 0%nat) by (rewrite length_seq; exact H).
  rewrite seq_nth by exact H. reflexivity.
Qed.

(** X7: the frames [load_data] builds from ['fea%d' % i] keys give back,
    under the name of column [i], the slice of column [i] when [i] is a
    column of the array, and raise KeyError otherwise; different columns
    get different names. *)
Theorem table_column_by_name (X : ndarray2) (lo hi i : nat) :
  getitem (frame_of_rows X lo hi) (fea i)
  = (if (i <? shape1 X)%nat then Ok (slice_rows_column X lo hi i) else Raise KeyError)
  /\ getitem (frame_from_row X lo) (fea i)
     = (if (i <? shape1 X)%nat then Ok (from_row_column X lo i) else Raise KeyError)
  /\ (forall j, String.eqb (fea i) (fea j) = (i =? j)%nat).
Proof.
  split; [ apply getitem_frame | split; [ apply getitem_frame | ] ].
  intros j. destruct (String.eqb_spec (fea i) (fea j)) as [E | E];
    destruct (Nat.eqb_spec i j) as [F | F]; try reflexivity.
  - apply fea_injective in E. contradiction.
  - subst j. contradiction.
Qed.

(** ** The sampling of a cached array *)

(** X3: the rows of a cached array are drawn with
    [np.random.randint(0, X.shape[0]-1, nrows)], whose upper bound is
    exclusive: each of the [nrows] rows of the dataset is a row of the cached
    array other than its last one, which is never used; no index is out of
    range. *)
Theorem last_cached_row_is_never_sampled
    (w : world) (A : ndarray2) (nrows ncols : nat) (cached : string) :
  fs w cached = matrix_file A ->
  nothing_to_sample A nrows = false ->
  exists X y,
    fst (mortgage_dataset nrows ncols cached w) = Ok (Flat X, Flat y)
    /\ shape0 X = nrows /\ shape0 y = nrows
    /\ forall k, (k < nrows)%nat ->
         exists i, (i + 1 < shape0 A)%nat
           /\ nth k (rows2 X) [] = firstn ncols (nth i (rows2 (without_column_4 A)) [])
           /\ nth k (rows2 y) []
              = nth i (rows2 (slice_columns (without_column_4 A) 4 5)) [].
Proof.
  intros Hf Hn.
  destruct (mortgage_dataset_run nrows ncols cached w A Hf) as [H1 _].
  rewrite Hn in H1.
  exists (mortgage_X w A nrows ncols), (mortgage_y w A nrows).
  split; [ exact H1 | ].
  split; [ apply shape0_mortgage_X | split; [ apply shape0_mortgage_y | ] ].
  intros k Hk.
  assert (Hlen : (k < length (sampled w A nrows))%nat) by (rewrite length_sampled; exact Hk).
  assert (Hrange : 0 <= nth k (sampled w A nrows) 0 < Z.of_nat (shape0 A) - 1).
  { assert (Hne : (1 < shape0 A)%nat).
    { unfold nothing_to_sample in Hn. apply andb_false_iff in Hn.
      destruct Hn as [Hn | Hn].
      - apply Nat.leb_gt in Hn. exact Hn.
      - apply negb_false_iff, Nat.eqb_eq in Hn. lia. }
    pose proof (bounded_values_in_range (rng w) 0 (Z.of_nat (shape0 A) - 1) nrows
                  ltac:(lia)) as Hall.
    apply (proj1 (Forall_forall _ _) Hall). apply nth_In. exact Hlen. }
  exists (Z.to_nat (nth k (sampled w A nrows) 0)).
  split; [ lia | ].
  unfold mortgage_X, mortgage_y. cbn [rows2].
  rewrite !(nth_map_in_range _ _ _ 0) by exact Hlen. split; reflexivity.
Qed.

Lemma cached_tables
    (lib : sklearn_datasets) (w : world) (A : ndarray2) (nrows ncols : nat) :
  fs w cached_default = matrix_file A ->
  (6 <= shape1 A)%nat ->
  nothing_to_sample A nrows = false ->
  fst (Sgd.load_data nrows ncols cached_default w)
  = Ok (split_80_20 nrows (columns (mortgage_X w A nrows ncols))
                          [column_5_sampled w A nrows])
  /\ fst (Ridge.load_data lib nrows ncols cached_default w)
     = Ok (split_80_20 nrows (columns (mortgage_X w A nrows ncols))
                             [column_5_sampled w A nrows]).
Proof.
  intros Hf Hs Hn.
  destruct (matrix_tables lib w A nrows ncols Hf Hn) as [S1 R1].
  rewrite (mortgage_y_columns w A nrows Hs Hn) in S1, R1.
  split; assumption.
Qed.

(** X4: the label is taken from the array after column 4 is dropped and is
    not dropped itself, so with at least five feature columns asked for (and
    six in the cache) the feature table's column fea4 is the label column:
    both loaders hand the label to the model among the features. *)
Theorem label_is_among_the_features
    (lib : sklearn_datasets) (w : world) (A : ndarray2) (nrows ncols : nat) :
  fs w cached_default = matrix_file A ->
  (6 <= shape1 A)%nat -> (5 <= ncols)%nat ->
  nothing_to_sample A nrows = false ->
  exists X_train X_test y_train y_test,
    fst (Sgd.load_data nrows ncols cached_default w)
    = Ok (X_train, X_test, y_train, y_test)
    /\ fst (Ridge.load_data lib nrows ncols cached_default w)
       = Ok (X_train, X_test, y_train, y_test)
    /\ getitem X_train "fea4" = getitem y_train "fea0"
    /\ getitem X_test "fea4" = getitem y_test "fea0"
    /\ getitem y_train "fea0" = Ok (firstn (train_rows nrows) (column_5_sampled w A nrows))
    /\ getitem y_test "fea0" = Ok (skipn (train_rows nrows) (column_5_sampled w A nrows)).
Proof.
  intros Hf Hs Hc Hn.
  destruct (cached_tables lib w A nrows ncols Hf Hs Hn) as [S1 R1].
  unfold split_80_20 in S1, R1.
  eexists _, _, _, _. split; [ exact S1 | split; [ exact R1 | ] ].
  change "fea4"%string with (fea 4). change "fea0"%string with (fea 0).
  rewrite !column_by_name_aux, !length_map.
  assert (Hcols : length (columns (mortgage_X w A nrows ncols))
                  = Nat.min ncols (shape1 A - 1)).
  { unfold columns. rewrite length_map, length_seq.
    unfold mortgage_X, without_column_4, take_columns. cbn [shape1].
    rewrite length_kept_columns by lia. reflexivity. }
  rewrite Hcols.
  destruct (Nat.ltb_spec 4 (Nat.min ncols (shape1 A - 1))) as [H4 | H4]; [ | lia ].
  cbn [length Nat.ltb Nat.leb nth map].
  assert (Hleak : nth 4 (columns (mortgage_X w A nrows ncols)) []
                  = column_5_sampled w A nrows).
  { unfold columns.
    rewrite (nth_map_in_range _ _ _ 0%nat) by (rewrite length_seq; fold (columns (mortgage_X w A nrows ncols)); unfold columns in Hcols; rewrite length_map, length_seq in Hcols; lia).
    rewrite seq_nth by (unfold columns in Hcols; rewrite length_map, length_seq in Hcols; lia).
    unfold column, mortgage_X, column_5_sampled. cbn [rows2]. rewrite map_map.
    apply map_ext_in. intros i Hi.
    pose proof (proj1 (Forall_forall _ _) (sampled_in_range w A nrows Hn) i Hi) as Hr.
    simpl in Hr.
    pose proof (without_column_4_cell A (Z.to_nat i) 4 ltac:(lia) ltac:(lia) ltac:(lia))
      as Hcell.
    simpl in Hcell. rewrite <- Hcell. unfold cell.
    cbn [Nat.add]. rewrite nth_firstn.
    destruct (Nat.ltb_spec 4 ncols); [ reflexivity | lia ]. }
  rewrite !(nth_map_in_range _ _ _ []) by lia.
  rewrite Hleak. repeat split; reflexivity.
Qed.


(** ** What a call leaves behind *)

(** X5: what a call of [load_data] takes from the global numpy generator:
    [nrows] draws for a cached array (none when the call stops before or at
    the sampling), else [nrows*ncols + nrows] draws in the SGD notebook and
    none at all in the ridge notebook, whose [make_regression] is seeded on
    its own. *)
Theorem generator_draws_used
    (lib : sklearn_datasets) (w : world) (nrows ncols i : nat) :
  rng (snd (Sgd.load_data nrows ncols cached_default w)) i
  = rng w (i + sgd_draws w cached_default nrows ncols)%nat
  /\ rng (snd (Ridge.load_data lib nrows ncols cached_default w)) i
     = rng w (i + ridge_draws w cached_default nrows)%nat.
Proof.
  unfold sgd_draws, ridge_draws, draws_of_sampling. split.
  - assert (Hd : rng (snd (Sgd.dataset nrows ncols cached_default w)) i
                 = rng w (i + match fs w cached_default with
                              | Some f => draws_of_file f nrows
                              | None => nrows * ncols + nrows
                              end)%nat).
    { unfold Sgd.dataset. rewrite os_path_exists_bind.
      destruct (fs w cached_default) as [ f | ] eqn:E.
      - apply (cached_dataset_run nrows ncols cached_default w f E).
      - simpl. f_equal. lia. }
    assert (Hl : rng (snd (Sgd.load_data nrows ncols cached_default w)) i
                 = rng (snd (Sgd.dataset nrows ncols cached_default w)) i).
    { unfold Sgd.load_data. rewrite bind_run.
      destruct (fst (Sgd.dataset nrows ncols cached_default w)) as [ [X y] | e ];
        [ | reflexivity ].
      cbv beta iota zeta. rewrite lift_run.
      destruct (grid_frame_of_rows X 0 (train_rows nrows)); [ | reflexivity ].
      rewrite lift_run.
      destruct (grid_frame_from_row X (train_rows nrows)); [ | reflexivity ].
      rewrite lift_run.
      destruct (grid_frame_of_rows y 0 (train_rows nrows)); [ | reflexivity ].
      rewrite lift_run.
      destruct (grid_frame_from_row y (train_rows nrows)); reflexivity. }
    rewrite Hl, Hd. destruct (fs w cached_default); reflexivity.
  - destruct (ridge_dataset_run lib nrows ncols cached_default w) as [_ [_ [_ Hd]]].
    assert (Hl : rng (snd (Ridge.load_data lib nrows ncols cached_default w)) i
                 = rng (snd (Ridge.dataset lib nrows ncols cached_default w)) i).
    { unfold Ridge.load_data. rewrite bind_run.
      destruct (fst (Ridge.dataset lib nrows ncols cached_default w))
        as [ [ [X y1] y2 ] | e ]; [ | reflexivity ].
      cbv beta iota zeta. rewrite lift_run.
      destruct (grid_frame_of_rows X 0 (train_rows nrows)); [ | reflexivity ].
      rewrite lift_run.
      destruct (grid_frame_from_row X (train_rows nrows)); reflexivity. }
    rewrite Hl, Hd. destruct (fs w cached_default); reflexivity.
Qed.

(** ** Which exceptions the loaders raise *)

(** X6: either loader raises exactly what stops it.  With something at the
    path of the cache both raise the same: the error of a file that
    [gzip.open] or [np.load] refuse; IndexError, at [X.shape[1]], for an
    array of fewer than two dimensions; for a matrix only the ValueError of
    the sampling, when it has at most one row and a sample is asked for; the
    same ValueError, or that of pandas, for an array of more than two
    dimensions.  Without a cache the SGD loader raises nothing, and the
    ridge loader what [make_regression] raises, or IndexError for a single
    row. *)
Theorem load_data_exceptions
    (lib : sklearn_datasets) (w : world) (nrows ncols : nat) (e : exn) :
  (fst (Sgd.load_data nrows ncols cached_default w) = Raise e
   <-> sgd_stop w cached_default nrows ncols = Some e)
  /\ (fst (Ridge.load_data lib nrows ncols cached_default w) = Raise e
      <-> ridge_stop lib w cached_default nrows ncols = Some e)
  /\ (forall f, fs w cached_default = Some f ->
        sgd_stop w cached_default nrows ncols = cached_stop f nrows ncols
        /\ ridge_stop lib w cached_default nrows ncols = cached_stop f nrows ncols)
  /\ (forall A, cached_stop (Npy (Dim2 A)) nrows ncols = Some e ->
        e = ValueError /\ (shape0 A <= 1)%nat /\ (1 <= nrows)%nat)
  /\ (forall a, cached_stop (Npy a) nrows ncols = Some e ->
        (e = IndexError /\ second_dimension a = Raise IndexError) \/ e = ValueError)
  /\ (fs w cached_default = None ->
        sgd_stop w cached_default nrows ncols = None
        /\ (ridge_stop lib w cached_default nrows ncols = Some e
            <-> regression_refuses lib nrows ncols ncols 0 = Some e
                \/ (regression_refuses lib nrows ncols ncols 0 = None
                    /\ nrows = 1%nat /\ e = IndexError))).
Proof.
  destruct (sgd_load_data_run nrows ncols cached_default w) as [S1 _].
  destruct (ridge_load_data_run lib nrows ncols cached_default w) as [R1 _].
  split; [ | split; [ | split; [ | split; [ | split ] ] ] ].
  - rewrite S1. destruct (sgd_stop w cached_default nrows ncols); split; congruence.
  - rewrite R1. destruct (ridge_stop lib w cached_default nrows ncols); split; congruence.
  - intros f Hf. unfold sgd_stop, ridge_stop. rewrite Hf. split; reflexivity.
  - intros A H. cbn [cached_stop] in H. unfold nothing_to_sample in H.
    destruct (Nat.leb_spec (shape0 A) 1) as [Ha | Ha];
      destruct (Nat.eqb_spec nrows 0) as [Hb | Hb]; cbn [andb negb] in H;
      try discriminate H.
    injection H as <-. repeat split; [ exact Ha | lia ].
  - intros a H. destruct a as [ x | v | A | n m ]; cbn [cached_stop] in H.
    + injection H as <-. left. split; reflexivity.
    + injection H as <-. left. split; reflexivity.
    + right. destruct (nothing_to_sample A nrows); congruence.
    + right.
      destruct ((n <=? 1)%nat && negb (nrows =? 0)%nat); [ congruence | ].
      destruct ((m =? 0)%nat || ((ncols =? 0)%nat && (m <=? 5)%nat)); congruence.
  - intros Hf. split; [ apply sgd_stop_without_cache, Hf | ].
    rewrite (ridge_stop_without_cache lib w _ nrows ncols Hf).
    destruct (regression_refuses lib nrows ncols ncols 0) as [ e' | ].
    + split; [ intros H; left; exact H | intros [H | [H _]]; [ exact H | discriminate H ] ].
    + destruct (Nat.eqb_spec nrows 1) as [ Hn | Hn ]; split.
      * intros H. right. injection H as <-. auto.
      * intros [H | [_ [_ ->]]]; [ discriminate H | reflexivity ].
      * discriminate.
      * intros [H | [_ [H _]]]; [ discriminate H | contradiction ].
Qed.

(** ** A cache too narrow for a label *)

Section NarrowCache.
Local Open Scope nat_scope.

Lemma kept_columns_few (s : nat) :
  s <= 5 -> length (filter (fun i => negb (i =? 4)) (seq 0 s)) <= 4.
Proof.
  intros H.
  destruct s as [ | [ | [ | [ | [ | [ | s ] ] ] ] ] ]; simpl; lia.
Qed.

Lemma mortgage_y_no_column (w : world) (A : ndarray2) (nrows : nat) :
  shape1 A <= 5 -> columns (mortgage_y w A nrows) = [].
Proof.
  intros H. unfold columns. unfold mortgage_y at 2. cbn [shape1].
  unfold slice_columns, without_column_4, take_columns. cbn [shape1].
  pose proof (kept_columns_few (shape1 A) H) as Hk.
  replace (Nat.min 5 _ - Nat.min 4 _) with 0 by lia. reflexivity.
Qed.

End NarrowCache.

(** X8: a cached array of at most five columns leaves no column for the
    label ([X[:, 4:5]] is empty after column 4 is dropped): the label tables
    come back without columns, and the SGD driver stops at
    [y_train['fea0']] with KeyError, having printed nothing of its own. *)
Theorem narrow_cache_stops_the_sgd_driver
    (SGDRegressor cumlSGD : estimator) (w : world) (A : ndarray2) (nrows ncols : nat) :
  fs w cached_default = matrix_file A ->
  (shape1 A <= 5)%nat ->
  nothing_to_sample A nrows = false ->
  (exists X_train X_test,
     fst (Sgd.load_data nrows ncols cached_default w) = Ok (X_train, X_test, [], []))
  /\ fst (SgdDriver.run SGDRegressor cumlSGD nrows ncols w) = Raise KeyError
  /\ log (snd (SgdDriver.run SGDRegressor cumlSGD nrows ncols w))
     = log w ++ [EvPrint "use mortgage data"; EvReadGzip cached_default].
Proof.
  intros Hf Hs Hn.
  destruct (sgd_load_data_run nrows ncols cached_default w) as [_ [S2 _]].
  destruct (sgd_matrix_tables w A nrows ncols Hf Hn) as [S1 Hev].
  rewrite Hev in S2.
  rewrite (mortgage_y_no_column w A nrows Hs) in S1.
  unfold split_80_20 in S1. cbn [map] in S1.
  change (named []) with (@nil (string * list Q)) in S1.
  split; [ eexists _, _; exact S1 | ].
  unfold SgdDriver.run. rewrite bind_run, S1. cbv beta iota.
  rewrite lift_run. cbn [getitem fst snd]. split; [ reflexivity | exact S2 ].
Qed.

(** ** The shapes the drivers print *)

Section Shapes.
Local Open Scope nat_scope.

Lemma frame_shape_named (c0 : list Q) (cols : list (list Q)) :
  frame_shape (named (c0 :: cols)) = (length c0, S (length cols)).
Proof. unfold frame_shape. rewrite length_named. reflexivity. Qed.

Lemma length_columns (X : ndarray2) : length (columns X) = shape1 X.
Proof. unfold columns. rewrite length_map. apply length_seq. Qed.

End Shapes.

Lemma print_shapes_log (t : tables) (w : world) :
  log (snd (print_shapes t w)) = log w ++ shape_lines t.
Proof.
  destruct t as [ [ [a b] c] d ].
  unfold print_shapes, print_shape, shape_lines, bind, emit. cbn [fst snd fs rng log].
  rewrite <- !app_assoc. reflexivity.
Qed.

Lemma shape_lines_of_split (nrows ncols : nat) (X : ndarray2) (y0 : list Q) :
  (1 <= ncols)%nat ->
  shape1 X = ncols -> shape0 X = nrows -> length y0 = nrows ->
  shape_lines (split_80_20 nrows (columns X) [y0]) = split_shape_lines nrows ncols.
Proof.
  intros Hc H1 H0 Hy. pose proof (train_rows_le nrows) as Hk.
  destruct (columns_nonempty X ltac:(lia)) as [c0 [cols [Ec Hl]]].
  pose proof (length_columns X) as Hlc. rewrite Ec in Hlc. simpl in Hlc.
  unfold split_80_20, shape_lines, split_shape_lines. rewrite Ec. cbn [map].
  rewrite !frame_shape_named, !length_map, !length_firstn, !length_skipn.
  cbn [length]. rewrite Hl, H0, Hy.
  replace (S (length cols)) with ncols by lia.
  rewrite Nat.min_l by lia. reflexivity.
Qed.

(** X9: without a cache and with at least one column, the four shapes the
    drivers print are [(k, ncols)], [(k, 1)], [(nrows - k, ncols)] and
    [(nrows - k, 1)] for [k = int(nrows*0.8)]: always in the SGD notebook,
    and in the ridge notebook when [make_regression] takes the arguments
    and [nrows] is not 1; for [nrows = 1] the ridge driver stops in the
    loader with IndexError and prints no shape. *)
Theorem shapes_of_the_synthetic_tables
    (lib : sklearn_datasets) (w : world) (nrows ncols : nat) :
  fs w cached_default = None -> (1 <= ncols)%nat ->
  (exists t_sgd,
     fst (Sgd.load_data nrows ncols cached_default w) = Ok t_sgd
     /\ forall w' : world,
          log (snd (print_shapes t_sgd w')) = log w' ++ split_shape_lines nrows ncols)
  /\ (regression_refuses lib nrows ncols ncols 0 = None ->
      (nrows <> 1%nat ->
       exists t_ridge,
         fst (Ridge.load_data lib nrows ncols cached_default w) = Ok t_ridge
         /\ forall w' : world,
              log (snd (print_shapes t_ridge w'))
              = log w' ++ split_shape_lines nrows ncols)
      /\ (nrows = 1%nat ->
          forall skRidge cuRidge : estimator,
            fst (RidgeDriver.run lib skRidge cuRidge nrows ncols w) = Raise IndexError
            /\ log (snd (RidgeDriver.run lib skRidge cuRidge nrows ncols w))
               = log w ++ [EvPrint "use random data"])).
Proof.
  intros Hf Hc.
  destruct (synthetic_tables lib w nrows ncols Hf) as [R1 S1].
  split; [ | intros Hr; split ].
  - eexists. split; [ exact S1 | ].
    intros w'. rewrite print_shapes_log. f_equal.
    change (columns (digit_column w nrows ncols))
      with [column (digit_column w nrows ncols) 0].
    apply shape_lines_of_split.
    + exact Hc.
    + reflexivity.
    + apply shape0_uniform_matrix.
    + unfold column. rewrite length_map. apply shape0_digit_column.
  - intros Hn.
    destruct (R1 Hr Hn) as [X [y [_ [H0 [H1 [Hy Hl]]]]]].
    eexists. split; [ exact Hl | ].
    intros w'. rewrite print_shapes_log. f_equal.
    apply shape_lines_of_split; assumption.
  - intros -> skRidge cuRidge.
    destruct (ridge_load_data_run lib 1 ncols cached_default w) as [L1 [L2 _]].
    rewrite (ridge_stop_without_cache lib w _ 1 ncols Hf), Hr in L1.
    cbn [Nat.eqb] in L1.
    unfold load_events in L2. rewrite Hf in L2.
    unfold RidgeDriver.run. rewrite bind_run, L1. cbn [fst snd].
    split; [ reflexivity | exact L2 ].
Qed.

(** ** More on the helpers *)

(** X10: converting twice is converting once, so [array_equal] gives the
    same answer on inputs converted beforehand. *)
Theorem to_nparray_is_idempotent (a b : pyobj) (threshold : Q) (with_sign : bool) :
  to_nparray (to_nparray a) = to_nparray a
  /\ array_equal (to_nparray a) (to_nparray b) threshold with_sign
     = array_equal a b threshold with_sign.
Proof.
  assert (H : forall x, to_nparray (to_nparray x) = to_nparray x)
    by (intros x; destruct x; reflexivity).
  split; [ apply H | ]. unfold array_equal. rewrite !H. reflexivity.
Qed.

Lemma squared_error_swap (x y : Q) : ((x - y) * (x - y) = (y - x) * (y - x))%Q.
Proof.
  destruct x as [xn xd], y as [yn yd].
  unfold Qminus, Qplus, Qopp, Qmult. cbn [Qnum Qden].
  f_equal; [ ring | ].
  rewrite (Pos.mul_comm xd yd). reflexivity.
Qed.

Lemma squared_errors_swap (a b : list Q) : squared_errors a b = squared_errors b a.
Proof.
  revert b. induction a as [ | x a IH ]; intros [ | y b ]; simpl; try reflexivity.
  rewrite IH, squared_error_swap. reflexivity.
Qed.

Lemma mean_squared_error_swap (a b : list Q) :
  mean_squared_error a b = mean_squared_error b a.
Proof.
  unfold mean_squared_error. rewrite (Nat.eqb_sym (length a) (length b)).
  destruct (Nat.eqb_spec (length b) (length a)) as [E | E]; [ | reflexivity ].
  simpl. rewrite E, squared_errors_swap. reflexivity.
Qed.

Lemma method_ravel_raises (x : pyobj) (e : exn) :
  method_ravel x = Raise e -> e = AttributeError.
Proof. destruct x; simpl; intros H; congruence. Qed.

(** X11: [array_equal] is symmetric in its two arrays, in the answers and in
    the exceptions. *)
Theorem array_equal_is_symmetric (a b : pyobj) (threshold : Q) (with_sign : bool) :
  array_equal a b threshold with_sign = array_equal b a threshold with_sign.
Proof.
  unfold array_equal.
  destruct (method_ravel (to_nparray a)) as [ ra | ea ] eqn:Ea;
    destruct (method_ravel (to_nparray b)) as [ rb | eb ] eqn:Eb; cbn [rbind].
  - destruct (Bool.eqb with_sign false); cbn [data np_abs];
      rewrite mean_squared_error_swap; reflexivity.
  - reflexivity.
  - reflexivity.
  - apply method_ravel_raises in Ea, Eb. congruence.
Qed.

Lemma squared_error_nonneg (x y : Q) : (0 <= (x - y) * (x - y))%Q.
Proof.
  destruct x as [xn xd], y as [yn yd].
  unfold Qle, Qminus, Qplus, Qopp, Qmult. cbn [Qnum Qden].
  rewrite Z.mul_0_l, Z.mul_1_r. apply Z.square_nonneg.
Qed.

Lemma Qsum_squared_errors_nonneg (a b : list Q) : (0 <= Qsum (squared_errors a b))%Q.
Proof.
  revert b. induction a as [ | x a IH ]; intros [ | y b ]; simpl;
    try apply Qle_refl.
  replace 0%Q with (0 + 0)%Q by reflexivity.
  apply Qplus_le_compat; [ apply squared_error_nonneg | apply IH ].
Qed.

Lemma mean_squared_error_nonneg (a b : list Q) (e : Q) :
  mean_squared_error a b = Ok e -> (0 <= e)%Q.
Proof.
  unfold mean_squared_error.
  destruct (negb (length a =? length b)%nat); [ discriminate | ].
  destruct (Nat.eqb_spec (length a) 0) as [ E | E ]; [ discriminate | ].
  intros H. injection H as <-.
  unfold Qdiv. apply Qmult_le_0_compat; [ apply Qsum_squared_errors_nonneg | ].
  apply Qinv_le_0_compat. unfold Qle. simpl. lia.
Qed.

Lemma never_below_nonpositive (l1 l2 : list Q) (threshold : Q) :
  (threshold <= 0)%Q ->
  rbind (mean_squared_error l1 l2) (fun error => Ok (Qltb error threshold)) <> Ok true.
Proof.
  intros Ht.
  destruct (mean_squared_error l1 l2) as [ e | e ] eqn:E; [ | discriminate ].
  apply mean_squared_error_nonneg in E.
  cbn [rbind]. intros H. injection H as H. apply Qltb_lt in H.
  apply (Qlt_irrefl 0). eapply Qle_lt_trans; [ exact E | ].
  eapply Qlt_le_trans; [ exact H | exact Ht ].
Qed.

(** X12: the comparison [error < threshold] is strict and the error is a
    mean of squares: with a threshold of 0 or less [array_equal] never
    returns True, not even for identical arrays. *)
Theorem nonpositive_threshold_is_never_met
    (a b : pyobj) (threshold : Q) (with_sign : bool) :
  (threshold <= 0)%Q ->
  array_equal a b threshold with_sign <> Ok true.
Proof.
  intros Ht. unfold array_equal.
  destruct (method_ravel (to_nparray a)) as [ ra | ea ]; [ | discriminate ].
  destruct (method_ravel (to_nparray b)) as [ rb | eb ]; [ | discriminate ].
  cbn [rbind].
  destruct (Bool.eqb with_sign false); apply never_below_nonpositive, Ht.
Qed.

Lemma Qsum_squared_errors_self (l : list Q) : (Qsum (squared_errors l l) == 0)%Q.
Proof.
  induction l as [ | x l IH ]; simpl; [ reflexivity | ].
  rewrite IH. ring.
Qed.

(** X13: under any positive threshold a convertible, non-empty input whose
    elements are finite numbers (the elements of the embedding: no NaN, no
    infinity) is equal to itself. *)
Theorem array_equal_to_itself (a : pyobj) (threshold : Q) (with_sign : bool) :
  supported a = true -> flat a <> [] -> (0 < threshold)%Q ->
  array_equal a a threshold with_sign = Ok true.
Proof.
  intros Hs Hne Ht. rewrite (array_equal_unfold a a threshold with_sign Hs Hs).
  assert (Hne' : signed with_sign (flat a) <> []).
  { destruct with_sign; simpl; [ exact Hne | ].
    destruct (flat a); [ congruence | discriminate ]. }
  rewrite (mean_squared_error_defined _ _ eq_refl Hne'). cbn [rbind]. f_equal.
  apply Qltb_lt. unfold mse.
  set (l := signed with_sign (flat a)).
  assert (H0 : (Qsum (squared_errors l l) / inject_Z (Z.of_nat (length l)) == 0)%Q).
  { unfold Qdiv. rewrite Qsum_squared_errors_self. ring. }
  rewrite H0. exact Ht.
Qed.

(** X14: for convertible inputs whose element counts differ, or that have
    no element, [array_equal] does not answer False: the
    [mean_squared_error] call raises ValueError. *)
Theorem array_equal_needs_matching_counts
    (a b : pyobj) (threshold : Q) (with_sign : bool) :
  supported a = true -> supported b = true ->
  length (flat a) <> length (flat b) \/ flat a = [] ->
  array_equal a b threshold with_sign = Raise ValueError.
Proof.
  intros Ha Hb H. rewrite (array_equal_unfold a b threshold with_sign Ha Hb).
  unfold mean_squared_error. rewrite !length_signed.
  destruct (Nat.eqb_spec (length (flat a)) (length (flat b))) as [E | E].
  - destruct H as [H | H]; [ contradiction | ]. rewrite H. reflexivity.
  - reflexivity.
Qed.

Section ArrayInvariant.
Local Open Scope nat_scope.

Lemma length_concat_rect {A : Type} (rows : list (list A)) (m : nat) :
  Forall (fun r => length r = m) rows -> length (concat rows) = length rows * m.
Proof.
  induction 1 as [ | r rows Hr _ IH ]; [ reflexivity | ].
  simpl. rewrite length_app, IH, Hr. reflexivity.
Qed.

Lemma frame_values_array_ok (df : DataFrame) :
  array_ok (ndarray_of_2d (frame_values df)).
Proof.
  unfold array_ok, ndarray_of_2d. cbn [data shape fold_right].
  rewrite (length_concat_rect _ (length df)) by apply frame_values_rect.
  fold (shape0 (frame_values df)).
  change (shape1 (frame_values df)) with (length df). lia.
Qed.

End ArrayInvariant.

(** X15: what [to_nparray] returns for the five classes is a well-formed
    array (its buffer has one number per position of its shape), and so is
    its [ravel], which keeps the numbers in order. *)
Theorem converted_arrays_are_well_formed (x : pyobj) :
  supported x = true -> input_ok x ->
  exists a,
    to_nparray x = NpNdarray a /\ array_ok a
    /\ method_ravel (to_nparray x) = Ok (ravel a)
    /\ array_ok (ravel a)
    /\ data (ravel a) = data a.
Proof.
  intros Hs Hok.
  assert (Hr : forall a, array_ok (ravel a)).
  { intros a. unfold array_ok, ravel, ndarray_of_1d. cbn [data shape fold_right]. lia. }
  assert (H1 : forall v, array_ok (ndarray_of_1d v)).
  { intros v. unfold array_ok, ndarray_of_1d. cbn [data shape fold_right]. lia. }
  destruct x; try discriminate Hs; simpl in Hok;
    eexists; (split; [ reflexivity | ]);
    (split; [ | split; [ reflexivity | split; [ apply Hr | reflexivity ] ] ]).
  - exact Hok.
  - apply frame_values_array_ok.
  - apply H1.
  - apply frame_values_array_ok.
  - apply H1.
Qed.

(** X1: for every [nrows], whatever its size, [int(nrows*0.8)] does not
    exceed [nrows], and is below it as soon as there is one row: the two
    roundings of the double product never push the split point past the
    data, so [X[train_rows:]] keeps [nrows - train_rows] rows, at least one,
    and [X[0:train_rows]] exactly [train_rows]. *)
Theorem split_point_within_rows (nrows : nat) :
  (train_rows nrows <= nrows)%nat
  /\ (nrows = 0%nat \/ (train_rows nrows < nrows)%nat)
  /\ (forall X : ndarray2, shape0 X = nrows ->
        length (from_row_column X (train_rows nrows) 0) = (nrows - train_rows nrows)%nat
        /\ length (slice_rows_column X 0 (train_rows nrows) 0) = train_rows nrows).
Proof.
  pose proof (train_rows_le nrows) as Hle.
  split; [ exact Hle | split ].
  - destruct nrows as [ | n ]; [ left; reflexivity | right ].
    apply train_rows_lt. lia.
  - intros X HX. unfold from_row_column, slice_rows_column, shape0 in *.
    rewrite !length_map, length_skipn, length_firstn, Nat.sub_0_r. simpl skipn. lia.
Qed.

(** X2: below 2^50 rows the double product is harmless: [int(nrows*0.8)]
    is exactly the integer quotient of [4*nrows] by 5; it is 0, an empty
    train set, only for [nrows <= 1]. *)
Theorem split_point_is_four_fifths (nrows : nat) :
  Z.of_nat nrows < 2 ^ 50 ->
  train_rows nrows = (4 * nrows / 5)%nat
  /\ (train_rows nrows = 0%nat <-> (nrows <= 1)%nat).
Proof.
  intros H.
  assert (E : train_rows nrows = (4 * nrows / 5)%nat).
  { unfold train_rows. rewrite int_mul_0_8_is_four_fifths by lia.
    rewrite <- (Nat2Z.id (4 * nrows / 5)). f_equal.
    rewrite Nat2Z.inj_div, Nat2Z.inj_mul. reflexivity. }
  split; [ exact E | ]. rewrite E. split.
  - intros H0. destruct (Nat.le_gt_cases nrows 1) as [ | Hgt ]; [ assumption | ].
    exfalso. assert (1 <= 4 * nrows / 5)%nat; [ | lia ].
    apply Nat.div_le_lower_bound; lia.
  - intros Hle. apply Nat.div_small. lia.
Qed.

Lemma split_point_is_four_fifths_witness : train_rows 10 = (4 * 10 / 5)%nat.
Proof. apply (split_point_is_four_fifths 10). reflexivity. Defined.

(** X16: with a cached array both loaders return the same four tables; the
    feature tables have [min(ncols, c)] columns, where [c] is the cached
    array's column count less the dropped column 4 (nothing is dropped from
    an array of fewer than five columns): asking for more columns than there
    are is silently cut short; the label tables have one column when the
    cache has at least six, else none. *)
Theorem cached_feature_columns
    (lib : sklearn_datasets) (w : world) (A : ndarray2) (nrows ncols : nat) :
  fs w cached_default = matrix_file A ->
  nothing_to_sample A nrows = false ->
  exists X_train X_test y_train y_test,
    fst (Sgd.load_data nrows ncols cached_default w)
    = Ok (X_train, X_test, y_train, y_test)
    /\ fst (Ridge.load_data lib nrows ncols cached_default w)
       = Ok (X_train, X_test, y_train, y_test)
    /\ length X_train
       = Nat.min ncols (if (5 <=? shape1 A)%nat then shape1 A - 1 else shape1 A)%nat
    /\ length X_test = length X_train
    /\ length y_train = (if (6 <=? shape1 A)%nat then 1 else 0)%nat
    /\ length y_test = length y_train.
Proof.
  intros Hf Hn.
  destruct (matrix_tables lib w A nrows ncols Hf Hn) as [S1 R1].
  unfold split_80_20 in S1, R1.
  eexists _, _, _, _. split; [ exact S1 | split; [ exact R1 | ] ].
  rewrite !length_named, !length_map, !length_columns.
  unfold mortgage_X, mortgage_y, slice_columns, without_column_4, take_columns.
  cbn [shape1]. rewrite kept_columns_count.
  repeat split.
  destruct (Nat.leb_spec 5 (shape1 A)); destruct (Nat.leb_spec 6 (shape1 A)); lia.
Qed.

Lemma split_point_within_rows_witness :
  length (from_row_column small_cache (train_rows 3) 0) = (3 - train_rows 3)%nat
  /\ length (slice_rows_column small_cache 0 (train_rows 3) 0) = train_rows 3.
Proof.
  apply (proj2 (proj2 (split_point_within_rows 3)) small_cache). reflexivity.
Defined.

Lemma last_cached_row_is_never_sampled_witness :
  exists X y,
    fst (mortgage_dataset 5 2 cached_default small_cache_world) = Ok (Flat X, Flat y)
    /\ shape0 X = 5%nat.
Proof.
  destruct (last_cached_row_is_never_sampled small_cache_world small_cache 5 2
              cached_default eq_refl eq_refl) as [X [y [H1 [H2 _]]]].
  exists X, y. split; assumption.
Defined.

Lemma label_is_among_the_features_witness :
  exists X_train X_test y_train y_test,
    fst (Sgd.load_data 5 6 cached_default small_cache_world)
    = Ok (X_train, X_test, y_train, y_test)
    /\ getitem X_train "fea4" = getitem y_train "fea0".
Proof.
  destruct (label_is_among_the_features toy_datasets small_cache_world small_cache 5 6
              eq_refl ltac:(repeat constructor) ltac:(repeat constructor) eq_refl)
    as [a [b [c [d [H1 [_ [H2 _]]]]]]].
  exists a, b, c, d. split; assumption.
Defined.

Example label_leaks_in_small_cache :
  fst (Sgd.load_data 5 6 cached_default small_cache_world)
  = Ok ([("fea0", [20; 10; 20; 10]); ("fea1", [21; 11; 21; 11]);
         ("fea2", [22; 12; 22; 12]); ("fea3", [23; 13; 23; 13]);
         ("fea4", [25; 15; 25; 15]); ("fea5", [26; 16; 26; 16])],
        [("fea0", [20]); ("fea1", [21]); ("fea2", [22]); ("fea3", [23]);
         ("fea4", [25]); ("fea5", [26])],
        [("fea0", [25; 15; 25; 15])],
        [("fea0", [25])])%string%Q.
Proof. vm_compute. reflexivity. Qed.

Lemma load_data_exceptions_witness :
  fst (Sgd.load_data 1 6 cached_default single_row_world) = Raise ValueError
  /\ fst (Sgd.load_data 5 2 cached_default vector_cache_world) = Raise IndexError
  /\ fst (Ridge.load_data toy_datasets 5 2 cached_default deep_cache_world)
     = Raise ValueError
  /\ fst (Ridge.load_data toy_datasets 5 2 cached_default broken_cache_world)
     = Raise OSError
  /\ sgd_stop no_cache_world cached_default 1 2 = None.
Proof.
  split; [ | split; [ | split; [ | split ] ] ].
  - apply (load_data_exceptions toy_datasets single_row_world 1 6 ValueError).
    reflexivity.
  - apply (load_data_exceptions toy_datasets vector_cache_world 5 2 IndexError).
    reflexivity.
  - apply (load_data_exceptions toy_datasets deep_cache_world 5 2 ValueError).
    reflexivity.
  - apply (load_data_exceptions toy_datasets broken_cache_world 5 2 OSError).
    reflexivity.
  - apply (load_data_exceptions toy_datasets no_cache_world 1 2 ValueError).
    reflexivity.
Defined.

Lemma array_equal_to_itself_witness :
  array_equal (PdDataFrame [("fea0"%string, [1; -2]%Q)])
              (PdDataFrame [("fea0"%string, [1; -2]%Q)]) threshold_default true
  = Ok true.
Proof.
  apply (array_equal_to_itself (PdDataFrame [("fea0"%string, [1; -2]%Q)])
           threshold_default true); [ reflexivity | discriminate | reflexivity ].
Defined.

Lemma nonpositive_threshold_is_never_met_witness :
  array_equal (NpFloat64 1) (NpFloat64 1) 0 true <> Ok true.
Proof.
  apply (nonpositive_threshold_is_never_met (NpFloat64 1) (NpFloat64 1) 0 true).
  discriminate.
Defined.

Lemma narrow_cache_stops_the_sgd_driver_witness :
  fst (SgdDriver.run toy_estimator toy_estimator 5 3 narrow_cache_world) = Raise KeyError.
Proof.
  apply (narrow_cache_stops_the_sgd_driver toy_estimator toy_estimator narrow_cache_world
           {| shape1 := 5;
              rows2 := [[1; 2; 3; 4; 5]; [6; 7; 8; 9; 10]; [11; 12; 13; 14; 15]]%Q |}
           5 3); [ reflexivity | repeat constructor | reflexivity ].
Defined.

Lemma shapes_of_the_synthetic_tables_witness :
  (exists t_sgd,
     fst (Sgd.load_data 5 2 cached_default no_cache_world) = Ok t_sgd
     /\ log (snd (print_shapes t_sgd no_cache_world)) = split_shape_lines 5 2)
  /\ exists t_ridge,
       fst (Ridge.load_data toy_datasets 5 2 cached_default no_cache_world) = Ok t_ridge
       /\ log (snd (print_shapes t_ridge no_cache_world)) = split_shape_lines 5 2.
Proof.
  destruct (shapes_of_the_synthetic_tables toy_datasets no_cache_world 5 2 eq_refl
              ltac:(repeat constructor)) as [[a [H1 H2]] H3].
  destruct (H3 eq_refl) as [H3' _].
  destruct (H3' ltac:(discriminate)) as [b [H4 H5]].
  split; [ exists a | exists b ]; split; try assumption.
  - apply (H2 no_cache_world).
  - apply (H5 no_cache_world).
Defined.

Lemma converted_arrays_are_well_formed_witness :
  exists a,
    to_nparray (PdDataFrame [("fea0"%string, [1; 2]); ("fea1"%string, [3; 4])]%Q)
    = NpNdarray a /\ array_ok a.
Proof.
  destruct (converted_arrays_are_well_formed
              (PdDataFrame [("fea0"%string, [1; 2]); ("fea1"%string, [3; 4])]%Q)
              eq_refl ltac:(repeat constructor)) as [a [H1 [H2 _]]].
  exists a. split; assumption.
Defined.

Lemma array_equal_needs_matching_counts_witness :
  array_equal (NpFloat64 1) (CudfSeries [1; 2]%Q) threshold_default true
  = Raise ValueError.
Proof.
  apply (array_equal_needs_matching_counts (NpFloat64 1) (CudfSeries [1; 2]%Q)
           threshold_default true); [ reflexivity | reflexivity | left; discriminate ].
Defined.

Lemma cached_feature_columns_witness :
  exists X_train X_test y_train y_test,
    fst (Sgd.load_data 5 9 cached_default small_cache_world)
    = Ok (X_train, X_test, y_train, y_test)
    /\ length X_train = 6%nat.
Proof.
  destruct (cached_feature_columns toy_datasets small_cache_world small_cache 5 9
              eq_refl eq_refl) as [a [b [c [d [H1 [_ [H2 _]]]]]]].
  exists a, b, c, d. split; assumption.
Defined.

(** X17: in the ridge driver sklearn is given the label frame and cuML its
    first column, [y_train.values[:, 0]]; for the one-column label frame the
    loader returns without a cache (when [make_regression] takes the
    arguments and [nrows] is not 1) these are the same numbers, the first
    [int(nrows*0.8)] targets, so both models are fit on the same targets. *)
Theorem ridge_models_share_their_targets
    (lib : sklearn_datasets) (w : world) (nrows ncols : nat) :
  fs w cached_default = None ->
  regression_refuses lib nrows ncols ncols 0 = None -> nrows <> 1%nat ->
  exists X y X_train X_test y_train y_test,
    make_regression lib nrows ncols ncols 0 = Ok (X, Target1 y)
    /\ fst (Ridge.load_data lib nrows ncols cached_default w)
       = Ok (X_train, X_test, y_train, y_test)
    /\ frame_flat y_train = firstn (train_rows nrows) y
    /\ RidgeDriver.first_column (frame_values y_train) = Ok (frame_flat y_train).
Proof.
  intros Hf Hr Hn.
  destruct (synthetic_tables lib w nrows ncols Hf) as [R1 _].
  destruct (R1 Hr Hn) as [X [y [E [_ [_ [_ Hl]]]]]].
  unfold split_80_20 in Hl. cbn [map] in Hl. rewrite !named_single in Hl.
  exists X, y. eexists _, _, _, _. split; [ exact E | split; [ exact Hl | ] ].
  rewrite frame_flat_single. split; [ reflexivity | ].
  unfold RidgeDriver.first_column, frame_values, column. cbn [shape1 length rows2 Nat.ltb Nat.leb].
  f_equal. rewrite map_map. cbn [map nth snd frame_len].
  apply map_nth_seq.
Qed.

Lemma ridge_models_share_their_targets_witness :
  exists X_train X_test y_train y_test,
    fst (Ridge.load_data toy_datasets 5 2 cached_default no_cache_world)
    = Ok (X_train, X_test, y_train, y_test)
    /\ RidgeDriver.first_column (frame_values y_train) = Ok (frame_flat y_train).
Proof.
  destruct (ridge_models_share_their_targets toy_datasets no_cache_world 5 2 eq_refl
              eq_refl ltac:(discriminate))
    as [X [y [a [b [c [d [_ [H1 [_ H2]]]]]]]]].
  exists a, b, c, d. split; assumption.
Defined.
